(** * amazon-scrape: protected browsing session controller

    A shallow embedding of the anti-blocking core of the scraper
    ([anti_block.py], [fingerprint.py], [scraper/detection.py],
    [scraper/extractor.py], [extract/loader.py], [scraper/worker.py]) and
    the properties its specification states about it.

    Modelling conventions.
    - A Python [str] is a list of code points below 256 ([list ascii]);
      [str.lower], [str.strip] and the regular expression class [\s] are
      written out for that range.
    - A Python [float] that only carries a delay or a backoff factor is an
      exact rational ([Q]).
    - [random] and the wall clock are inputs: a draw of [random.choice] is
      a natural number reduced modulo the length of the sequence.
    - The browser is an external capability: it is a state of an abstract
      type together with the operations the code calls on it. *)

From Stdlib Require Import QArith Qminmax Qround Lqa Ascii String ZArith Lia.
From Stdlib Require Import DecimalString Decimal.
From stdpp Require Import gmap strings list.

Local Open Scope Z_scope.

(** ** Python strings *)

Abbreviation pystr := (list ascii).

(** A literal. *)
Definition str (s : string) : pystr := list_ascii_of_string s.

Module Py.

Definition code (c : ascii) : N := N_of_ascii c.

(** [c.lower()] for one code point of the Latin-1 range: the ASCII
      capitals and the capitals U+00C0..U+00DE (without the sign U+00D7)
      move up by 32; everything else is unchanged. *)
Definition lower_char (c : ascii) : ascii :=
    let n := code c in
    if ((65 <=? n) && (n <=? 90))%N then ascii_of_N (n + 32)
    else if ((192 <=? n) && (n <=? 222) && negb (n =? 215))%N
         then ascii_of_N (n + 32)
    else c.

Definition lower (s : pystr) : pystr := map lower_char s.

(** [c.isspace()], which is also the class [\s] of a [str] pattern. *)
Definition isspace (c : ascii) : bool :=
    let n := code c in
    (((9 <=? n) && (n <=? 13)) || ((28 <=? n) && (n <=? 32))
     || (n =? 133) || (n =? 160))%N.

Definition eqc (a b : ascii) : bool := Ascii.eqb a b.

(** [s.startswith(p)]. *)
Fixpoint startswith (p s : pystr) : bool :=
    match p, s with
    | [], _ => true
    | _ :: _, [] => false
    | a :: p', b :: s' => eqc a b && startswith p' s'
    end.

(** [p in s] for strings. *)
Fixpoint contains (p s : pystr) : bool :=
    startswith p s ||
    match s with
    | [] => false
    | _ :: s' => contains p s'
    end.

(** [s.lstrip()], [s.rstrip()], [s.strip()]. *)
Fixpoint lstrip (s : pystr) : pystr :=
    match s with
    | c :: s' => if isspace c then lstrip s' else s
    | [] => []
    end.

Definition rstrip (s : pystr) : pystr := rev (lstrip (rev s)).

Definition strip (s : pystr) : pystr := rstrip (lstrip s).

(** [s[:n]]. *)
Definition upto (n : nat) (s : pystr) : pystr := take n s.

(** [len(s)]. *)
Definition len (s : pystr) : Z := Z.of_nat (length s).

(** Truthiness of a string. *)
Definition truthy (s : pystr) : bool :=
    match s with [] => false | _ => true end.

(** The first element of a list that satisfies a test, as a [for] loop
      with an early [return] finds it. *)
Fixpoint first_such {A} (f : A -> bool) (l : list A) : option A :=
    match l with
    | [] => None
    | x :: l' => if f x then Some x else first_such f l'
    end.

End Py.

(** ** Exceptions *)

Inductive exn :=
| ZeroDivisionError
| AttributeError
| TimeoutException
| NoSuchElementException
| WebDriverException.

(** The outcome of an operation: a value or an exception. *)
Inductive result (A : Type) :=
| Ok (a : A)
| Err (e : exn).
Arguments Ok {A} a.
Arguments Err {A} e.

(** The outcome of a computation: a value, an exception, or [Diverge] when
    a loop of the model was cut off before it ended. *)
Inductive except (A : Type) :=
| Success (a : A)
| Raise (e : exn)
| Diverge.
Arguments Success {A} a.
Arguments Raise {A} e.
Arguments Diverge {A}.

(** ** [anti_block.py]: ProxyManager *)

Module ProxyManager.

Record t := mk {
    proxy_list : list pystr;
    current_index : Z;
    failed_proxies : gset pystr
  }.

(** [__init__]: [proxy_list or []]. *)
Definition init (proxy_list : option (list pystr)) : t :=
    {| proxy_list := match proxy_list with Some l => l | None => [] end;
       current_index := 0;
       failed_proxies := ∅ |}.

(** [random.choice(seq)] with the draw [r] of the generator. *)
Definition choice {A} (r : nat) (seq : list A) : option A :=
    seq !! (r `mod` length seq)%nat.

(** [get_next_proxy]; [r] is the draw of [random.choice]. *)
Definition get_next_proxy (r : nat) (pm : t) : option pystr * t :=
    match proxy_list pm with
    | [] => (None, pm)
    | _ :: _ =>
      let available :=
        filter (fun p => p ∉ failed_proxies pm) (proxy_list pm) in
      match available with
      | [] =>
        let pm' := {| proxy_list := proxy_list pm;
                      current_index := current_index pm;
                      failed_proxies := ∅ |} in
        (choice r (proxy_list pm), pm')
      | _ :: _ => (choice r available, pm)
      end
    end.

(** [mark_failed]; the argument is [None] when the caller holds no
      proxy. *)
Definition mark_failed (proxy : option pystr) (pm : t) : t :=
    match proxy with
    | Some p =>
      if Py.truthy p
      then {| proxy_list := proxy_list pm;
              current_index := current_index pm;
              failed_proxies := failed_proxies pm ∪ {[ p ]} |}
      else pm
    | None => pm
    end.

End ProxyManager.

(** ** [anti_block.py]: ThrottleManager *)

Module ThrottleManager.

Record t := mk {
    min_delay : Q;
    max_delay : Q;
    burst_threshold : Z;
    request_count : Z;
    last_request_time : Q;
    backoff_multiplier : Q
  }.

Definition init (min_delay max_delay : Q) (burst_threshold : Z) : t :=
    {| min_delay := min_delay; max_delay := max_delay;
       burst_threshold := burst_threshold;
       request_count := 0; last_request_time := 0;
       backoff_multiplier := 1 |}.

Definition set_multiplier (m : Q) (tm : t) : t :=
    {| min_delay := min_delay tm; max_delay := max_delay tm;
       burst_threshold := burst_threshold tm;
       request_count := request_count tm;
       last_request_time := last_request_time tm;
       backoff_multiplier := m |}.

Definition set_count (n : Z) (tm : t) : t :=
    {| min_delay := min_delay tm; max_delay := max_delay tm;
       burst_threshold := burst_threshold tm;
       request_count := n;
       last_request_time := last_request_time tm;
       backoff_multiplier := backoff_multiplier tm |}.

Definition set_last (q : Q) (tm : t) : t :=
    {| min_delay := min_delay tm; max_delay := max_delay tm;
       burst_threshold := burst_threshold tm;
       request_count := request_count tm;
       last_request_time := q;
       backoff_multiplier := backoff_multiplier tm |}.

Definition Qltb (a b : Q) : bool := negb (Qle_bool b a).

(** [wait]: [base_delay] is the draw of
    [random.uniform(min_delay, max_delay)], [now] the clock read before
    sleeping and [now'] the clock read at the end. The result is the time
    to sleep, if any. A zero burst threshold makes [%] raise. *)
Definition wait_plan (base_delay now : Q) (tm : t) : result (option Q) * t :=
  let tm1 := set_count (request_count tm + 1) tm in
  if burst_threshold tm1 =? 0 then (Err ZeroDivisionError, tm1)
  else
    let tm2 :=
      if request_count tm1 `mod` burst_threshold tm1 =? 0
      then set_multiplier (Qmin (backoff_multiplier tm1 * 1.5) 3) tm1
      else tm1 in
    let actual_delay := (base_delay * backoff_multiplier tm2)%Q in
    let time_since_last := (now - last_request_time tm2)%Q in
    if Qltb time_since_last actual_delay
    then (Ok (Some (actual_delay - time_since_last)%Q), tm2)
    else (Ok None, tm2).

Definition wait (base_delay now now' : Q) (tm : t) : result unit * t :=
  match wait_plan base_delay now tm with
  | (Ok _, tm2) => (Ok tt, set_last now' tm2)
  | (Err e, tm1) => (Err e, tm1)
  end.

Definition report_success (tm : t) : t :=
    if Qltb 1 (backoff_multiplier tm)
    then set_multiplier (Qmax 1 (backoff_multiplier tm * 0.9)) tm
    else tm.

Definition report_error (error_type : pystr) (tm : t) : t :=
    if bool_decide (error_type = str "rate_limit")
    then set_multiplier (Qmin (backoff_multiplier tm * 2) 5) tm
    else if bool_decide (error_type = str "block")
    then set_multiplier (Qmin (backoff_multiplier tm * 3) 10) tm
    else tm.

Definition reset (tm : t) : t :=
    set_multiplier 1 (set_count 0 tm).

(** One call on a throttle manager, for sequences of calls. *)
Inductive call :=
  | Wait (base_delay now now' : Q)
  | ReportSuccess
  | ReportError (error_type : pystr).

Definition run_call (tm : t) (c : call) : t :=
    match c with
    | Wait b n n' => snd (wait b n n' tm)
    | ReportSuccess => report_success tm
    | ReportError k => report_error k tm
    end.

Definition run (calls : list call) (tm : t) : t :=
    fold_left run_call calls tm.

End ThrottleManager.

(** ** The environment of a run

    The code acts on a browser, draws random numbers, sleeps and reads the
    clock. All of that is one state [W]; every operation either returns a
    value or raises, and leaves a new state. *)

Definition M (W A : Type) : Type := W -> except A * W.

Definition ret {W A} (a : A) : M W A := fun w => (Success a, w).

Definition throw {W A} (e : exn) : M W A := fun w => (Raise e, w).

Definition bind {W A B} (m : M W A) (k : A -> M W B) : M W B :=
  fun w =>
    match m w with
    | (Success a, w') => k a w'
    | (Raise e, w') => (Raise e, w')
    | (Diverge, w') => (Diverge, w')
    end.

(** [try: m except Exception: h]. *)
Definition try_except {W A} (m : M W A) (h : exn -> M W A) : M W A :=
  fun w =>
    match m w with
    | (Success a, w') => (Success a, w')
    | (Raise e, w') => h e w'
    | (Diverge, w') => (Diverge, w')
    end.

(** [try: m except NoSuchElementException: h]. *)
Definition try_except_no_such_element {W A} (m : M W A) (h : M W A)
  : M W A :=
  fun w =>
    match m w with
    | (Raise NoSuchElementException, w') => h w'
    | r => r
    end.

Definition diverge {W A} : M W A := fun w => (Diverge, w).

Definition outcome {A} (r : result A) : except A :=
  match r with
  | Ok a => Success a
  | Err e => Raise e
  end.

(** A call of an operation of the environment. *)
Definition call {W A} (op : W -> result A * W) : M W A :=
  fun w => let '(r, w') := op w in (outcome r, w').

(** A read: it may raise, and it leaves the state as it is. *)
Definition read {W A} (f : W -> result A) : M W A :=
  fun w => (outcome (f w), w).

(** A step that cannot raise. *)
Definition step {W A} (f : W -> A * W) : M W A :=
  fun w => let '(a, w') := f w in (Success a, w').

Definition modify {W} (f : W -> W) : M W unit :=
  fun w => (Success tt, f w).

#[global] Instance M_ret {W} : MRet (M W) := fun A a => ret a.
#[global] Instance M_bind {W} : MBind (M W) := fun A B k m => bind m k.

(** [By.XPATH] and [By.CSS_SELECTOR]. *)
Inductive By := XPATH | CSS_SELECTOR.

#[global] Instance By_eq_dec : EqDecision By.
Proof. solve_decision. Defined.

(** The browser session, the [random] module and the clock, as the code
    uses them. [E] is the type of element handles. *)
Class Env (W E : Type) := {
  (* webdriver.Chrome(options) with the fingerprint script installed *)
  chrome : list pystr -> W -> result unit * W;
  quit : W -> result unit * W;
  get : pystr -> W -> result unit * W;
  (* WebDriverWait(driver, 15).until(presence of body) *)
  wait_for_body : W -> result unit * W;
  current_url : W -> result pystr;
  title : W -> result pystr;
  page_source : W -> result pystr;
  find_element : By -> pystr -> W -> result E;
  find_elements : By -> pystr -> W -> result (list E);
  is_displayed : E -> W -> result bool;
  get_attribute_href : E -> W -> result (option pystr);
  click : E -> W -> result unit * W;
  (* execute_script *)
  script_scroll_height : W -> result Z;
  script_inner_height : W -> result Z;
  script_scroll_to : Z -> W -> result unit * W;
  script_scroll_into_view : E -> W -> result unit * W;
  script_click : E -> W -> result unit * W;
  script_in_viewport : E -> W -> result bool;
  (* time *)
  sleep : Q -> W -> W;
  clock : W -> Q;
  strftime : W -> pystr;
  (* random: a raw draw, and random.random() *)
  draw : W -> nat * W;
  random : W -> Q * W
}.

Section RandomModule.
Context {W E : Type} `{Env W E}.

(** [random.randint(a, b)]. *)
Definition randint (a b : Z) : M W Z :=
    step (fun w => let '(r, w') := draw w in
                   (a + Z.of_nat r `mod` (b - a + 1), w')).

(** [random.uniform(a, b)]. *)
Definition uniform (a b : Q) : M W Q :=
    step (fun w => let '(u, w') := random w in ((a + (b - a) * u)%Q, w')).

(** [time.sleep(d)]. *)
Definition time_sleep (d : Q) : M W unit := modify (sleep d).

End RandomModule.

(** ** [fingerprint.py] *)

(** A [random.Random] instance and [hashlib.md5]. The Mersenne Twister and
    MD5 are taken as given: a generator state with its seeding and its
    draws, and the digest as a function of the encoded text. *)
Class PyRandom (G : Type) := {
  Random : Z -> G;
  getrandbits : G -> nat * G;
  rng_random : G -> Q * G
}.

Class Hashlib := { md5_hexdigest : pystr -> pystr }.

(** [int(x)] of a float: truncation toward zero. *)
Definition py_int (x : Q) : Z :=
  if Qle_bool 0 x then Qfloor x else Qceiling x.

(** [str(n)] of an integer. *)
Definition str_of_Z (n : Z) : pystr :=
  str (NilZero.string_of_int (Z.to_int n)).

Module BrowserFingerprint.

Definition SCREEN_RESOLUTIONS : list (Z * Z) :=
    [(1920, 1080); (1366, 768); (1536, 864); (1440, 900);
     (1280, 720); (1600, 900); (2560, 1440); (1280, 800);
     (1680, 1050); (1360, 768); (1920, 1200); (2560, 1080)].

Definition ua (nt chrome : string) : pystr :=
    str ("Mozilla/5.0 (Windows NT " ++ nt
         ++ "; Win64; x64) AppleWebKit/537.36 (KHTML, like Gecko) Chrome/"
         ++ chrome ++ " Safari/537.36").

Definition USER_AGENTS : list pystr :=
    [ua "10.0" "121.0.0.0"; ua "10.0" "120.0.0.0"; ua "10.0" "119.0.0.0";
     ua "10.0" "122.0.0.0"; ua "10.0" "118.0.0.0"; ua "11.0" "121.0.0.0";
     ua "11.0" "120.0.0.0"].

Definition LANGUAGES : list (list pystr) :=
    [[str "en-US"; str "en"]; [str "en-GB"; str "en"];
     [str "en-IN"; str "en"]].

Definition TIMEZONES : list (pystr * Z) :=
    [(str "Asia/Kolkata", -330); (str "America/New_York", 300);
     (str "America/Los_Angeles", 480); (str "Europe/London", 0)].

Definition angle (vendor gpu : string) : pystr * pystr :=
    (str ("Google Inc. (" ++ vendor ++ ")"),
     str ("ANGLE (" ++ vendor ++ ", " ++ gpu
          ++ " Direct3D11 vs_5_0 ps_5_0, D3D11)")).

Definition WEBGL_CONFIGS : list (pystr * pystr) :=
    [angle "NVIDIA" "NVIDIA GeForce GTX 1650";
     angle "NVIDIA" "NVIDIA GeForce RTX 3060";
     angle "Intel" "Intel(R) UHD Graphics 630";
     angle "AMD" "AMD Radeon RX 580 Series";
     angle "Intel" "Intel(R) Iris(R) Xe Graphics";
     angle "NVIDIA" "NVIDIA GeForce RTX 2070"].

Definition HARDWARE_CONCURRENCY : list Z := [4; 6; 8; 12; 16].
Definition DEVICE_MEMORY : list Z := [4; 8; 16; 32].
Definition PLATFORMS : list pystr := [str "Win32"].

Record t := mk {
    seed : Z;
    screen_resolution : Z * Z;
    screen_width : Z;
    screen_height : Z;
    color_depth : Z;
    pixel_ratio : Q;
    window_width : Z;
    window_height : Z;
    user_agent : pystr;
    languages : list pystr;
    timezone : pystr * Z;
    webgl : pystr * pystr;
    hardware_concurrency : Z;
    device_memory : Z;
    platform : pystr;
    canvas_noise : Q;
    audio_noise : Q;
    canvas_hash : pystr;
    webgl_hash : pystr;
    audio_hash : pystr
  }.

Section Generate.
Context {G : Type} `{PyRandom G} `{Hashlib}.

(** The methods of [self._rng], threading the generator. *)
Definition Gen (A : Type) : Type := G -> A * G.

#[local] Instance Gen_ret : MRet Gen := fun A a g => (a, g).
#[local] Instance Gen_bind : MBind Gen :=
      fun A B k m g => let '(a, g') := m g in k a g'.

(** [self._rng.choice(seq)] on a catalogue; [d] stands for the
        [IndexError] of an empty one, which no catalogue here is. *)
Definition choice {A} (d : A) (seq : list A) : Gen A :=
      fun g => let '(r, g') := getrandbits g in
               (nth (r `mod` length seq)%nat seq d, g').

Definition randint (a b : Z) : Gen Z :=
      fun g => let '(r, g') := getrandbits g in
               (a + Z.of_nat r `mod` (b - a + 1), g').

Definition uniform (a b : Q) : Gen Q :=
      fun g => let '(u, g') := rng_random g in ((a + (b - a) * u)%Q, g').

(** [_generate_ids]. *)
Definition generate_ids (seed : Z) (user_agent : pystr)
        (screen_width : Z) : pystr * pystr * pystr :=
      let base := str_of_Z seed ++ str "-" ++ user_agent ++ str "-"
                  ++ str_of_Z screen_width in
      (take 16 (md5_hexdigest (str "canvas-" ++ base)),
       take 16 (md5_hexdigest (str "webgl-" ++ base)),
       take 16 (md5_hexdigest (str "audio-" ++ base))).

(** [_generate_fingerprint]. *)
Definition generate_fingerprint (seed : Z) : Gen t :=
      screen_resolution ← choice (0, 0) SCREEN_RESOLUTIONS;
      let screen_width := fst screen_resolution in
      let screen_height := snd screen_resolution in
      color_depth ← choice 0 [24; 32];
      pixel_ratio ← choice 0%Q [1%Q; 1.25%Q; 1.5%Q; 2%Q];
      dw ← randint 0 100;
      let window_width := screen_width - dw in
      dh ← randint 60 150;
      let window_height := screen_height - dh in
      user_agent ← choice [] USER_AGENTS;
      languages ← choice [] LANGUAGES;
      timezone ← choice ([], 0) TIMEZONES;
      webgl ← choice ([], []) WEBGL_CONFIGS;
      hardware_concurrency ← choice 0 HARDWARE_CONCURRENCY;
      device_memory ← choice 0 DEVICE_MEMORY;
      platform ← choice [] PLATFORMS;
      canvas_noise ← uniform (-0.0001)%Q 0.0001%Q;
      audio_noise ← uniform (-0.0001)%Q 0.0001%Q;
      let '(canvas_hash, webgl_hash, audio_hash) :=
        generate_ids seed user_agent screen_width in
      mret {| seed := seed; screen_resolution := screen_resolution;
              screen_width := screen_width; screen_height := screen_height;
              color_depth := color_depth; pixel_ratio := pixel_ratio;
              window_width := window_width; window_height := window_height;
              user_agent := user_agent; languages := languages;
              timezone := timezone; webgl := webgl;
              hardware_concurrency := hardware_concurrency;
              device_memory := device_memory; platform := platform;
              canvas_noise := canvas_noise; audio_noise := audio_noise;
              canvas_hash := canvas_hash; webgl_hash := webgl_hash;
              audio_hash := audio_hash |}.

(** [BrowserFingerprint(seed)]; [now] is [datetime.now().timestamp()],
        read only when no seed is given. *)
Definition init (seed : option Z) (now : Q) : t :=
      let seed :=
        match seed with
        | Some s => s
        | None => py_int (now * 1000)
        end in
      fst (generate_fingerprint seed (Random seed)).

(** [get_chrome_options_args]. *)
Definition get_chrome_options_args (fp : t) : list pystr :=
      [str "--window-size=" ++ str_of_Z (window_width fp) ++ str ","
         ++ str_of_Z (window_height fp);
       str "user-agent=" ++ user_agent fp;
       str "--lang=" ++ nth 0 (languages fp) []].

End Generate.

End BrowserFingerprint.

Module FingerprintManager.

Section Manager.
Context {G : Type} `{PyRandom G} `{Hashlib}.

Definition t := option BrowserFingerprint.t.

Definition init : t := None.

(** [new_session(seed)]: the new fingerprint is stored and returned. *)
Definition new_session (seed : option Z) (now : Q) (_ : t)
      : BrowserFingerprint.t * t :=
      let fp := BrowserFingerprint.init seed now in (fp, Some fp).

Definition end_session (_ : t) : t := None.

End Manager.

End FingerprintManager.

(** ** [anti_block.py]: CaptchaDetector and BlockDetector *)

#[global] Instance result_ret : MRet result := fun A a => Ok a.
#[global] Instance result_bind : MBind result :=
  fun A B k m =>
    match m with
    | Ok a => k a
    | Err e => Err e
    end.

Module CaptchaDetector.

Definition CAPTCHA_XPATHS : list pystr :=
  [str "//img[contains(@src, 'captcha')]";
   str "//form[contains(@action, 'captcha')]";
   str "//*[contains(@id, 'captcha')]";
   str "//iframe[contains(@src, 'recaptcha')]";
   str "//div[contains(@class, 'g-recaptcha')]";
   str "//div[@id='px-captcha']";
   str "//input[@id='captchacharacters']";
   str "//div[@class='a-box-inner a-padding-extra-large']//img"].

Definition STRONG_INDICATORS : list pystr :=
  [str "enter the characters you see below";
   str "type the characters you see in this image";
   str "sorry, we just need to make sure you're not a robot";
   str "to continue, please type the characters below";
   str "please enable cookies to continue";
   str "access to this page has been denied"].

Definition CAPTCHA_URL_PATTERNS : list pystr :=
  [str "/captcha/"; str "/validatecaptcha";
   str "/errors/validatecaptcha"; str "captcha"].

Section Detect.
Context {W E : Type} `{Env W E}.

(** [any(e.is_displayed() for e in elements)]. *)
Fixpoint any_displayed (elements : list E) (w : W) : result bool :=
  match elements with
  | [] => Ok false
  | e :: rest =>
    d ← is_displayed e w;
    if d : bool then Ok true else any_displayed rest w
  end.

(** The body of the loop over the XPaths: an exception of the lookup is
    swallowed. *)
Definition xpath_shown (w : W) (xpath : pystr) : bool :=
  match (elements ← find_elements XPATH xpath w;
         any_displayed elements w) with
  | Ok b => b
  | Err _ => false
  end.

(** [is_captcha_present(driver)]: [(is_captcha, captcha_type)]. *)
Definition is_captcha_present (w : W) : result (bool * option pystr) :=
  url ← current_url w;
  let current_url := Py.lower url in
  if existsb (fun pattern => Py.contains pattern current_url)
             CAPTCHA_URL_PATTERNS
  then Ok (true, Some (str "url"))
  else
    t ← title w;
    let title := Py.lower t in
    if Py.contains (str "robot") title || Py.contains (str "captcha") title
    then Ok (true, Some (str "title"))
    else if existsb (xpath_shown w) CAPTCHA_XPATHS
    then Ok (true, Some (str "element"))
    else
      src ← page_source w;
      let page_source := Py.lower src in
      if existsb (fun indicator => Py.contains indicator page_source)
                 STRONG_INDICATORS
      then Ok (true, Some (str "text_pattern"))
      else if (Py.len page_source <? 10000)
              && (Py.contains (str "captcha") page_source
                  || Py.contains (str "robot check") page_source)
      then Ok (true, Some (str "small_page"))
      else Ok (false, None).

(** [_silent_captcha_check(driver)]. *)
Definition silent_captcha_check (w : W) : result bool :=
  url ← current_url w;
  let current_url := Py.lower url in
  if existsb (fun pattern => Py.contains pattern current_url)
             CAPTCHA_URL_PATTERNS
  then Ok true
  else
    t ← title w;
    let title := Py.lower t in
    if Py.contains (str "robot") title || Py.contains (str "captcha") title
    then Ok true
    else if existsb (xpath_shown w) CAPTCHA_XPATHS
    then Ok true
    else
      src ← page_source w;
      let page_source := Py.lower src in
      if existsb (fun indicator => Py.contains indicator page_source)
                 STRONG_INDICATORS
      then Ok true
      else Ok ((Py.len page_source <? 10000)
                    && (Py.contains (str "captcha") page_source
                        || Py.contains (str "robot check") page_source)).

(** [wait_for_manual_solve(driver, timeout)]. The loop runs while the
    clock is less than [timeout] past its start; in the model only the
    [time.sleep(3)] of a round lets time pass, so the rounds are the
    multiples of 3 below the timeout. *)
Fixpoint manual_solve_loop (polls : nat) : M W bool :=
  match polls with
  | O => mret false
  | S polls' =>
    is_captcha ← read silent_captcha_check;
    if is_captcha : bool
    then time_sleep 3;; manual_solve_loop polls'
    else time_sleep 2;; mret true
  end.

Definition wait_for_manual_solve (timeout : Q) : M W bool :=
  manual_solve_loop (Z.to_nat (Qceiling (timeout / 3))).

End Detect.

End CaptchaDetector.

Module BlockDetector.

Definition BLOCK_INDICATORS : list pystr :=
  [str "access denied"; str "blocked"; str "forbidden"; str "banned";
   str "too many requests"; str "rate limit"; str "service unavailable";
   str "please try again later"; str "automated access";
   str "suspicious activity"].

Section Detect.
Context {W E : Type} `{Env W E}.

(** [is_blocked(driver)]: [(is_blocked, block_reason)]. *)
Definition is_blocked (w : W) : result (bool * option pystr) :=
  src ← page_source w;
  let page_source := Py.lower src in
  t ← title w;
  let title := Py.lower t in
  match Py.first_such (fun indicator => Py.contains indicator title)
                      BLOCK_INDICATORS with
  | Some indicator => Ok (true, Some (str "Title contains: " ++ indicator))
  | None =>
    let content_sample := Py.upto 5000 page_source in
    match Py.first_such
            (fun indicator => Py.contains indicator content_sample)
            BLOCK_INDICATORS with
    | Some indicator =>
      Ok (true, Some (str "Page contains: " ++ indicator))
    | None =>
      if Py.len page_source <? 1000
      then Ok (true, Some (str "Page suspiciously small"))
      else Ok (false, None)
    end
  end.

End Detect.

End BlockDetector.

(** ** [scraper/detection.py] *)

Module Detection.

Definition CAPTCHA_INDICATORS : list pystr :=
  [str "enter the characters you see below";
   str "type the characters you see";
   str "sorry, we just need to make sure you're not a robot"].

Section Detect.
Context {W E : Type} `{Env W E}.

(** [check_for_blocks(driver)]. The text of a caught exception is not
    modelled: the reason of that branch is its fixed prefix. *)
Definition check_for_blocks (w : W) : result (bool * option pystr) :=
  u ← current_url w;
  let url := Py.lower u in
  if Py.contains (str "/ap/signin") url
     || Py.contains (str "/ap/register") url
  then Ok (true, Some (str "Login redirect detected"))
  else if Py.contains (str "captcha") url
  then Ok (true, Some (str "CAPTCHA URL detected"))
  else
    match page_source w with
    | Err _ => Ok (true, Some (str "Error reading page: "))
    | Ok src =>
      let source := Py.lower src in
      match Py.first_such (fun indicator => Py.contains indicator source)
                          CAPTCHA_INDICATORS with
      | Some indicator =>
        Ok (true, Some (str "CAPTCHA detected: " ++ indicator))
      | None =>
        if Py.len source <? 5000
        then Ok (true, Some (str "Page suspiciously small: "
                                  ++ str_of_Z (Py.len source)
                                  ++ str " bytes"))
        else Ok (false, None)
      end
    end.

End Detect.

End Detection.

(** ** [anti_block.py]: ProtectedScraper *)

(** The outcome of the checks that [navigate_with_protection] runs on a
    loaded page. *)
Inductive classification :=
| Clean
| Blocked (reason : pystr)
| Captcha (kind : pystr).

Module ProtectedScraper.

(** [get_chrome_proxy_arg]: [--proxy-server=ip:port] from the first two
    [:]-separated parts. *)
Fixpoint split_colon (s cur : pystr) : list pystr :=
  match s with
  | [] => [rev cur]
  | c :: s' =>
    if Py.eqc c ":"%char then rev cur :: split_colon s' []
    else split_colon s' (c :: cur)
  end.

Definition get_chrome_proxy_arg (proxy : pystr) : option pystr :=
  if Py.truthy proxy then
    match split_colon proxy [] with
    | ip :: port :: _ =>
      Some (str "--proxy-server=" ++ ip ++ str ":" ++ port)
    | _ => None
    end
  else None.

Definition BASE_OPTIONS : list pystr :=
  [str "--disable-blink-features=AutomationControlled";
   str "--disable-gpu"; str "--no-sandbox";
   str "--disable-dev-shm-usage"].

Section Scraper.
Context {W E G : Type} `{Env W E} `{PyRandom G} `{Hashlib}.

(** The object. [driver] tells whether [self.driver] holds a browser; the
    browser itself is in [world]. The last two fields count the calls of
    [rotate_ip] and of [driver.get]; the code does not read them. *)
Record t := mk {
  proxy_manager : ProxyManager.t;
  throttle_manager : ThrottleManager.t;
  fingerprint_manager : FingerprintManager.t;
  driver : bool;
  current_proxy : option pystr;
  current_fingerprint : option BrowserFingerprint.t;
  max_retries : Z;
  world : W;
  rotate_ip_calls : nat;
  get_calls : nat
}.

Definition init (proxy_list : option (list pystr)) (w : W) : t :=
  {| proxy_manager := ProxyManager.init proxy_list;
     throttle_manager := ThrottleManager.init 2 5 10;
     fingerprint_manager := FingerprintManager.init;
     driver := false; current_proxy := None;
     current_fingerprint := None; max_retries := 3;
     world := w; rotate_ip_calls := 0; get_calls := 0 |}.

Definition set_world (w : W) (s : t) : t :=
  mk (proxy_manager s) (throttle_manager s) (fingerprint_manager s)
     (driver s) (current_proxy s) (current_fingerprint s) (max_retries s)
     w (rotate_ip_calls s) (get_calls s).

Definition set_proxy_manager (pm : ProxyManager.t) (s : t) : t :=
  mk pm (throttle_manager s) (fingerprint_manager s)
     (driver s) (current_proxy s) (current_fingerprint s) (max_retries s)
     (world s) (rotate_ip_calls s) (get_calls s).

Definition set_throttle (tm : ThrottleManager.t) (s : t) : t :=
  mk (proxy_manager s) tm (fingerprint_manager s)
     (driver s) (current_proxy s) (current_fingerprint s) (max_retries s)
     (world s) (rotate_ip_calls s) (get_calls s).

Definition set_fingerprint (fp : BrowserFingerprint.t) (s : t) : t :=
  mk (proxy_manager s) (throttle_manager s) (Some fp)
     (driver s) (current_proxy s) (Some fp) (max_retries s)
     (world s) (rotate_ip_calls s) (get_calls s).

Definition set_driver (d : bool) (s : t) : t :=
  mk (proxy_manager s) (throttle_manager s) (fingerprint_manager s)
     d (current_proxy s) (current_fingerprint s) (max_retries s)
     (world s) (rotate_ip_calls s) (get_calls s).

Definition set_current_proxy (p : option pystr) (s : t) : t :=
  mk (proxy_manager s) (throttle_manager s) (fingerprint_manager s)
     (driver s) p (current_fingerprint s) (max_retries s)
     (world s) (rotate_ip_calls s) (get_calls s).

Definition count_rotate_ip (s : t) : t :=
  mk (proxy_manager s) (throttle_manager s) (fingerprint_manager s)
     (driver s) (current_proxy s) (current_fingerprint s) (max_retries s)
     (world s) (S (rotate_ip_calls s)) (get_calls s).

Definition count_get (s : t) : t :=
  mk (proxy_manager s) (throttle_manager s) (fingerprint_manager s)
     (driver s) (current_proxy s) (current_fingerprint s) (max_retries s)
     (world s) (rotate_ip_calls s) (S (get_calls s)).

(** An operation of the environment, run on the scraper's world. *)
Definition on_world {A} (m : M W A) : M t A :=
  fun s => let '(r, w') := m (world s) in (r, set_world w' s).

(** [self.throttle_manager.wait()]. *)
Definition throttle_wait : M t unit :=
  fun s =>
    let tm := throttle_manager s in
    if ThrottleManager.burst_threshold tm =? 0
    then (Raise ZeroDivisionError,
          set_throttle
            (ThrottleManager.set_count
               (ThrottleManager.request_count tm + 1) tm) s)
    else
      let '(u, w1) := random (world s) in
      let base_delay :=
        (ThrottleManager.min_delay tm
         + (ThrottleManager.max_delay tm - ThrottleManager.min_delay tm)
           * u)%Q in
      let '(plan, tm2) :=
        ThrottleManager.wait_plan base_delay (clock w1) tm in
      let w2 :=
        match plan with
        | Ok (Some d) => sleep d w1
        | _ => w1
        end in
      (Success tt,
       set_world w2 (set_throttle (ThrottleManager.set_last (clock w2) tm2) s)).

(** [self.proxy_manager.get_next_proxy()]: the generator is drawn from
    only when there is a proxy to choose. *)
Definition next_proxy : M t (option pystr) :=
  fun s =>
    match ProxyManager.proxy_list (proxy_manager s) with
    | [] => (Success None, s)
    | _ :: _ =>
      let '(r, w') := draw (world s) in
      let '(p, pm') := ProxyManager.get_next_proxy r (proxy_manager s) in
      (Success p, set_world w' (set_proxy_manager pm' s))
    end.

(** [create_protected_driver(self.proxy_manager, True, fingerprint)]; the
    result is [proxy_used]. *)
Definition create_protected_driver (fingerprint : BrowserFingerprint.t)
  : M t (option pystr) :=
  let options :=
    BASE_OPTIONS ++ BrowserFingerprint.get_chrome_options_args fingerprint in
  proxy ← next_proxy;
  let '(options, proxy_used) :=
    match proxy with
    | Some p =>
      match get_chrome_proxy_arg p with
      | Some proxy_arg => (options ++ [proxy_arg], Some p)
      | None => (options, None)
      end
    | None => (options, None)
    end in
  on_world (call (chrome options));;
  mret proxy_used.

(** [quit_driver]. *)
Definition quit_driver : M t unit :=
  fun s =>
    if driver s
    then let '(_, w') := quit (world s) in
         (Success tt, set_driver false (set_world w' s))
    else (Success tt, s).

(** The fingerprint of [start_driver]: the current one is kept unless a
    new one is asked for or there is none. *)
Definition choose_fingerprint (new_fingerprint : bool)
  : M t BrowserFingerprint.t :=
  fun s =>
    match current_fingerprint s with
    | Some fp =>
      if new_fingerprint
      then let fp' := BrowserFingerprint.init None (clock (world s)) in
           (Success fp', set_fingerprint fp' s)
      else (Success fp, s)
    | None =>
      let fp' := BrowserFingerprint.init None (clock (world s)) in
      (Success fp', set_fingerprint fp' s)
    end.

(** [start_driver(new_fingerprint)]. *)
Definition start_driver (new_fingerprint : bool) : M t unit :=
  quit_driver;;
  fp ← choose_fingerprint new_fingerprint;
  proxy_used ← create_protected_driver fp;
  modify (fun s => set_current_proxy proxy_used (set_driver true s)).

(** [rotate_ip(new_fingerprint)]. *)
Definition rotate_ip (new_fingerprint : bool) : M t unit :=
  modify count_rotate_ip;;
  modify (fun s =>
            match current_proxy s with
            | Some p =>
              if Py.truthy p
              then set_proxy_manager
                     (ProxyManager.mark_failed (Some p) (proxy_manager s)) s
              else s
            | None => s
            end);;
  quit_driver;;
  d ← on_world (uniform 2 5);
  on_world (time_sleep d);;
  start_driver new_fingerprint.

Definition new_identity : M t unit := rotate_ip true.

Definition report_error (kind : string) : M t unit :=
  modify (fun s =>
            set_throttle
              (ThrottleManager.report_error (str kind) (throttle_manager s))
              s).

(** The two checks of an attempt, in the order of the code: the block
    check, and the captcha check when the page is not blocked. The reason
    and the kind are the second components of the detectors' results. *)
Definition classify (w : W) : result classification :=
  b ← BlockDetector.is_blocked w;
  if fst b : bool then Ok (Blocked (default [] (snd b)))
  else
    c ← CaptchaDetector.is_captcha_present w;
    if fst c : bool then Ok (Captcha (default [] (snd c)))
    else Ok Clean.

(** The body of the [try] of one attempt: [Some b] is [return b], [None]
    is [continue]. *)
Definition attempt_body (url : pystr) : M t (option bool) :=
  throttle_wait;;
  has_driver ← read (fun s => Ok (driver s));
  (if has_driver : bool then mret tt else start_driver false);;
  modify count_get;;
  on_world (call (get url));;
  on_world (call wait_for_body);;
  d ← on_world (uniform 1 3);
  on_world (time_sleep d);;
  c ← on_world (read classify);
  match c with
  | Blocked _ => report_error "block";; rotate_ip false;; mret None
  | Captcha _ =>
    solved ← on_world (CaptchaDetector.wait_for_manual_solve 300);
    if solved : bool
    then modify (fun s =>
                   set_throttle
                     (ThrottleManager.report_success (throttle_manager s)) s);;
         mret (Some true)
    else rotate_ip false;; mret None
  | Clean =>
    modify (fun s =>
              set_throttle
                (ThrottleManager.report_success (throttle_manager s)) s);;
    mret (Some true)
  end.

(** The [for attempt in range(retries)] loop with its handler. *)
Fixpoint attempts (url : pystr) (retries : Z) (remaining : nat)
    (attempt : Z) : M t bool :=
  match remaining with
  | O => mret false
  | S remaining' =>
    r ← try_except (attempt_body url)
          (fun _ =>
             report_error "generic";;
             (if attempt <? retries - 1 then rotate_ip false else mret tt);;
             mret None);
    match r with
    | Some b => mret b
    | None => attempts url retries remaining' (attempt + 1)
    end
  end.

(** [navigate_with_protection(url, max_retries)]. *)
Definition navigate_with_protection (url : pystr) (retry_budget : option Z)
  : M t bool :=
  fun s =>
    let retries :=
      match retry_budget with
      | Some n => if n =? 0 then max_retries s else n
      | None => max_retries s
      end in
    attempts url retries (Z.to_nat retries) 0 s.

End Scraper.

End ProtectedScraper.

(** ** [scraper/extractor.py] *)

Module Extractor.

(** ['=' * 80]. *)
Definition RULE : pystr := replicate 80 "="%char.

(** [f"{n:,}"] for a length: the decimal digits in groups of three. *)
Fixpoint group3 (rev_digits : pystr) : pystr :=
  match rev_digits with
  | a :: b :: c :: ((_ :: _) as rest) =>
    a :: b :: c :: ","%char :: group3 rest
  | l => l
  end.

Definition format_commas (n : Z) : pystr :=
  rev (group3 (rev (str_of_Z n))).

(** The metadata separator written before a page. *)
Definition separator (page_label current_url timestamp html : pystr)
  : pystr :=
  str (String "010" (String "010" "")) ++ RULE ++ str (String "010" "")
  ++ str "PAGE: " ++ page_label ++ str (String "010" "")
  ++ str "URL: " ++ current_url ++ str (String "010" "")
  ++ str "TIMESTAMP: " ++ timestamp ++ str (String "010" "")
  ++ str "SIZE: " ++ format_commas (Py.len html) ++ str " bytes"
  ++ str (String "010" "")
  ++ RULE ++ str (String "010" (String "010" "")).

(** What one call appends to the file. *)
Definition block (page_label current_url timestamp html : pystr) : pystr :=
  separator page_label current_url timestamp html ++ html.

Section Save.
Context {W E : Type} `{Env W E}.

(** [save_html_to_single_file(driver, output_file, page_label)] on the
    content [file] of the output file: the new content and the number of
    characters of the page. *)
Definition save_html_to_single_file (file page_label : pystr) (w : W)
  : result (pystr * Z) :=
  html ← page_source w;
  let timestamp := strftime w in
  current_url ← current_url w;
  Ok (file ++ block page_label current_url timestamp html,
           Py.len html).

End Save.

End Extractor.

(** ** [extract/loader.py] *)

Module Loader.

(** The constructs of the pattern [PAGE_HEADER]. *)
Inductive item :=
| Lit (s : pystr)          (* a literal text *)
| Rep (c : ascii) (n : nat) (* c{n} *)
| SpaceStar                (* \s*, greedy *)
| Group.                   (* (.+?): lazy, no newline, captured *)

Definition newline : ascii := "010"%char.

(** [.] of a pattern without DOTALL. *)
Definition dot (c : ascii) : bool := negb (Py.eqc c newline).

(** A greedy star of a character class followed by [k]: the longest run
    is tried first. *)
Fixpoint greedy_star {A} (p : ascii -> bool) (k : pystr -> option A)
    (s : pystr) : option A :=
  match s with
  | c :: s' =>
    if p c then
      match greedy_star p k s' with
      | Some r => Some r
      | None => k s
      end
    else k s
  | [] => k s
  end.

(** A lazy plus of a character class followed by [k]: the shortest run is
    tried first; [acc] is the run so far, reversed. *)
Fixpoint lazy_plus {A} (p : ascii -> bool) (k : pystr -> pystr -> option A)
    (acc s : pystr) : option A :=
  match s with
  | c :: s' =>
    if p c then
      match k (rev (c :: acc)) s' with
      | Some r => Some r
      | None => lazy_plus p k (c :: acc) s'
      end
    else None
  | [] => None
  end.

(** The backtracking match of a pattern at the start of [s]: the groups
    and the text left after the match. *)
Fixpoint match_here (pattern : list item) (s : pystr)
  : option (list pystr * pystr) :=
  match pattern with
  | [] => Some ([], s)
  | Lit l :: pattern' =>
    if Py.startswith l s then match_here pattern' (drop (length l) s)
    else None
  | Rep c n :: pattern' =>
    if Py.startswith (replicate n c) s then match_here pattern' (drop n s)
    else None
  | SpaceStar :: pattern' =>
    greedy_star Py.isspace (match_here pattern') s
  | Group :: pattern' =>
    lazy_plus dot
      (fun g s' =>
         match match_here pattern' s' with
         | Some (groups, rest) => Some (g :: groups, rest)
         | None => None
         end) [] s
  end.

(** [PAGE_HEADER]. *)
Definition PAGE_HEADER : list item :=
  [Rep "="%char 80; Lit (newline :: str "PAGE:"); SpaceStar; Group;
   Lit (newline :: str "URL:"); SpaceStar; Group;
   Lit (newline :: str "TIMESTAMP:"); SpaceStar; Group;
   Lit (newline :: str "SIZE:"); SpaceStar; Group;
   Lit [newline]; Rep "="%char 80].

(** A match object: [start()], [end()] and the groups. *)
Record rmatch := mk_match {
  m_start : nat;
  m_end : nat;
  m_groups : list pystr
}.

(** [pattern.finditer(s)]: the matches from left to right, the search
    resuming where the last match ended. [pos] is the position of [s] in
    the whole text and [skip] the number of characters still inside the
    last match. *)
Fixpoint finditer_from (pattern : list item) (s : pystr) (pos skip : nat)
  : list rmatch :=
  match skip with
  | S skip' =>
    match s with
    | [] => []
    | _ :: s' => finditer_from pattern s' (S pos) skip'
    end
  | O =>
    match match_here pattern s with
    | Some (groups, rest) =>
      let n := (length s - length rest)%nat in
      mk_match pos (pos + n) groups ::
      match s with
      | [] => []
      | _ :: s' => finditer_from pattern s' (S pos) (n - 1)
      end
    | None =>
      match s with
      | [] => []
      | _ :: s' => finditer_from pattern s' (S pos) 0
      end
    end
  end.

Definition finditer (pattern : list item) (s : pystr) : list rmatch :=
  finditer_from pattern s 0 0.

(** One page of the result; [html] is the text handed to
    [BeautifulSoup(html, "lxml")]. *)
Record page := mk_page {
  label : pystr;
  url : pystr;
  timestamp : pystr;
  html : pystr
}.

(** [raw_content[start:end]]. *)
Definition slice (start stop : nat) (s : pystr) : pystr :=
  take (stop - start) (drop start s).

(** The loop of [split_pages] over the separators. *)
Fixpoint pages_of (raw_content : pystr) (separators : list rmatch)
  : list page :=
  match separators with
  | [] => []
  | m :: rest =>
    let stop :=
      match rest with
      | next :: _ => m_start next
      | [] => length raw_content
      end in
    mk_page (Py.strip (nth 0 (m_groups m) []))
            (Py.strip (nth 1 (m_groups m) []))
            (Py.strip (nth 2 (m_groups m) []))
            (Py.strip (slice (m_end m) stop raw_content))
    :: pages_of raw_content rest
  end.

(** [split_pages(raw_content)]. *)
Definition split_pages (raw_content : pystr) : list page :=
  match finditer PAGE_HEADER raw_content with
  | [] => [mk_page (str "full_file") [] [] raw_content]
  | separators => pages_of raw_content separators
  end.

End Loader.

(** ** [scraper/settings.py] *)

Module Settings.

Definition PAGE_LOAD_WAIT : Q * Q := (5, 10)%Q.
Definition SCROLL_STEP : Z * Z := (300, 500).
Definition SCROLL_PAUSE : Q * Q := (0.3, 0.8)%Q.
Definition ACTION_WAIT : Q * Q := (2, 4)%Q.
Definition AFTER_CLICK_WAIT : Q * Q := (5, 10)%Q.

Definition SEE_MORE_REVIEWS_XPATH : pystr :=
  str "//a[@data-hook='see-all-reviews-link-foot']".
Definition SEE_MORE_REVIEWS_CSS : pystr :=
  str "a[data-hook='see-all-reviews-link-foot']".
Definition NEXT_PAGE_XPATH : pystr :=
  str "//a[contains(text(), 'Next page')]".

Definition NEXT_PAGE_FALLBACKS : list (By * pystr) :=
  [(XPATH, str "//li[@class='a-last']/a");
   (XPATH, str "//a[contains(text(), 'Next page')]");
   (XPATH, str "//a[contains(@href, 'pageNumber')]//span[contains(text(), 'Next')]");
   (XPATH, str "//a[contains(text(), 'Next')]");
   (CSS_SELECTOR, str "li.a-last a");
   (CSS_SELECTOR, str ".a-pagination .a-last a");
   (CSS_SELECTOR, str "a[href*='pageNumber'][class*='a-last']")].

Definition MAX_REVIEW_PAGES : Z := 500.

End Settings.

(** ** [scraper/actions.py] *)

Module Actions.

Section Actions.
Context {W E : Type} `{Env W E}.

(** [random_wait(min_sec, max_sec)]. *)
Definition random_wait (min_sec max_sec : Q) : M W unit :=
  wait_time ← uniform min_sec max_sec;
  time_sleep wait_time.

(** [is_element_in_viewport]: an exception of the script gives [False]. *)
Definition is_element_in_viewport (element : E) (w : W) : result bool :=
  match script_in_viewport element w with
  | Ok b => Ok b
  | Err _ => Ok false
  end.

(** The search of one scroll tick: [Some element] is the [break] with the
    element found. *)
Definition look_for (target_xpath : option pystr) (stop_on_find : bool)
  : M W (option E) :=
  match target_xpath with
  | Some xpath =>
    if Py.truthy xpath && stop_on_find
    then
      try_except_no_such_element
        (element ← read (find_element XPATH xpath);
         shown ← read (is_element_in_viewport element);
         mret (if shown : bool then Some element else None))
        (mret None)
    else mret None
  | None => mret None
  end.

(** The [while] loop of [human_scroll], cut off after [ticks] rounds. *)
Fixpoint scroll_loop (ticks : nat) (target_xpath : option pystr)
    (stop_on_find : bool) (viewport_height current_pos total_height : Z)
  : M W (option E) :=
  if current_pos <? total_height - viewport_height then
    match ticks with
    | O => diverge
    | S ticks' =>
      scroll_amount ← randint (fst Settings.SCROLL_STEP)
                              (snd Settings.SCROLL_STEP);
      let current_pos := current_pos + scroll_amount in
      call (script_scroll_to current_pos);;
      pause ← uniform (fst Settings.SCROLL_PAUSE) (snd Settings.SCROLL_PAUSE);
      time_sleep pause;;
      (* the progress of the log line divides by the height *)
      (if total_height =? 0 then throw ZeroDivisionError else mret tt);;
      found ← look_for target_xpath stop_on_find;
      match found with
      | Some element => mret (Some element)
      | None =>
        u ← step random;
        current_pos ←
          (if ThrottleManager.Qltb u 0.1
           then back ← randint 30 80;
                let current_pos := Z.max 0 (current_pos - back) in
                call (script_scroll_to current_pos);;
                time_sleep 0.3;;
                mret current_pos
           else mret current_pos);
        total_height ← read script_scroll_height;
        scroll_loop ticks' target_xpath stop_on_find viewport_height
                    current_pos total_height
      end
    end
  else mret None.

(** [human_scroll(driver, target_xpath, stop_on_find)]. *)
Definition human_scroll (ticks : nat) (target_xpath : option pystr)
    (stop_on_find : bool) : M W (option E) :=
  total_height ← read script_scroll_height;
  viewport_height ← read script_inner_height;
  scroll_loop ticks target_xpath stop_on_find viewport_height 0
              total_height.

End Actions.

End Actions.

(** ** [scraper/worker.py] *)

Module Worker.

Section Scraper.
Context {W E : Type} `{Env W E}.

(** What the run leaves behind, besides the file: each save with its label
    and the environment it read, each confirmation wait, each entry of the
    pagination loop. The code does not read it. *)
Inductive event :=
| Saved (page_label : pystr) (w : W)
| ConfirmWait
| Iteration (page_number : Z).

(** The [AmazonHTMLScraper] object; [output_file] is the content of the
    file of that name. *)
Record t := mk {
  world : W;
  output_file : pystr;
  total_pages : Z;
  total_bytes : Z;
  trace : list event
}.

Definition on_world {A} (m : M W A) : M t A :=
  fun s =>
    let '(r, w') := m (world s) in
    (r, mk w' (output_file s) (total_pages s) (total_bytes s) (trace s)).

Definition log (e : event) : M t unit :=
  modify (fun s => mk (world s) (output_file s) (total_pages s)
                      (total_bytes s) (trace s ++ [e])).

(** A save followed by the two counters. *)
Definition save_page (page_label : pystr) : M t unit :=
  fun s =>
    match Extractor.save_html_to_single_file
            (output_file s) page_label (world s) with
    | Ok (file, size) =>
      (Success tt,
       mk (world s) file (total_pages s + 1) (total_bytes s + size)
          (trace s ++ [Saved page_label (world s)]))
    | Err e => (Raise e, s)
    end.

(** [_find_next_page_button]: the lookup and the visibility test are both
    inside the [try]. *)
Fixpoint find_next_page_button (fallbacks : list (By * pystr)) (w : W)
  : result (option E) :=
  match fallbacks with
  | [] => Ok None
  | (kind, selector) :: rest =>
    match find_element kind selector w with
    | Ok el =>
      match is_displayed el w with
      | Ok true => Ok (Some el)
      | Ok false => find_next_page_button rest w
      | Err NoSuchElementException => find_next_page_button rest w
      | Err e => Err e
      end
    | Err NoSuchElementException => find_next_page_button rest w
    | Err e => Err e
    end
  end.

(** [_is_blocked_or_redirected]. *)
Definition is_blocked_or_redirected (w : W) : result bool :=
  url ← current_url w;
  if Py.contains (str "/errors/validateCaptcha") url
     || Py.contains (str "captcha") (Py.lower url)
  then Ok true
  else Ok (Py.contains (str "/ap/signin") url).

(** [_click_next_page(element)]: the URL before the click, or [None]. *)
Definition click_next_page (element : E) : M W (option pystr) :=
  try_except
    (call (script_scroll_into_view element);; time_sleep 1)
    (fun _ => mret tt);;
  Actions.random_wait (fst Settings.ACTION_WAIT) (snd Settings.ACTION_WAIT);;
  pre_click_url ← read current_url;
  next_href ← read (get_attribute_href element);
  try_except
    (call (script_click element);; mret (Some pre_click_url))
    (fun _ =>
       try_except
         (call (click element);; mret (Some pre_click_url))
         (fun _ =>
            match next_href with
            | Some href =>
              if Py.truthy href
              then call (get href);; mret (Some pre_click_url)
              else mret None
            | None => mret None
            end)).

(** [_looks_like_last_page]. *)
Definition looks_like_last_page (w : W) : result bool :=
  src ← page_source w;
  let source := Py.lower src in
  if Py.contains (str "there are no customer reviews") source
     || Py.contains (str "no reviews") (Py.upto 5000 source)
  then Ok true
  else
    match title w with
    | Ok t =>
      let title := Py.lower t in
      Ok (Py.contains (str "page not found") title
               || Py.contains (str "404") title)
    | Err _ => Ok false
    end.

(** One round of the pagination loop: [Some n] is the page number the
    next round starts with, [None] is [break]. [_log_review_count] only
    reads the page for a log line inside a handler of every exception and
    is left out. *)
Definition pagination_round (ticks : nat) (page_number : Z)
  : M t (option Z) :=
  log (Iteration page_number);;
  next_el ← on_world (Actions.human_scroll ticks
                        (Some Settings.NEXT_PAGE_XPATH) true);
  next_el ← match next_el with
            | Some el => mret (Some el)
            | None => on_world (read (find_next_page_button
                                        Settings.NEXT_PAGE_FALLBACKS))
            end;
  match next_el with
  | None => mret None
  | Some next_el =>
    stop ← on_world (read is_blocked_or_redirected);
    if stop : bool then mret None
    else
      next_href ← on_world (click_next_page next_el);
      match next_href with
      | None => mret None
      | Some next_href =>
        on_world (Actions.random_wait (fst Settings.AFTER_CLICK_WAIT)
                                      (snd Settings.AFTER_CLICK_WAIT));;
        url_now ← on_world (read current_url);
        unchanged ←
          (if bool_decide (url_now = next_href)
           then log ConfirmWait;;
                on_world (time_sleep 3);;
                url_then ← on_world (read current_url);
                mret (bool_decide (url_then = next_href))
           else mret false);
        if unchanged : bool then mret None
        else
          let page_number := page_number + 1 in
          _ ← on_world (read current_url);
          last ← on_world (read looks_like_last_page);
          if last : bool then mret None
          else
            save_page (str "reviews_page_" ++ str_of_Z page_number);;
            mret (Some page_number)
      end
  end.

(** [while page_number < MAX_REVIEW_PAGES]: each round that does not
    break adds one to the page number, so [rounds] is the distance to the
    cap. *)
Fixpoint pagination (ticks rounds : nat) (page_number : Z) : M t unit :=
  match rounds with
  | O => mret tt
  | S rounds' =>
    r ← pagination_round ticks page_number;
    match r with
    | Some page_number' => pagination ticks rounds' page_number'
    | None => mret tt
    end
  end.

(** [scrape_product_to_reviews(product_url)]. [ticks] bounds each scroll
    loop of the model. *)
Definition scrape_product_to_reviews (ticks : nat) (product_url : pystr)
  : M t bool :=
  loaded ← try_except (on_world (call (get product_url));; mret true)
             (fun e => match e with
                       | TimeoutException => mret false
                       | _ => throw e
                       end);
  if negb loaded then mret false
  else
    on_world (Actions.random_wait (fst Settings.PAGE_LOAD_WAIT)
                                  (snd Settings.PAGE_LOAD_WAIT));;
    b ← on_world (read Detection.check_for_blocks);
    if fst b : bool then mret false
    else
      save_page (str "product_page");;
      see_more ← on_world (Actions.human_scroll ticks
                             (Some Settings.SEE_MORE_REVIEWS_XPATH) true);
      see_more ←
        match see_more with
        | Some el => mret (Some el)
        | None =>
          try_except_no_such_element
            (el ← on_world (read (find_element CSS_SELECTOR
                                    Settings.SEE_MORE_REVIEWS_CSS));
             mret (Some el))
            (mret None)
        end;
      match see_more with
      | None => mret false
      | Some see_more =>
        href ← on_world (read (get_attribute_href see_more));
        on_world (Actions.random_wait (fst Settings.ACTION_WAIT)
                                      (snd Settings.ACTION_WAIT));;
        match href with
        | None => throw AttributeError
        | Some href =>
          let href :=
            if Py.startswith (str "/") href
            then str "https://www.amazon.in" ++ href else href in
          on_world (call (get href));;
          on_world (Actions.random_wait (fst Settings.AFTER_CLICK_WAIT)
                                        (snd Settings.AFTER_CLICK_WAIT));;
          b ← on_world (read Detection.check_for_blocks);
          if fst b : bool then mret false
          else
            _ ← on_world (read current_url);
            on_world (Actions.human_scroll ticks None false);;
            on_world (call (script_scroll_to 0));;
            on_world (time_sleep 1);;
            save_page (str "reviews_page_1");;
            pagination ticks
              (Z.to_nat (Settings.MAX_REVIEW_PAGES - 1)) 1;;
            mret true
        end
      end.

End Scraper.

End Worker.

(** ** A simulated browser session

    A site is a function from URLs to pages. A page has a fixed height and
    at most one "see all reviews" link and one "next page" link; every
    selector of the code for such a link resolves to it. A click on a link
    loads the page the link leads to, when it leads anywhere. *)

Module Sim.

Record element := mk_element {
  el_href : option pystr;    (* the href attribute *)
  el_y : Z;                  (* the offset from the top of the page *)
  el_shown : bool;           (* is_displayed() *)
  el_target : option pystr   (* where a click leads, if anywhere *)
}.

Record spage := mk_page {
  p_url : pystr;
  p_title : pystr;
  p_source : pystr;
  p_height : Z;
  p_see_all : option element;
  p_next : option element;
  p_markers : list pystr     (* captcha XPaths with a visible element *)
}.

Record state := mk {
  serve : pystr -> spage;
  page : spage;
  scroll_y : Z;
  viewport : Z;
  now : Q;
  stamp : pystr;
  draws : nat -> nat;
  randoms : nat -> Q;
  drawn : nat
}.

Definition blank : spage :=
  mk_page (str "data:,") [] (str "<html><head></head><body></body></html>")
          0 None None [].

(** A session that shows the page [p] and serves it for every URL. *)
Definition still (p : spage) : state :=
  mk (fun _ => p) p 0 800 0 (str "2024-01-01 00:00:00")
     (fun _ => O) (fun _ => 0.5%Q) O.

Definition goto (p : spage) (s : state) : state :=
  mk (serve s) p 0 (viewport s) (now s) (stamp s) (draws s) (randoms s)
     (drawn s).

Definition set_scroll (y : Z) (s : state) : state :=
  mk (serve s) (page s) y (viewport s) (now s) (stamp s) (draws s)
     (randoms s) (drawn s).

Definition advance (d : Q) (s : state) : state :=
  mk (serve s) (page s) (scroll_y s) (viewport s) (now s + d)%Q (stamp s)
     (draws s) (randoms s) (drawn s).

Definition next_draw (s : state) : state :=
  mk (serve s) (page s) (scroll_y s) (viewport s) (now s) (stamp s)
     (draws s) (randoms s) (S (drawn s)).

Definition see_all_selectors : list (By * pystr) :=
  [(XPATH, Settings.SEE_MORE_REVIEWS_XPATH);
   (CSS_SELECTOR, Settings.SEE_MORE_REVIEWS_CSS)].

Definition next_selectors : list (By * pystr) :=
  (XPATH, Settings.NEXT_PAGE_XPATH) :: Settings.NEXT_PAGE_FALLBACKS.

Definition lookup (kind : By) (selector : pystr) (p : spage)
  : option element :=
  if bool_decide ((kind, selector) ∈ see_all_selectors) then p_see_all p
  else if bool_decide ((kind, selector) ∈ next_selectors) then p_next p
  else None.

Definition marker : element := mk_element None 0 true None.

(** The scroll position the browser settles at. *)
Definition clamp (y : Z) (s : state) : Z :=
  Z.max 0 (Z.min y (p_height (page s) - viewport s)).

Definition follow (el : element) (s : state) : state :=
  match el_target el with
  | Some u => goto (serve s u) s
  | None => s
  end.

#[global] Instance env : Env state element := {|
  chrome := fun _ s => (Ok tt, goto blank s);
  quit := fun s => (Ok tt, s);
  get := fun u s => (Ok tt, goto (serve s u) s);
  wait_for_body := fun s => (Ok tt, s);
  current_url := fun s => Ok (p_url (page s));
  title := fun s => Ok (p_title (page s));
  page_source := fun s => Ok (p_source (page s));
  find_element := fun kind selector s =>
    match lookup kind selector (page s) with
    | Some el => Ok el
    | None => Err NoSuchElementException
    end;
  find_elements := fun kind selector s =>
    if bool_decide (selector ∈ p_markers (page s)) then Ok [marker]
    else match lookup kind selector (page s) with
         | Some el => Ok [el]
         | None => Ok []
         end;
  is_displayed := fun el _ => Ok (el_shown el);
  get_attribute_href := fun el _ => Ok (el_href el);
  click := fun el s => (Ok tt, follow el s);
  script_scroll_height := fun s => Ok (p_height (page s));
  script_inner_height := fun s => Ok (viewport s);
  script_scroll_to := fun y s => (Ok tt, set_scroll (clamp y s) s);
  script_scroll_into_view := fun el s =>
    (Ok tt, set_scroll (clamp (el_y el - viewport s / 2) s) s);
  script_click := fun el s => (Ok tt, follow el s);
  script_in_viewport := fun el s =>
    Ok ((0 <=? el_y el - scroll_y s)
             && (el_y el - scroll_y s <=? viewport s));
  sleep := advance;
  clock := now;
  strftime := stamp;
  draw := fun s => (draws s (drawn s), next_draw s);
  random := fun s => (randoms s (drawn s), next_draw s)
|}.

End Sim.

(** ** A session in which nothing ever changes

    One page, fixed for good: an "Access Denied" stub with a link that
    leads nowhere. *)

Module Frozen.

Definition URL : pystr := str "https://www.amazon.in/dp/B000000000".
Definition TITLE : pystr := str "Access Denied".
Definition SOURCE : pystr := str "<html><body>Access Denied</body></html>".

#[global] Instance env : Env unit unit := {|
  chrome := fun _ w => (Ok tt, w);
  quit := fun w => (Ok tt, w);
  get := fun _ w => (Ok tt, w);
  wait_for_body := fun w => (Ok tt, w);
  current_url := fun _ => Ok URL;
  title := fun _ => Ok TITLE;
  page_source := fun _ => Ok SOURCE;
  find_element := fun _ _ _ => Ok tt;
  find_elements := fun _ _ _ => Ok [];
  is_displayed := fun _ _ => Ok true;
  get_attribute_href := fun _ _ => Ok (Some URL);
  click := fun _ w => (Ok tt, w);
  script_scroll_height := fun _ => Ok 1000;
  script_inner_height := fun _ => Ok 800;
  script_scroll_to := fun _ w => (Ok tt, w);
  script_scroll_into_view := fun _ w => (Ok tt, w);
  script_click := fun _ w => (Ok tt, w);
  script_in_viewport := fun _ _ => Ok true;
  sleep := fun _ w => w;
  clock := fun _ => 0%Q;
  strftime := fun _ => str "2024-01-01 00:00:00";
  draw := fun w => (O, w);
  random := fun w => (0.5%Q, w)
|}.

(** A generator and a digest for runs that need a fingerprint: every draw
    is 0 and the digest is the text itself. *)
#[global] Instance rng : PyRandom unit := {|
  Random := fun _ => tt;
  getrandbits := fun g => (O, g);
  rng_random := fun g => (0%Q, g)
|}.

#[global] Instance hashlib : Hashlib := {| md5_hexdigest := fun s => s |}.

End Frozen.

(** ** Vocabulary of the properties *)

(** A computation that is never cut off. *)
Definition total {S A} (m : M S A) : Prop := forall s, fst (m s) <> Diverge.

Module DetectorSpec.

Section Spec.
Context {W E : Type} `{Env W E}.

(** The checks of [ProtectedScraper.classify] as one decision list on the
    URL, the title and the source read from [w]: the three block checks,
    then the five captcha checks. *)
Definition decision (w : W) (u t src : pystr) : classification :=
  let U := Py.lower u in
  let T := Py.lower t in
  let S := Py.lower src in
  match Py.first_such (fun i => Py.contains i T)
                      BlockDetector.BLOCK_INDICATORS with
  | Some i => Blocked (str "Title contains: " ++ i)
  | None =>
    match Py.first_such (fun i => Py.contains i (take 5000 S))
                        BlockDetector.BLOCK_INDICATORS with
    | Some i => Blocked (str "Page contains: " ++ i)
    | None =>
      if Py.len src <? 1000 then Blocked (str "Page suspiciously small")
      else if existsb (fun p => Py.contains p U)
                      CaptchaDetector.CAPTCHA_URL_PATTERNS
      then Captcha (str "url")
      else if Py.contains (str "robot") T || Py.contains (str "captcha") T
      then Captcha (str "title")
      else if existsb (CaptchaDetector.xpath_shown w)
                      CaptchaDetector.CAPTCHA_XPATHS
      then Captcha (str "element")
      else if existsb (fun i => Py.contains i S)
                      CaptchaDetector.STRONG_INDICATORS
      then Captcha (str "text_pattern")
      else if (Py.len src <? 10000)
              && (Py.contains (str "captcha") S
                  || Py.contains (str "robot check") S)
      then Captcha (str "small_page")
      else Clean
    end
  end.

End Spec.

End DetectorSpec.

Module NavigateSpec.

Section Spec.
Context {W : Type}.

(** What a rotation leaves alone: the throttle, the two counters and the
    retry budget. *)
Definition frame (s s' : ProtectedScraper.t (W:=W)) : Prop :=
  ProtectedScraper.throttle_manager s' = ProtectedScraper.throttle_manager s
  /\ ProtectedScraper.rotate_ip_calls s' = ProtectedScraper.rotate_ip_calls s
  /\ ProtectedScraper.get_calls s' = ProtectedScraper.get_calls s
  /\ ProtectedScraper.max_retries s' = ProtectedScraper.max_retries s.

(** [m] returns in every state, and keeps the frame. *)
Definition steady {A} (m : M (ProtectedScraper.t (W:=W)) A) : Prop :=
  forall s, exists a s', m s = (Success a, s') /\ frame s s'.

End Spec.

End NavigateSpec.

Module WorkerSpec.

Section Spec.
Context {W E : Type} `{Env W E}.

(** The block a save event stands for. *)
Definition saved_block (e : Worker.event (W:=W)) : pystr :=
  match e with
  | Worker.Saved l w =>
    match page_source w, current_url w with
    | Ok html, Ok url => Extractor.block l url (strftime w) html
    | _, _ => []
    end
  | _ => []
  end.

(** [s'] comes after [s]: the trace grew by events that all satisfy [P],
    and the file grew by the blocks of the saves among them. *)
Definition grows (P : Worker.event (W:=W) -> Prop)
    (s s' : Worker.t (W:=W)) : Prop :=
  exists evs, Worker.trace s' = Worker.trace s ++ evs
              /\ Worker.output_file s'
                 = Worker.output_file s ++ flat_map saved_block evs
              /\ Forall P evs.

(** A computation all of whose runs grow the state. *)
Definition growing {A} (P : Worker.event (W:=W) -> Prop)
    (m : M (Worker.t (W:=W)) A) : Prop :=
  forall s, grows P s (snd (m s)).

(** Every run grows the state, and a returned value satisfies [Q]. *)
Definition yields {A} (P : Worker.event (W:=W) -> Prop) (Q : A -> Prop)
    (m : M (Worker.t (W:=W)) A) : Prop :=
  forall s, grows P s (snd (m s)) /\ forall a, fst (m s) = Success a -> Q a.

(** The events of the pagination loop that started at page [p]: a save is
    of a later page, made where the last-page check said no. *)
Definition loop_event (p : Z) (e : Worker.event (W:=W)) : Prop :=
  match e with
  | Worker.Saved l w =>
    exists n, p < n /\ l = str "reviews_page_" ++ str_of_Z n
              /\ Worker.looks_like_last_page w = Ok false
  | _ => True
  end.

(** The outcome of a round when the click is a no-op: the round ends the
    loop, with its entry logged, at most one confirmation wait and nothing
    saved. *)
Definition stalled (p : Z) (s : Worker.t (W:=W))
    (x : except (option Z) * Worker.t (W:=W)) : Prop :=
  fst x <> Diverge
  /\ (forall n, fst x <> Success (Some n))
  /\ (Worker.trace (snd x) = Worker.trace s ++ [Worker.Iteration p]
      \/ Worker.trace (snd x)
         = Worker.trace s ++ [Worker.Iteration p; Worker.ConfirmWait])
  /\ Worker.output_file (snd x) = Worker.output_file s.

(** The events of a whole run. *)
Definition run_event (e : Worker.event (W:=W)) : Prop :=
  match e with
  | Worker.Saved l w =>
    l = str "product_page" \/ l = str "reviews_page_1"
    \/ exists n, 2 <= n /\ l = str "reviews_page_" ++ str_of_Z n
                 /\ Worker.looks_like_last_page w = Ok false
  | _ => True
  end.

End Spec.

End WorkerSpec.

Module ThrottleSpec.

(** The bounds of the backoff multiplier. *)
Definition bounded (tm : ThrottleManager.t) : Prop :=
  (1 <= ThrottleManager.backoff_multiplier tm)%Q
  /\ (ThrottleManager.backoff_multiplier tm <= 10)%Q.

End ThrottleSpec.

Module LoaderSpec.

Import Loader.

Definition no_newline (s : pystr) : Prop := Forall (fun c => c <> newline) s.

(** A label, a URL or a time stamp that the header carries unchanged: one
    line, with no white space at either end. *)
Definition field_ok (x : pystr) : Prop := no_newline x /\ Py.strip x = x.

(** The continuation of a group: the rest of the pattern, with the group
    put before the groups it captures. *)
Abbreviation grouped P :=
  (fun (g s' : pystr) =>
     match match_here P s' with
     | Some (groups, rest) => Some (g :: groups, rest)
     | None => None
     end).

(** The text a header match covers. *)
Definition header (l u t sz : pystr) : pystr :=
  Extractor.RULE ++ newline :: str "PAGE:" ++ " "%char :: l
  ++ newline :: str "URL:" ++ " "%char :: u
  ++ newline :: str "TIMESTAMP:" ++ " "%char :: t
  ++ newline :: str "SIZE:" ++ " "%char :: sz
  ++ newline :: Extractor.RULE.

(** A text without white space, and a text of white space only. *)
Definition solid (s : pystr) : Prop :=
  Forall (fun c => Py.isspace c = false) s.
Definition blank (s : pystr) : Prop :=
  Forall (fun c => Py.isspace c = true) s.

(** The header and the block of a written page. *)
Definition hdr (p : page) : pystr :=
  header (label p) (url p) (timestamp p)
         (Extractor.format_commas (Py.len (html p)) ++ str " bytes").

Definition blk (p : page) : pystr :=
  Extractor.block (label p) (url p) (timestamp p) (html p).

(** A page whose metadata the header carries unchanged and whose content
    holds no rule of 80 [=]. *)
Definition well_formed (p : page) : Prop :=
  field_ok (label p) /\ field_ok (url p) /\ field_ok (timestamp p)
  /\ Py.contains Extractor.RULE (html p) = false.

(** What the loader gives back for a written page: the content comes back
    stripped. *)
Definition recovered (p : page) : page :=
  mk_page (label p) (url p) (timestamp p) (Py.strip (html p)).

(** The matches of a file whose blocks for [ps] start at position [q]. *)
Inductive laid_out : nat -> list rmatch -> list page -> Prop :=
| laid_nil q : laid_out q [] []
| laid_cons q m p ms ps :
    m_start m = (q + 2)%nat ->
    m_end m = (q + 2 + length (hdr p))%nat ->
    Py.strip (nth 0 (m_groups m) []) = label p ->
    Py.strip (nth 1 (m_groups m) []) = url p ->
    Py.strip (nth 2 (m_groups m) []) = timestamp p ->
    laid_out (q + length (blk p)) ms ps ->
    laid_out q (m :: ms) (p :: ps).

(** One call of [save_html_to_single_file] on the content of the file. *)
Definition write_page (file : pystr) (p : page) : pystr :=
  file ++ Extractor.block (label p) (url p) (timestamp p) (html p).

End LoaderSpec.

Module SimSpec.

Import Sim.

(** Two states of a session on the same page of the same site. *)
Definition same_page (s s' : state) : Prop :=
  page s' = page s /\ serve s' = serve s /\ viewport s' = viewport s
  /\ stamp s' = stamp s.

(** What a scroll may return: nothing, or the element its target
    resolves to on the page. *)
Definition found_on (p : spage) (target : option pystr)
    (r : option element) : Prop :=
  r = None \/ exists xpath, target = Some xpath /\ r = lookup XPATH xpath p.

Abbreviation wstate := (Worker.t (W:=state)).

(** The labels of the saves of a trace. *)
Definition saved_labels (tr : list (Worker.event (W:=state))) : list pystr :=
  flat_map (fun e => match e with Worker.Saved l _ => [l] | _ => [] end) tr.

(** The state after the session was on the page [R'] and saved it under
    [l]. *)
Definition advanced (l : pystr) (R' : spage) (st st' : wstate) : Prop :=
  page (Worker.world st') = R'
  /\ serve (Worker.world st') = serve (Worker.world st)
  /\ viewport (Worker.world st') = viewport (Worker.world st)
  /\ stamp (Worker.world st') = stamp (Worker.world st)
  /\ Worker.output_file st'
     = Worker.output_file st
       ++ Extractor.block l (p_url R') (stamp (Worker.world st)) (p_source R')
  /\ Worker.total_pages st' = Worker.total_pages st + 1
  /\ saved_labels (Worker.trace st') = saved_labels (Worker.trace st) ++ [l].

(** The "next" affordance of the reviews page [R] leads to [R']: the link
    is visible, a click on it loads [R'] under another URL, [R] is no
    captcha or login page, and the last-page check lets [R'] through. *)
Definition next_of (s : state) (R R' : spage) : Prop :=
  exists n u, p_next R = Some n /\ el_shown n = true /\ el_target n = Some u
              /\ serve s u = R' /\ p_url R' <> p_url R
              /\ Worker.is_blocked_or_redirected (still R) = Ok false
              /\ Worker.looks_like_last_page (still R') = Ok false.

(** A page that [check_for_blocks] lets through. *)
Definition quiet (p : spage) : Prop :=
  Detection.check_for_blocks (still p) = Ok (false, None).

(** The destination of the "see all reviews" link, as the code resolves
    it. *)
Definition absolute (href : pystr) : pystr :=
  if Py.startswith (str "/") href then str "https://www.amazon.in" ++ href
  else href.

(** The product page [P] links to the first page of reviews [R1]. *)
Definition reviews_of (s : state) (P R1 : spage) : Prop :=
  exists see href, p_see_all P = Some see /\ el_href see = Some href
                   /\ serve s (absolute href) = R1.

(** A page short enough for [ticks] rounds of scrolling. *)
Definition fits (ticks : nat) (p : spage) : Prop :=
  p_height p <= 220 * Z.of_nat ticks.

End SimSpec.

Module RoundSpec.

Section Spec.
Context {W E : Type} `{Env W E}.

(** [s'] comes after [s] with nothing saved in between: the file and the
    two counters are as they were, and the trace grew by events other
    than saves. *)
Definition unsaved (s s' : Worker.t (W:=W)) : Prop :=
  Worker.output_file s' = Worker.output_file s
  /\ Worker.total_pages s' = Worker.total_pages s
  /\ Worker.total_bytes s' = Worker.total_bytes s
  /\ exists evs, Worker.trace s' = Worker.trace s ++ evs
                 /\ Forall (fun e => forall l w, e <> Worker.Saved l w) evs.

(** A computation that saves nothing, however it ends. *)
Definition saves_nothing {A} (m : M (Worker.t (W:=W)) A) : Prop :=
  forall s, unsaved s (snd (m s)).

(** [s'] is [s] after one save under the label [l]: the browser is as it
    was, the block of its page is at the end of the file, and the
    counters and the trace have the save. *)
Definition saved_at (l : pystr) (s s' : Worker.t (W:=W)) : Prop :=
  exists html url,
    page_source (Worker.world s) = Ok html
    /\ current_url (Worker.world s) = Ok url
    /\ s' = Worker.mk (Worker.world s)
              (Worker.output_file s
               ++ Extractor.block l url (strftime (Worker.world s)) html)
              (Worker.total_pages s + 1)
              (Worker.total_bytes s + Py.len html)
              (Worker.trace s ++ [Worker.Saved l (Worker.world s)]).

(** The outcome of a round of the pagination loop that started in [s] at
    page [p]. The round goes on to page [p + 1] only through the save of
    that page, made in a state where the last-page check answers no; in
    every other case it has saved nothing. *)
Definition round_outcome (p : Z) (s : Worker.t (W:=W))
    (x : except (option Z) * Worker.t (W:=W)) : Prop :=
  match fst x with
  | Success (Some n) =>
    n = p + 1
    /\ exists s1, unsaved s s1
                  /\ Worker.looks_like_last_page (Worker.world s1) = Ok false
                  /\ saved_at (str "reviews_page_" ++ str_of_Z n) s1 (snd x)
  | _ => unsaved s (snd x)
  end.

End Spec.

End RoundSpec.

(** ** [anti_block.py]: the proxy formats of ProxyManager *)

Module ProxyFormats.

(** The dictionary of [get_proxy_dict]: its two entries. *)
Record proxy_dict := mk_dict {
  http : pystr;
  https : pystr
}.

(** [get_proxy_dict(proxy)]. *)
Definition get_proxy_dict (proxy : pystr) : option proxy_dict :=
  if Py.truthy proxy then
    match ProtectedScraper.split_colon proxy [] with
    | [_; _] =>
      Some (mk_dict (str "http://" ++ proxy) (str "http://" ++ proxy))
    | [ip; port; user; password] =>
      Some (mk_dict (str "http://" ++ user ++ str ":" ++ password
                     ++ str "@" ++ ip ++ str ":" ++ port)
                    (str "http://" ++ user ++ str ":" ++ password
                     ++ str "@" ++ ip ++ str ":" ++ port))
    | _ => None
    end
  else None.

(** The number of [:] in a proxy string, and a part without any. *)
Definition colons (s : pystr) : nat :=
  length (filter (fun c => c = ":"%char) s).

Definition colon_free (s : pystr) : Prop := Forall (fun c => c <> ":"%char) s.

End ProxyFormats.

(** ** Sequences of calls on a ThrottleManager *)

Module ThrottleRuns.

Import ThrottleManager.

(** The cap of the multiplier that a call can push it to: 3.0 for a
    [wait] at the burst threshold, 5.0 for a rate limit, 10.0 for a
    block. *)
Definition cap_of (c : call) : Q :=
  match c with
  | ReportError k =>
    if bool_decide (k = str "rate_limit") then 5
    else if bool_decide (k = str "block") then 10
    else 3
  | _ => 3
  end.

Definition cap (calls : list call) : Q :=
  fold_right (fun c q => Qmax (cap_of c) q) 3%Q calls.

End ThrottleRuns.

(** ** Concrete sessions *)

Module Examples.

(** A captcha URL under a title with a block phrase. *)
Definition captcha_url_blocked_title : Sim.spage :=
  Sim.mk_page (str "https://www.amazon.in/errors/validateCaptcha")
              (str "Request blocked") (replicate 2000 "x"%char) 2000
              None None [].

(** A page of 3,000 characters without any indicator. *)
Definition plain_3000 : Sim.spage :=
  Sim.mk_page (str "https://www.amazon.in/dp/B000000000")
              (str "Amazon.in") (replicate 3000 "x"%char) 3000
              None None [].

(** A written page whose content starts with a blank and ends with a
    newline. *)
Definition padded : Loader.page :=
  Loader.mk_page (str "product_page")
                 (str "https://www.amazon.in/dp/B000000000")
                 (str "2024-01-01 10:00:00")
                 (str " <html></html>" ++ [Loader.newline]).

(** A written page whose content quotes the header of another page. *)
Definition quoting : Loader.page :=
  Loader.mk_page (str "product_page")
                 (str "https://www.amazon.in/dp/B000000000")
                 (str "2024-01-01 10:00:00")
                 (str "<pre>" ++ Extractor.RULE
                  ++ Loader.newline :: str "PAGE: inner"
                  ++ Loader.newline :: str "URL: about:blank"
                  ++ Loader.newline :: str "TIMESTAMP: never"
                  ++ Loader.newline :: str "SIZE: 0 bytes"
                  ++ Loader.newline :: Extractor.RULE ++ str "</pre>").

(** The first line of an output file, and two pages to write after it. *)
Definition started : pystr :=
  str "<!-- Amazon HTML Scrape Started: 2024-01-01 10:00:00 -->"
  ++ [Loader.newline].

Definition tidy : list Loader.page :=
  [Loader.mk_page (str "product_page")
                  (str "https://www.amazon.in/dp/B000000000")
                  (str "2024-01-01 10:00:00")
                  (str "<html><body>a=b</body></html>");
   Loader.mk_page (str "reviews_page_1")
                  (str "https://www.amazon.in/product-reviews/B000000000")
                  (str "2024-01-01 10:00:20")
                  (str "<html>" ++ [Loader.newline] ++ str "</html>")].

(** A shop: a product page and four pages of reviews, the last without a
    "next" link. *)
Definition PRODUCT_URL : pystr := str "https://www.amazon.in/dp/B000000000".
Definition REVIEWS_URL : pystr :=
  str "https://www.amazon.in/product-reviews/B000000000".

Definition review_url (n : string) : pystr :=
  REVIEWS_URL ++ str "?pageNumber=" ++ str n.

Definition body : pystr := replicate (6 * 1000) "x"%char.

Definition link (href target : pystr) : Sim.element :=
  Sim.mk_element (Some href) 2500 true (Some target).

Definition product : Sim.spage :=
  Sim.mk_page PRODUCT_URL (str "Product") body 3000
    (Some (link (str "/product-reviews/B000000000") REVIEWS_URL)) None [].

Definition reviews (url : pystr) (next : option pystr) : Sim.spage :=
  Sim.mk_page url (str "Customer reviews") body 3000 None
    (match next with Some u => Some (link u u) | None => None end) [].

Definition reviews1 : Sim.spage := reviews REVIEWS_URL (Some (review_url "2")).
Definition reviews2 : Sim.spage :=
  reviews (review_url "2") (Some (review_url "3")).
Definition reviews3 : Sim.spage :=
  reviews (review_url "3") (Some (review_url "4")).
Definition reviews4 : Sim.spage := reviews (review_url "4") None.

Definition site (u : pystr) : Sim.spage :=
  if bool_decide (u = PRODUCT_URL) then product
  else if bool_decide (u = REVIEWS_URL) then reviews1
  else if bool_decide (u = review_url "2") then reviews2
  else if bool_decide (u = review_url "3") then reviews3
  else if bool_decide (u = review_url "4") then reviews4
  else Sim.blank.

Definition shop : Sim.state :=
  Sim.mk site Sim.blank 0 800 0 (str "2024-01-01 10:00:00")
         (fun n => n) (fun _ => 0.05%Q) O.

End Examples.

(** ** Tactics of the proofs *)

(** The first bind of a computation, and the fields of the scraper's
    state. *)
Ltac bind_step := unfold mbind at 1, M_bind at 1, bind at 1.
Ltac proj :=
  cbn [Worker.world Worker.output_file Worker.total_pages Worker.total_bytes
       Worker.trace].
Ltac world_step H :=
  bind_step; unfold Worker.on_world at 1; proj; rewrite H; proj.

(** A round of the pagination loop that ends before the click. *)
Ltac early :=
  unfold WorkerSpec.stalled; simpl;
  split; [done|]; split; [done|]; split; [by left|done].

(** * Properties *)

(** ** Proxy pool *)

Module ProxyFacts.
Import ProxyManager.

Lemma choice_nonempty {A} (r : nat) (l : list A) :
  l ≠ [] → ∃ x, choice r l = Some x ∧ x ∈ l.
Proof.
  intros Hl. unfold choice.
  assert (Hlen : (0 < length l)%nat) by (destruct l; [done | simpl; lia]).
  destruct (lookup_lt_is_Some_2 l (r `mod` length l)%nat) as [x Hx].
  { apply Nat.mod_upper_bound. lia. }
  exists x. split; [done | by eapply list_elem_of_lookup_2].
Qed.

Lemma mark_failed_idem (p : option pystr) (pm : t) :
  mark_failed p (mark_failed p pm) = mark_failed p pm.
Proof.
  destruct p as [p|]; [|done]. unfold mark_failed.
  destruct (Py.truthy p) eqn:Hp; simpl; rewrite ?Hp; [|done].
  f_equal. apply set_eq. intros x. rewrite !elem_of_union. tauto.
Qed.

(** C3.  [get_next_proxy] returns [None] on an empty candidate list;
    otherwise it returns a candidate outside the failure set and leaves the
    pool as it is, or, when every candidate is in the failure set, clears
    the set and returns some candidate.  [mark_failed] adds its descriptor
    to the failure set, and nothing else: the new set is the old one with
    the descriptor, which is in it from then on; a call without a
    descriptor ([None] or the empty string) changes nothing.  So
    [mark_failed] only adds to the failure set and is idempotent, and
    neither operation changes the candidate list. *)
Theorem proxy_pool_selection (r : nat) (pm : t) (proxy : option pystr) :
  (* the result of [get_next_proxy] *)
  ((proxy_list pm = [] ∧ get_next_proxy r pm = (None, pm))
   ∨ (∃ p, get_next_proxy r pm = (Some p, pm)
           ∧ p ∈ proxy_list pm ∧ p ∉ failed_proxies pm)
   ∨ (∃ p pm', get_next_proxy r pm = (Some p, pm')
               ∧ p ∈ proxy_list pm
               ∧ list_to_set (proxy_list pm) ⊆ failed_proxies pm
               ∧ failed_proxies pm' = ∅
               ∧ proxy_list pm' = proxy_list pm))
  (* [mark_failed] *)
  ∧ failed_proxies pm ⊆ failed_proxies (mark_failed proxy pm)
  ∧ mark_failed proxy (mark_failed proxy pm) = mark_failed proxy pm
  (* the candidate list *)
  ∧ proxy_list (mark_failed proxy pm) = proxy_list pm
  ∧ proxy_list (snd (get_next_proxy r pm)) = proxy_list pm
  (* what [mark_failed] adds *)
  ∧ failed_proxies (mark_failed proxy pm)
    = failed_proxies pm
      ∪ match proxy with
        | Some p => if Py.truthy p then {[ p ]} else ∅
        | None => ∅
        end
  ∧ (∀ p, proxy = Some p → p ≠ [] →
          p ∈ failed_proxies (mark_failed proxy pm)
          ∧ failed_proxies (mark_failed proxy pm)
            = failed_proxies pm ∪ {[ p ]}
          ∧ current_index (mark_failed proxy pm) = current_index pm)
  ∧ (proxy = None ∨ proxy = Some [] → mark_failed proxy pm = pm).
Proof.
  split; [|split; [|split; [|split; [|split; [|split; [|split]]]]]].
  - unfold get_next_proxy.
    destruct (proxy_list pm) as [|q l] eqn:Hl; [by left|right].
    rewrite <- Hl.
    destruct (filter (λ p, p ∉ failed_proxies pm) (proxy_list pm))
      as [|a av] eqn:Hav.
    + right.
      destruct (choice_nonempty r (proxy_list pm)) as (x & Hx & Hin);
        [by rewrite Hl|].
      eexists x, _. rewrite Hx. split; [done|]. split; [done|].
      split; [|done].
      intros y Hy. apply elem_of_list_to_set in Hy.
      destruct (decide (y ∈ failed_proxies pm)) as [|Hn]; [done|].
      assert (y ∈ filter (λ p, p ∉ failed_proxies pm) (proxy_list pm))
        by (by apply list_elem_of_filter).
      rewrite Hav in *. by apply not_elem_of_nil in H.
    + left. rewrite <- Hav.
      destruct (choice_nonempty r
                  (filter (λ p, p ∉ failed_proxies pm) (proxy_list pm)))
        as (x & Hx & Hin); [by rewrite Hav|].
      exists x. rewrite Hx. apply list_elem_of_filter in Hin as [? ?]. done.
  - destruct proxy as [p|]; simpl; [|done].
    destruct (Py.truthy p); simpl; set_solver.
  - apply mark_failed_idem.
  - destruct proxy as [p|]; simpl; [|done]. by destruct (Py.truthy p).
  - unfold get_next_proxy. destruct (proxy_list pm) eqn:Hl; [done|].
    by destruct (filter _ _).
  - destruct proxy as [p|]; simpl; [|by rewrite union_empty_r_L].
    destruct (Py.truthy p); simpl; [done|by rewrite union_empty_r_L].
  - intros p -> Hp. destruct p as [|c p]; [done|]. simpl.
    split; [|done]. apply elem_of_union_r, elem_of_singleton. done.
  - intros [->| ->]; done.
Qed.
End ProxyFacts.

(** ** Throttle *)

Module ThrottleFacts.
Import ThrottleManager.
Import ThrottleSpec.

Lemma Qltb_true (a b : Q) : Qltb a b = true ↔ (a < b)%Q.
Proof.
  unfold Qltb. rewrite negb_true_iff. split.
  - intros Hf. apply Qnot_le_lt. intros Hle.
    apply Qle_bool_iff in Hle. congruence.
  - intros Hlt. destruct (Qle_bool b a) eqn:Hle; [|done].
    apply Qle_bool_iff in Hle. apply Qlt_not_le in Hlt. done.
Qed.

Lemma Qltb_false (a b : Q) : Qltb a b = false ↔ (b <= a)%Q.
Proof.
  unfold Qltb. rewrite negb_false_iff. apply Qle_bool_iff.
Qed.

Lemma wait_multiplier (b n n' : Q) (tm : t) :
  backoff_multiplier (snd (wait b n n' tm)) =
  if negb (burst_threshold tm =? 0)
     && ((request_count tm + 1) `mod` burst_threshold tm =? 0)
  then Qmin (backoff_multiplier tm * 1.5) 3
  else backoff_multiplier tm.
Proof.
  unfold wait, wait_plan. simpl.
  destruct (burst_threshold tm =? 0); simpl; [done|].
  destruct ((request_count tm + 1) `mod` burst_threshold tm =? 0); simpl;
    by destruct (Qltb _ _).
Qed.

Lemma wait_threshold (b n n' : Q) (tm : t) :
  burst_threshold (snd (wait b n n' tm)) = burst_threshold tm.
Proof.
  unfold wait, wait_plan. simpl.
  destruct (burst_threshold tm =? 0); simpl; [done|].
  destruct ((request_count tm + 1) `mod` burst_threshold tm =? 0); simpl;
    by destruct (Qltb _ _).
Qed.

Lemma report_success_multiplier (tm : t) :
  bounded tm →
  (backoff_multiplier (report_success tm)
   == Qmax 1 (backoff_multiplier tm * 0.9))%Q.
Proof.
  intros [Hlo Hhi]. unfold report_success.
  destruct (Qltb 1 (backoff_multiplier tm)) eqn:Hlt; simpl; [reflexivity|].
  apply Qltb_false in Hlt.
  rewrite Q.max_l; [lra | lra].
Qed.

Lemma report_error_cases (k : pystr) (tm : t) :
  backoff_multiplier (report_error k tm) =
  if bool_decide (k = str "rate_limit")
  then Qmin (backoff_multiplier tm * 2) 5
  else if bool_decide (k = str "block")
  then Qmin (backoff_multiplier tm * 3) 10
  else backoff_multiplier tm.
Proof. unfold report_error. by repeat case_bool_decide. Qed.

Lemma run_call_bounded (tm : t) (c : call) :
  bounded tm → bounded (run_call tm c).
Proof.
  intros [Hlo Hhi]. unfold bounded. destruct c as [b n n'| |k]; simpl.
  - rewrite wait_multiplier.
    destruct (_ && _); [|done].
    split; [apply Q.min_glb; lra|].
    eapply Qle_trans; [apply Q.le_min_r|lra].
  - rewrite report_success_multiplier by done.
    split; [apply Q.le_max_l|]. apply Q.max_lub; lra.
  - rewrite report_error_cases. repeat case_bool_decide; [| |done].
    + split; [apply Q.min_glb; lra|].
      eapply Qle_trans; [apply Q.le_min_r|lra].
    + split; [apply Q.min_glb; lra|]. apply Q.le_min_r.
Qed.

Lemma run_call_threshold (tm : t) (c : call) :
  burst_threshold (run_call tm c) = burst_threshold tm.
Proof.
  destruct c as [b n n'| |k]; simpl.
  - apply wait_threshold.
  - unfold report_success. by destruct (Qltb _ _).
  - unfold report_error. by repeat case_bool_decide.
Qed.

Lemma run_bounded (calls : list call) (tm : t) :
  bounded tm →
  bounded (run calls tm) ∧ burst_threshold (run calls tm) = burst_threshold tm.
Proof.
  revert tm. induction calls as [|c calls IH]; intros tm Hb; [done|].
  simpl. destruct (IH (run_call tm c)) as [H1 H2].
  { by apply run_call_bounded. }
  split; [done|]. by rewrite H2, run_call_threshold.
Qed.

End ThrottleFacts.

(** ** Fingerprints *)

Module FingerprintFacts.
Import BrowserFingerprint.

Section Facts.
Context {G : Type} `{PyRandom G} `{Hashlib}.

Lemma generated_ids (seed : Z) (g : G) :
  let fp := fst (generate_fingerprint seed g) in
  BrowserFingerprint.seed fp = seed
  ∧ (canvas_hash fp, webgl_hash fp, audio_hash fp)
    = generate_ids seed (user_agent fp) (screen_width fp).
Proof.
  unfold generate_fingerprint, mbind, Gen_bind, mret, Gen_ret,
    choice, randint, uniform.
  repeat match goal with
         | |- context [getrandbits ?g] => destruct (getrandbits g)
         | |- context [rng_random ?g] => destruct (rng_random g)
         end.
  simpl. split; [done|].
  reflexivity.
Qed.

(** C5.  Two fingerprints built from the same seed are equal in every
    attribute, whatever the clock says at either construction, and the
    three hashes of each are the ones [_generate_ids] derives from the
    seed, the user agent and the screen width. *)
Theorem fingerprint_two_run_determinism (S : Z) (now1 now2 : Q) :
  let fp1 := init (Some S) now1 in
  let fp2 := init (Some S) now2 in
  fp1 = fp2
  ∧ seed fp1 = S
  ∧ (canvas_hash fp1, webgl_hash fp1, audio_hash fp1)
    = generate_ids S (user_agent fp1) (screen_width fp1)
  ∧ (canvas_hash fp1, webgl_hash fp1, audio_hash fp1)
    = (canvas_hash fp2, webgl_hash fp2, audio_hash fp2).
Proof.
  intros fp1 fp2. split; [done|].
  destruct (generated_ids S (Random S)) as [Hs Hh].
  split; [done|]. split; done.
Qed.

End Facts.
End FingerprintFacts.

(** ** Detectors *)

Module DetectorFacts.

Lemma first_such_Some {A} (f : A → bool) (l : list A) (x : A) :
  Py.first_such f l = Some x → x ∈ l ∧ f x = true.
Proof.
  induction l as [|y l IH]; simpl; [done|].
  destruct (f y) eqn:Hy.
  - intros [= <-]. split; [left|done].
  - intros Hx. destruct (IH Hx). split; [by right|done].
Qed.

Lemma first_such_None {A} (f : A → bool) (l : list A) :
  Py.first_such f l = None ↔ existsb f l = false.
Proof.
  induction l as [|y l IH]; simpl; [done|].
  destruct (f y); simpl; [split; discriminate|done].
Qed.

Lemma first_such_hit {A} (f : A → bool) (l : list A) (x : A) :
  x ∈ l → f x = true → ∃ y, Py.first_such f l = Some y.
Proof.
  intros Hin Hx. destruct (Py.first_such f l) eqn:Hf; [by eexists|].
  apply first_such_None in Hf.
  assert (existsb f l = true) as Ht.
  { apply existsb_exists. exists x. split; [by apply list_elem_of_In|done]. }
  congruence.
Qed.

Lemma len_lower (s : pystr) : Py.len (Py.lower s) = Py.len s.
Proof. unfold Py.len, Py.lower. by rewrite length_map. Qed.

Section Facts.
Context {W E : Type} `{Env W E}.

Lemma classify_decision (w : W) (u t src : pystr) :
  current_url w = Ok u → title w = Ok t → page_source w = Ok src →
  ProtectedScraper.classify w = Ok (DetectorSpec.decision w u t src).
Proof.
  intros Hu Ht Hs.
  unfold ProtectedScraper.classify, BlockDetector.is_blocked,
    CaptchaDetector.is_captcha_present, DetectorSpec.decision, Py.upto.
  rewrite Hu, Ht, Hs. unfold mbind, result_bind.
  rewrite !len_lower.
  destruct (Py.first_such _ BlockDetector.BLOCK_INDICATORS); [done|].
  destruct (Py.first_such _ BlockDetector.BLOCK_INDICATORS); [done|].
  destruct (Py.len src <? 1000); [done|]. cbn [fst snd].
  destruct (existsb _ CaptchaDetector.CAPTCHA_URL_PATTERNS); [done|].
  destruct (_ || _); [done|].
  destruct (existsb _ CaptchaDetector.CAPTCHA_XPATHS); [done|].
  destruct (existsb _ CaptchaDetector.STRONG_INDICATORS); [done|].
  by destruct (_ && _).
Qed.

(** C2.  The classification made by [navigate_with_protection] is the
    first match in this order: a block indicator in the title, a block
    indicator in the first 5,000 characters, a page below 1,000
    characters, and only then the captcha checks (URL, title, visible
    element, strong phrase, small page with captcha content).  So a
    snapshot whose title holds a block indicator is classified blocked
    with a title reason, whatever its URL is. *)
Theorem classification_order (w : W) (u t src : pystr) :
  current_url w = Ok u → title w = Ok t → page_source w = Ok src →
  ProtectedScraper.classify w = Ok (DetectorSpec.decision w u t src)
  ∧ ∀ i, i ∈ BlockDetector.BLOCK_INDICATORS →
         Py.contains i (Py.lower t) = true →
         ∃ j, j ∈ BlockDetector.BLOCK_INDICATORS
              ∧ ProtectedScraper.classify w
                = Ok (Blocked (str "Title contains: " ++ j)).
Proof.
  intros Hu Ht Hs. split; [by apply classify_decision|].
  intros i Hi Hc. rewrite (classify_decision w u t src) by done.
  unfold DetectorSpec.decision.
  destruct (first_such_hit (λ i, Py.contains i (Py.lower t)) _ i Hi Hc)
    as [j Hj].
  rewrite Hj. exists j. split; [|done].
  by apply first_such_Some in Hj as [? _].
Qed.

(** C9.  On a snapshot without any captcha indicator and without any block
    phrase, the classifier of [anti_block.py] answers blocked("Page
    suspiciously small") exactly when the page is shorter than 1,000
    characters and clean otherwise, while [check_for_blocks] of
    [scraper/detection.py], the check the worker runs, reports a block
    exactly when the page is shorter than 5,000 characters. *)
Theorem small_page_thresholds (w : W) (u t src : pystr) :
  current_url w = Ok u → title w = Ok t → page_source w = Ok src →
  (* no generic block phrase *)
  existsb (λ i, Py.contains i (Py.lower t))
          BlockDetector.BLOCK_INDICATORS = false →
  existsb (λ i, Py.contains i (take 5000 (Py.lower src)))
          BlockDetector.BLOCK_INDICATORS = false →
  (* no captcha indicator *)
  existsb (λ p, Py.contains p (Py.lower u))
          CaptchaDetector.CAPTCHA_URL_PATTERNS = false →
  Py.contains (str "robot") (Py.lower t)
  || Py.contains (str "captcha") (Py.lower t) = false →
  existsb (CaptchaDetector.xpath_shown w)
          CaptchaDetector.CAPTCHA_XPATHS = false →
  existsb (λ i, Py.contains i (Py.lower src))
          CaptchaDetector.STRONG_INDICATORS = false →
  (Py.len src <? 10000)
  && (Py.contains (str "captcha") (Py.lower src)
      || Py.contains (str "robot check") (Py.lower src)) = false →
  (* no login URL and none of the phrases of [check_for_blocks] *)
  Py.contains (str "/ap/signin") (Py.lower u)
  || Py.contains (str "/ap/register") (Py.lower u) = false →
  existsb (λ i, Py.contains i (Py.lower src))
          Detection.CAPTCHA_INDICATORS = false →
  ProtectedScraper.classify w
  = Ok (if Py.len src <? 1000 then Blocked (str "Page suspiciously small")
        else Clean)
  ∧ Detection.check_for_blocks w
    = Ok (if Py.len src <? 5000
          then (true, Some (str "Page suspiciously small: "
                            ++ str_of_Z (Py.len src) ++ str " bytes"))
          else (false, None)).
Proof.
  intros Hu Ht Hs B1 B2 K1 K2 K3 K4 K5 L1 L2. split.
  - rewrite (classify_decision w u t src) by done.
    unfold DetectorSpec.decision.
    apply first_such_None in B1, B2. rewrite B1, B2, K1, K2, K3, K4, K5.
    done.
  - unfold Detection.check_for_blocks. rewrite Hu, Hs.
    unfold mbind, result_bind. rewrite L1.
    assert (Py.contains (str "captcha") (Py.lower u) = false) as ->.
    { apply not_true_is_false. intros Hc.
      assert (existsb (λ p, Py.contains p (Py.lower u))
                CaptchaDetector.CAPTCHA_URL_PATTERNS = true); [|congruence].
      apply existsb_exists. exists (str "captcha"). split; [|done].
      unfold CaptchaDetector.CAPTCHA_URL_PATTERNS. simpl. tauto. }
    apply first_such_None in L2. rewrite L2, len_lower. destruct (Py.len src <? 5000); reflexivity.
Qed.

End Facts.

(** The order at work on a captcha URL under a title with "blocked". *)
Lemma classification_order_witness :
  ProtectedScraper.classify (Sim.still Examples.captcha_url_blocked_title)
  = Ok (Blocked (str "Title contains: blocked")).
Proof.
  destruct (classification_order (H:=Sim.env)
              (Sim.still Examples.captcha_url_blocked_title)
              (Sim.p_url Examples.captcha_url_blocked_title)
              (Sim.p_title Examples.captcha_url_blocked_title)
              (Sim.p_source Examples.captcha_url_blocked_title)
              eq_refl eq_refl eq_refl) as [Hd _].
  rewrite Hd. vm_compute. reflexivity.
Defined.

(** A snapshot with a captcha URL and the block phrase "blocked" in its
    title is classified blocked, not captcha("url"). *)
Lemma captcha_url_under_block_title :
  existsb (λ p, Py.contains p
                  (Py.lower (Sim.p_url Examples.captcha_url_blocked_title)))
          CaptchaDetector.CAPTCHA_URL_PATTERNS = true
  ∧ Py.contains (str "blocked")
      (Py.lower (Sim.p_title Examples.captcha_url_blocked_title)) = true
  ∧ str "blocked" ∈ BlockDetector.BLOCK_INDICATORS
  ∧ ProtectedScraper.classify
      (Sim.still Examples.captcha_url_blocked_title)
    = Ok (Blocked (str "Title contains: blocked"))
  ∧ ProtectedScraper.classify
      (Sim.still Examples.captcha_url_blocked_title)
    ≠ Ok (Captcha (str "url")).
Proof.
  split; [by vm_compute|]. split; [by vm_compute|].
  split; [unfold BlockDetector.BLOCK_INDICATORS; set_solver|].
  assert (ProtectedScraper.classify
            (Sim.still Examples.captcha_url_blocked_title)
          = Ok (Blocked (str "Title contains: blocked"))) as ->
    by (by vm_compute).
  split; [done|discriminate].
Qed.

(** The two thresholds at work on a plain page of 3,000 characters. *)
Lemma small_page_thresholds_witness :
  ProtectedScraper.classify (Sim.still Examples.plain_3000) = Ok Clean
  ∧ Detection.check_for_blocks (Sim.still Examples.plain_3000)
    = Ok (true, Some (str "Page suspiciously small: 3000 bytes")).
Proof.
  destruct (small_page_thresholds (H:=Sim.env)
              (Sim.still Examples.plain_3000)
              (Sim.p_url Examples.plain_3000)
              (Sim.p_title Examples.plain_3000)
              (Sim.p_source Examples.plain_3000)
              eq_refl eq_refl eq_refl)
    as [Hc Hb]; try (vm_compute; reflexivity).
  split; [rewrite Hc|rewrite Hb]; vm_compute; reflexivity.
Defined.

(** An indicator-free page of 3,000 characters is reported blocked by
    [check_for_blocks]. *)
Lemma plain_3000_is_blocked_by_check_for_blocks :
  Py.len (Sim.p_source Examples.plain_3000) = 3000
  ∧ Detection.check_for_blocks (Sim.still Examples.plain_3000)
    = Ok (true, Some (str "Page suspiciously small: 3000 bytes"))
  ∧ Detection.check_for_blocks (Sim.still Examples.plain_3000)
    ≠ Ok (false, None).
Proof.
  split; [by vm_compute|].
  assert (Detection.check_for_blocks (Sim.still Examples.plain_3000)
          = Ok (true, Some (str "Page suspiciously small: 3000 bytes")))
    as -> by (by vm_compute).
  split; [done|discriminate].
Qed.

End DetectorFacts.

(** ** Protected navigation *)

Module NavigateFacts.
Import ProtectedScraper.

Section Facts.
Context {W E G : Type} `{Env W E} `{PyRandom G} `{Hashlib}.

Abbreviation state := (t (W:=W)).
Abbreviation frame := (NavigateSpec.frame (W:=W)).
Abbreviation steady := (NavigateSpec.steady (W:=W)).

Lemma frame_refl (s : state) : frame s s.
Proof. done. Qed.

Lemma frame_trans (s1 s2 s3 : state) : frame s1 s2 → frame s2 s3 → frame s1 s3.
Proof. unfold frame. intros (?&?&?&?) (?&?&?&?). repeat split; congruence. Qed.

Lemma steady_bind {A B} (m : M state A) (k : A → M state B) :
  steady m → (∀ a, steady (k a)) → steady (m ≫= k).
Proof.
  intros Hm Hk s. destruct (Hm s) as (a & s1 & Hms & Hf1).
  destruct (Hk a s1) as (b & s2 & Hks & Hf2).
  exists b, s2. split; [|by eapply frame_trans].
  unfold mbind, M_bind, bind. by rewrite Hms.
Qed.

Lemma steady_ret {A} (a : A) : steady (mret a).
Proof. intros s. by exists a, s. Qed.

Lemma steady_on_world {A} (m : M W A) :
  (∀ w, ∃ a, fst (m w) = Success a) → steady (on_world m).
Proof.
  intros Hm s. unfold on_world. destruct (Hm (world s)) as [a Ha].
  destruct (m (world s)) as [r w'] eqn:Hr. simpl in Ha. subst r.
  by eexists a, _.
Qed.

Lemma steady_quit_driver : steady quit_driver.
Proof.
  intros s. unfold quit_driver. destruct (driver s); [|by exists tt, s].
  destruct (quit (world s)). by eexists tt, _.
Qed.

Lemma steady_next_proxy : steady next_proxy.
Proof.
  intros s. unfold next_proxy.
  destruct (ProxyManager.proxy_list _); [by eexists _, s|].
  destruct (draw _). destruct (ProxyManager.get_next_proxy _ _).
  by eexists _, _.
Qed.

Lemma steady_choose_fingerprint b : steady (choose_fingerprint b).
Proof.
  intros s. unfold choose_fingerprint.
  destruct (current_fingerprint s); [destruct b|]; by eexists _, _.
Qed.

Lemma steady_modify (f : state → state) : (∀ s, frame s (f s)) → steady (modify f).
Proof. intros Hf s. by exists tt, (f s). Qed.

Hypothesis chrome_starts : ∀ args w, fst (chrome args w) = Ok tt.

Lemma steady_start_driver b : steady (start_driver b).
Proof.
  unfold start_driver.
  apply steady_bind; [apply steady_quit_driver|intros _].
  apply steady_bind; [apply steady_choose_fingerprint|intros fp].
  apply steady_bind.
  - unfold create_protected_driver.
    apply steady_bind; [apply steady_next_proxy|intros p].
    destruct (match p with Some _ => _ | None => _ end) as [options used].
    apply steady_bind; [|intros _; apply steady_ret].
    apply steady_on_world. intros w. unfold call.
    assert (Hc := chrome_starts options w).
    destruct (chrome options w) as [r w']. simpl in Hc. subst r. by exists tt.
  - intros p. by apply steady_modify.
Qed.

(** A rotation returns and adds one to its counter. *)
Lemma rotate_ip_counts (s : state) :
  ∃ s', rotate_ip false s = (Success tt, s')
        ∧ throttle_manager s' = throttle_manager s
        ∧ rotate_ip_calls s' = S (rotate_ip_calls s)
        ∧ get_calls s' = get_calls s
        ∧ max_retries s' = max_retries s.
Proof.
  unfold rotate_ip.
  assert (steady
            (modify (λ s, match current_proxy s with
                          | Some p =>
                            if Py.truthy p
                            then set_proxy_manager
                                   (ProxyManager.mark_failed (Some p)
                                      (proxy_manager s)) s
                            else s
                          | None => s
                          end);;
             quit_driver;;
             d ← on_world (uniform 2 5);
             on_world (time_sleep d);;
             start_driver false)) as Hrest.
  { apply steady_bind.
    { apply steady_modify. intros s0. destruct (current_proxy s0) as [p|];
        [destruct (Py.truthy p)|]; done. }
    intros _. apply steady_bind; [apply steady_quit_driver|intros _].
    apply steady_bind.
    { apply steady_on_world. intros w. unfold uniform, step.
      destruct (random w). simpl. by eexists. }
    intros d. apply steady_bind; [|intros _; apply steady_start_driver].
    apply steady_on_world. intros w. by exists tt. }
  destruct (Hrest (count_rotate_ip s)) as ([] & s' & Hs' & Hf).
  exists s'. split.
  - unfold mbind, M_bind, bind in *. simpl. exact Hs'.
  - destruct Hf as (?&?&?&?). done.
Qed.

Hypothesis page_loads : ∀ url w, fst (get url w) = Ok tt.
Hypothesis body_present : ∀ w, fst (wait_for_body w) = Ok tt.
Hypothesis always_blocked : ∀ w, ∃ reason, classify w = Ok (Blocked reason).

Lemma wait_plan_ok (b n : Q) (tm : ThrottleManager.t) :
  ThrottleManager.burst_threshold tm ≠ 0 →
  ∃ p tm', ThrottleManager.wait_plan b n tm = (Ok p, tm')
           ∧ ThrottleManager.burst_threshold tm'
             = ThrottleManager.burst_threshold tm.
Proof.
  intros Hbt. unfold ThrottleManager.wait_plan. simpl.
  apply Z.eqb_neq in Hbt. rewrite Hbt.
  destruct (_ `mod` _ =? 0); destruct (ThrottleManager.Qltb _ _);
    by eexists _, _.
Qed.

Lemma throttle_wait_ok (s : state) :
  ThrottleManager.burst_threshold (throttle_manager s) ≠ 0 →
  ∃ s', throttle_wait s = (Success tt, s')
        ∧ ThrottleManager.burst_threshold (throttle_manager s')
          = ThrottleManager.burst_threshold (throttle_manager s)
        ∧ rotate_ip_calls s' = rotate_ip_calls s
        ∧ get_calls s' = get_calls s
        ∧ max_retries s' = max_retries s.
Proof.
  intros Hbt. unfold throttle_wait.
  destruct (Z.eqb_spec (ThrottleManager.burst_threshold (throttle_manager s))
              0) as [|_]; [done|].
  destruct (random (world s)) as [u w1].
  match goal with
  | |- context [ThrottleManager.wait_plan ?b ?n ?tm] =>
    destruct (wait_plan_ok b n tm Hbt) as (p & tm' & Hp & Hbt'); rewrite Hp
  end.
  eexists. split; [reflexivity|]. done.
Qed.

Lemma report_error_threshold (k : pystr) (tm : ThrottleManager.t) :
  ThrottleManager.burst_threshold (ThrottleManager.report_error k tm)
  = ThrottleManager.burst_threshold tm.
Proof. unfold ThrottleManager.report_error. by repeat case_bool_decide. Qed.

(** One attempt on a page that is classified blocked: it ends in
    [continue] after one navigation and one rotation. *)
Lemma attempt_blocked (url : pystr) (s : state) :
  ThrottleManager.burst_threshold (throttle_manager s) ≠ 0 →
  ∃ s', attempt_body url s = (Success None, s')
        ∧ ThrottleManager.burst_threshold (throttle_manager s')
          = ThrottleManager.burst_threshold (throttle_manager s)
        ∧ rotate_ip_calls s' = S (rotate_ip_calls s)
        ∧ get_calls s' = S (get_calls s)
        ∧ max_retries s' = max_retries s.
Proof.
  intros Hbt. unfold attempt_body.
  destruct (throttle_wait_ok s Hbt) as (s1 & E1 & Hb1 & Hr1 & Hg1 & Hm1).
  unfold mbind, M_bind, bind. rewrite E1. unfold read at 1. cbn [outcome].
  assert (∃ s2, (if driver s1 then mret tt else start_driver false) s1
                = (Success tt, s2) ∧ frame s1 s2) as (s2 & E2 & Hf2).
  { destruct (driver s1); [by exists s1|].
    destruct (steady_start_driver false s1) as ([] & s2 & ? & ?). eauto. }
  unfold mbind, M_bind, bind in E2. rewrite E2.
  unfold modify at 1. unfold on_world at 1, call at 1.
  set (s3 := count_get s2).
  assert (Hg := page_loads url (world s3)).
  destruct (get url (world s3)) as [r3 w3]. simpl in Hg. subst r3.
  unfold on_world at 1, call at 1. cbn [world set_world outcome].
  assert (Hw := body_present w3).
  destruct (wait_for_body w3) as [r4 w4]. simpl in Hw. subst r4.
  unfold on_world at 1, uniform, step. cbn [world set_world outcome].
  destruct (random w4) as [u5 w5].
  unfold on_world at 1, time_sleep, modify. cbn [world set_world].
  unfold on_world at 1, read. cbn [world set_world].
  destruct (always_blocked (sleep (1 + (3 - 1) * u5)%Q w5)) as [reason' Hc'].
  rewrite Hc'. cbn [outcome]. unfold report_error, modify.
  match goal with
  | |- context [rotate_ip false ?x] =>
    destruct (rotate_ip_counts x) as (s6 & E6 & Ht6 & Hr6 & Hg6 & Hm6)
  end.
  rewrite E6. exists s6. split; [done|].
  destruct Hf2 as (Ht2 & Hr2 & Hg2 & Hm2).
  rewrite Ht6, Hr6, Hg6, Hm6.
  cbn [throttle_manager rotate_ip_calls get_calls max_retries set_throttle
       set_world].
  rewrite report_error_threshold. subst s3.
  cbn [throttle_manager rotate_ip_calls get_calls max_retries count_get].
  rewrite Ht2, Hr2, Hg2, Hm2, Hb1, Hr1, Hg1, Hm1. done.
Qed.

Lemma attempts_blocked (url : pystr) (retries : Z) (remaining : nat)
    (attempt : Z) (s : state) :
  ThrottleManager.burst_threshold (throttle_manager s) ≠ 0 →
  ∃ s', attempts url retries remaining attempt s = (Success false, s')
        ∧ rotate_ip_calls s' = (rotate_ip_calls s + remaining)%nat
        ∧ get_calls s' = (get_calls s + remaining)%nat.
Proof.
  revert attempt s. induction remaining as [|k IH]; intros attempt s Hbt.
  - exists s. simpl. split; [done|]. lia.
  - destruct (attempt_blocked url s Hbt) as (s1 & E1 & Hb1 & Hr1 & Hg1 & _).
    destruct (IH (attempt + 1) s1) as (s2 & E2 & Hr2 & Hg2); [congruence|].
    exists s2. split; [|lia].
    simpl. unfold mbind, M_bind, bind, try_except. by rewrite E1.
Qed.

(** C1.  On a site where Chrome starts, every page loads and every attempt
    is classified blocked, [navigate_with_protection] makes as many
    attempts as the retry budget says (the configured [max_retries] when
    no budget is passed or the budget is 0), returns [False] and raises
    nothing.  It calls [rotate_ip] once per attempt, that is maxRetries
    times and not maxRetries - 1: the blocked branch of the loop rotates
    after the last attempt too. *)
Theorem navigate_all_blocked (url : pystr) (retry_budget : option Z)
    (s : state) :
  ThrottleManager.burst_threshold (throttle_manager s) ≠ 0 →
  let retries :=
    match retry_budget with
    | Some n => if n =? 0 then max_retries s else n
    | None => max_retries s
    end in
  ∃ s', navigate_with_protection url retry_budget s = (Success false, s')
        ∧ get_calls s' = (get_calls s + Z.to_nat retries)%nat
        ∧ rotate_ip_calls s' = (rotate_ip_calls s + Z.to_nat retries)%nat.
Proof.
  intros Hbt retries. unfold navigate_with_protection. fold retries.
  destruct (attempts_blocked url retries (Z.to_nat retries) 0 s Hbt)
    as (s' & Hs & Hr & Hg).
  by exists s'.
Qed.

End Facts.

(** A frozen "Access Denied" page under a budget of 3: three page loads and
    three rotations. *)
Lemma navigate_all_blocked_witness :
  ∃ s', navigate_with_protection (str "https://www.amazon.in/dp/B000000000")
          (Some 3) (init None tt) = (Success false, s')
        ∧ get_calls s' = 3%nat ∧ rotate_ip_calls s' = 3%nat.
Proof.
  apply (navigate_all_blocked (W:=unit) (E:=unit) (G:=unit)).
  - intros args []. reflexivity.
  - intros url []. reflexivity.
  - intros []. reflexivity.
  - intros []. eexists. vm_compute. reflexivity.
  - simpl. lia.
Defined.

End NavigateFacts.

(** ** Loader round trip *)

Module LoaderFacts.
Import Loader.
Import LoaderSpec.

(** *** Prefixes *)

Lemma eqc_refl (c : ascii) : Py.eqc c c = true.
Proof. apply Ascii.eqb_refl. Qed.

Lemma eqc_eq (a b : ascii) : Py.eqc a b = true ↔ a = b.
Proof. apply Ascii.eqb_eq. Qed.

Lemma startswith_app (p s : pystr) : Py.startswith p (p ++ s) = true.
Proof. induction p as [|c p IH]; [done|]. simpl. by rewrite eqc_refl. Qed.

Lemma startswith_inv (p s : pystr) :
  Py.startswith p s = true → ∃ r, s = p ++ r.
Proof.
  revert s. induction p as [|c p IH]; intros s; [by exists s|].
  destruct s as [|d s]; simpl; [done|].
  intros [Hc Hp]%andb_prop. apply eqc_eq in Hc as ->.
  destruct (IH s Hp) as [r ->]. by exists r.
Qed.

Lemma lit_match (l : pystr) (P : list item) (s : pystr) :
  match_here (Lit l :: P) (l ++ s) = match_here P s.
Proof. simpl. by rewrite startswith_app, drop_app_length. Qed.

Lemma rep_match (c : ascii) (n : nat) (P : list item) (s : pystr) :
  match_here (Rep c n :: P) (replicate n c ++ s) = match_here P s.
Proof.
  simpl. rewrite startswith_app.
  pose proof (drop_app_length (replicate n c) s) as Hd.
  rewrite length_replicate in Hd. by rewrite Hd.
Qed.

(** *** The two quantifiers on one line of the header *)

Lemma dot_true (c : ascii) : c ≠ newline → dot c = true.
Proof.
  intros Hc. unfold dot. apply negb_true_iff.
  destruct (Py.eqc c newline) eqn:He; [|done]. by apply eqc_eq in He.
Qed.

(** A lazy group before a continuation that needs a newline first: the
    group runs to the end of the line. *)
Lemma lazy_plus_line {A} (K : pystr → pystr → option A)
    (acc y z : pystr) :
  (∀ g c s, c ≠ newline → K g (c :: s) = None) →
  no_newline y →
  lazy_plus dot K acc (y ++ newline :: z)
  = match y with
    | [] => None
    | _ => K (rev acc ++ y) (newline :: z)
    end.
Proof.
  intros HK Hy. revert acc. induction Hy as [|c y Hc Hy IH]; intros acc.
  { done. }
  simpl. rewrite dot_true by done.
  destruct y as [|d y].
  - simpl. by destruct (K _ _).
  - inversion Hy as [|? ? Hd _]; subst.
    change ((d :: y) ++ newline :: z) with (d :: (y ++ newline :: z)) at 1.
    rewrite (HK _ d) by done.
    rewrite IH. simpl. by rewrite <- app_assoc.
Qed.

Lemma length_lstrip (s : pystr) : (length (Py.lstrip s) ≤ length s)%nat.
Proof.
  induction s as [|c s IH]; simpl; [done|].
  destruct (Py.isspace c); simpl; lia.
Qed.

Lemma length_strip (s : pystr) : (length (Py.strip s) ≤ length s)%nat.
Proof.
  unfold Py.strip, Py.rstrip. rewrite length_rev.
  etransitivity; [apply length_lstrip|]. rewrite length_rev.
  apply length_lstrip.
Qed.

Lemma strip_fixed_head (c : ascii) (x : pystr) :
  Py.strip (c :: x) = c :: x → Py.isspace c = false.
Proof.
  intros Hs. destruct (Py.isspace c) eqn:Hc; [|done].
  assert (length (Py.strip (c :: x)) ≤ length x)%nat as Hl.
  { unfold Py.strip, Py.rstrip. simpl Py.lstrip at 2. rewrite Hc.
    rewrite length_rev. etransitivity; [apply length_lstrip|].
    rewrite length_rev. apply length_lstrip. }
  rewrite Hs in Hl. simpl in Hl. lia.
Qed.

Lemma lit_needs_newline (key : pystr) (P : list item) (g : pystr)
    (c : ascii) (s : pystr) :
  c ≠ newline → grouped (Lit (newline :: key) :: P) g (c :: s) = None.
Proof.
  intros Hc. cbn [match_here Py.startswith].
  destruct (Py.eqc newline c) eqn:He; [|done].
  apply eqc_eq in He. by subst.
Qed.

(** A field that starts with a character other than white space. *)
Lemma segment_nonempty (key : pystr) (P : list item) (c : ascii)
    (x rest : pystr) (gs : list pystr) (tl : pystr) :
  Py.isspace c = false → no_newline (c :: x) →
  match_here (Lit (newline :: key) :: P) (newline :: rest) = Some (gs, tl) →
  match_here (SpaceStar :: Group :: Lit (newline :: key) :: P)
             (" "%char :: (c :: x) ++ newline :: rest)
  = Some ((c :: x) :: gs, tl).
Proof.
  intros Hc Hx HK.
  change (match_here (SpaceStar :: Group :: Lit (newline :: key) :: P))
    with (greedy_star Py.isspace
            (lazy_plus dot (grouped (Lit (newline :: key) :: P)) [])).
  cbn [greedy_star app].
  change (Py.isspace " ") with true. cbn iota. rewrite Hc.
  change (c :: x ++ newline :: rest) with ((c :: x) ++ newline :: rest).
  rewrite lazy_plus_line; [|apply lit_needs_newline|done].
  cbn [rev app]. by rewrite HK.
Qed.

(** An empty field: the white space runs into the next line, where no
    match is found, and the group falls back on the blank. *)
Lemma segment_empty (key : pystr) (P : list item) (d : ascii)
    (y z : pystr) (gs : list pystr) (tl : pystr) :
  Py.isspace d = false → no_newline (d :: y) →
  match_here (Lit (newline :: key) :: P) (newline :: z) = None →
  match_here (Lit (newline :: key) :: P)
             (newline :: (d :: y) ++ newline :: z) = Some (gs, tl) →
  match_here (SpaceStar :: Group :: Lit (newline :: key) :: P)
             (" "%char :: newline :: (d :: y) ++ newline :: z)
  = Some ([" "%char] :: gs, tl).
Proof.
  intros Hd Hy Hz HK.
  change (match_here (SpaceStar :: Group :: Lit (newline :: key) :: P))
    with (greedy_star Py.isspace
            (lazy_plus dot (grouped (Lit (newline :: key) :: P)) [])).
  cbn [greedy_star app].
  change (Py.isspace " ") with true. change (Py.isspace newline) with true.
  cbn iota. rewrite Hd.
  change (d :: y ++ newline :: z) with ((d :: y) ++ newline :: z).
  rewrite lazy_plus_line; [|apply lit_needs_newline|done].
  cbn [rev app]. rewrite Hz.
  cbn [lazy_plus]. change (dot newline) with false. cbn iota.
  change (dot " ") with true. cbn iota. cbn [rev app].
  change (d :: y ++ newline :: z) with ((d :: y) ++ newline :: z).
  by rewrite HK.
Qed.

Lemma strip_blank : Py.strip [" "%char] = [].
Proof. reflexivity. Qed.

(** A field of the header, empty or not. *)
Lemma segment (key : pystr) (P : list item) (x : pystr) (d : ascii)
    (y z : pystr) (gs : list pystr) (tl : pystr) :
  field_ok x →
  Py.isspace d = false → no_newline (d :: y) →
  match_here (Lit (newline :: key) :: P) (newline :: z) = None →
  match_here (Lit (newline :: key) :: P)
             (newline :: (d :: y) ++ newline :: z) = Some (gs, tl) →
  ∃ g, match_here (SpaceStar :: Group :: Lit (newline :: key) :: P)
         (" "%char :: x ++ newline :: (d :: y) ++ newline :: z)
       = Some (g :: gs, tl)
       ∧ Py.strip g = x.
Proof.
  intros [Hn Hs] Hd Hy Hz HK. destruct x as [|c x].
  - exists [" "%char]. split; [|done]. by apply segment_empty.
  - exists (c :: x). split; [|done].
    apply segment_nonempty; [by eapply strip_fixed_head|done..].
Qed.

Lemma no_newline_app (a b : pystr) :
  no_newline a → no_newline b → no_newline (a ++ b).
Proof. apply Forall_app_2. Qed.

Lemma no_newline_str_cons (c : ascii) (s : pystr) :
  c ≠ newline → no_newline s → no_newline (c :: s).
Proof. by constructor. Qed.

Lemma rule_no_lit (key : pystr) (c : ascii) (P : list item) (tl : pystr) :
  c ≠ "="%char →
  match_here (Lit (newline :: c :: key) :: P)
             (newline :: Extractor.RULE ++ tl) = None.
Proof.
  intros Hc. cbn [match_here Py.startswith].
  rewrite eqc_refl. unfold Extractor.RULE.
  cbn [replicate app Py.startswith andb].
  destruct (Py.eqc c "=") eqn:He; [|done]. by apply eqc_eq in He.
Qed.

Lemma header_app (l u t sz tail : pystr) :
  header l u t sz ++ tail
  = Extractor.RULE ++ (newline :: str "PAGE:") ++ " "%char :: l
    ++ newline :: str "URL:" ++ " "%char :: u
    ++ newline :: str "TIMESTAMP:" ++ " "%char :: t
    ++ newline :: str "SIZE:" ++ " "%char :: sz
    ++ newline :: Extractor.RULE ++ tail.
Proof.
  unfold header. generalize Extractor.RULE. intros R.
  repeat (rewrite <- app_assoc; simpl). reflexivity.
Qed.

Lemma header_match (l u t : pystr) (c : ascii) (sz tail : pystr) :
  field_ok l → field_ok u → field_ok t →
  Py.isspace c = false → no_newline (c :: sz) →
  ∃ g1 g2 g3,
    match_here PAGE_HEADER (header l u t (c :: sz) ++ tail)
    = Some ([g1; g2; g3; c :: sz], tail)
    ∧ Py.strip g1 = l ∧ Py.strip g2 = u ∧ Py.strip g3 = t.
Proof.
  intros Hl Hu Ht Hc Hsz.
  (* the end of the header *)
  assert (match_here [Lit [newline]; Rep "="%char 80]
            (newline :: Extractor.RULE ++ tail) = Some ([], tail)) as E.
  { change (newline :: Extractor.RULE ++ tail)
      with ([newline] ++ Extractor.RULE ++ tail).
    rewrite lit_match. unfold Extractor.RULE. by rewrite rep_match. }
  (* the size *)
  pose proof (segment_nonempty [] [Rep "="%char 80] c sz
                (Extractor.RULE ++ tail) [] tail Hc Hsz E) as S4.
  assert (no_newline (str "SIZE:" ++ " "%char :: c :: sz)) as N4.
  { apply no_newline_app; [by repeat constructor|].
    by apply no_newline_str_cons. }
  (* the timestamp *)
  destruct (segment (str "SIZE:")
              [SpaceStar; Group; Lit [newline]; Rep "="%char 80]
              t "S"%char (str "IZE:" ++ " "%char :: c :: sz)
              (Extractor.RULE ++ tail) [c :: sz] tail Ht eq_refl N4)
    as (g3 & S3 & G3).
  { by apply rule_no_lit. }
  { change (newline :: ("S"%char :: str "IZE:" ++ " "%char :: c :: sz)
              ++ newline :: Extractor.RULE ++ tail)
      with ((newline :: str "SIZE:")
              ++ " "%char :: (c :: sz) ++ newline :: Extractor.RULE ++ tail).
    by rewrite lit_match. }
  assert (no_newline (str "TIMESTAMP:" ++ " "%char :: t)) as N3.
  { apply no_newline_app; [by repeat constructor|].
    apply no_newline_str_cons; [done|apply Ht]. }
  set (z3 := str "SIZE:" ++ " "%char :: (c :: sz)
             ++ newline :: Extractor.RULE ++ tail) in *.
  (* the URL *)
  destruct (segment (str "TIMESTAMP:")
              [SpaceStar; Group; Lit (newline :: str "SIZE:");
               SpaceStar; Group; Lit [newline]; Rep "="%char 80]
              u "T"%char (str "IMESTAMP:" ++ " "%char :: t)
              z3 [g3; c :: sz] tail Hu eq_refl N3)
    as (g2 & S2 & G2).
  { done. }
  { change (newline :: ("T"%char :: str "IMESTAMP:" ++ " "%char :: t)
              ++ newline :: z3)
      with ((newline :: str "TIMESTAMP:")
              ++ " "%char :: t ++ newline :: z3).
    rewrite lit_match. exact S3. }
  assert (no_newline (str "URL:" ++ " "%char :: u)) as N2.
  { apply no_newline_app; [by repeat constructor|].
    apply no_newline_str_cons; [done|apply Hu]. }
  set (z2 := str "TIMESTAMP:" ++ " "%char :: t ++ newline :: z3) in *.
  (* the label *)
  destruct (segment (str "URL:")
              [SpaceStar; Group; Lit (newline :: str "TIMESTAMP:");
               SpaceStar; Group; Lit (newline :: str "SIZE:");
               SpaceStar; Group; Lit [newline]; Rep "="%char 80]
              l "U"%char (str "RL:" ++ " "%char :: u)
              z2 [g2; g3; c :: sz] tail Hl eq_refl N2)
    as (g1 & S1 & G1).
  { done. }
  { change (newline :: ("U"%char :: str "RL:" ++ " "%char :: u)
              ++ newline :: z2)
      with ((newline :: str "URL:") ++ " "%char :: u ++ newline :: z2).
    rewrite lit_match. exact S2. }
  exists g1, g2, g3. split; [|done].
  rewrite header_app. fold z3. fold z2.
  unfold PAGE_HEADER, Extractor.RULE. rewrite rep_match, lit_match.
  exact S1.
Qed.

(** *** Text without a rule *)

Lemma contains_false (p s : pystr) (i : nat) :
  Py.contains p s = false → Py.startswith p (drop i s) = false.
Proof.
  revert i. induction s as [|c s IH]; intros i Hc.
  - rewrite drop_nil. simpl in Hc. by rewrite orb_false_r in Hc.
  - simpl in Hc. apply orb_false_elim in Hc as [H1 H2].
    destruct i as [|i]; [done|]. simpl. by apply IH.
Qed.

(** A text that matches a prefix free of [c] before an occurrence of [c]
    matches it without what follows. *)
Lemma startswith_cut (r x y : pystr) (c : ascii) :
  Forall (λ a, a ≠ c) r →
  Py.startswith r (x ++ c :: y) = true → Py.startswith r x = true.
Proof.
  intros Hr. revert x. induction Hr as [|a r Ha Hr IH]; intros x; [done|].
  destruct x as [|b x]; simpl.
  - intros [He _]%andb_prop. by apply eqc_eq in He.
  - intros [He Hs]%andb_prop. rewrite He. simpl. by apply IH.
Qed.

Lemma rule_no_newline : Forall (λ a, a ≠ newline) Extractor.RULE.
Proof. unfold Extractor.RULE. apply Forall_replicate. done. Qed.

Lemma contains_rule_app (x y : pystr) :
  Py.contains Extractor.RULE x = false →
  Py.contains Extractor.RULE y = false →
  Py.contains Extractor.RULE (x ++ newline :: y) = false.
Proof.
  intros Hx Hy. induction x as [|b x IH].
  - simpl app. cbn [Py.contains]. rewrite Hy, orb_false_r.
    unfold Extractor.RULE. done.
  - cbn [Py.contains] in Hx. apply orb_false_elim in Hx as [H1 H2].
    simpl app. cbn [Py.contains]. rewrite (IH H2), orb_false_r.
    destruct (Py.startswith Extractor.RULE (b :: x ++ newline :: y)) eqn:Hs;
      [|done].
    change (b :: x ++ newline :: y) with ((b :: x) ++ newline :: y) in Hs.
    apply startswith_cut in Hs; [congruence|apply rule_no_newline].
Qed.

Lemma contains_rule_nil : Py.contains Extractor.RULE [] = false.
Proof. reflexivity. Qed.

Lemma contains_rule_newline (x : pystr) :
  Py.contains Extractor.RULE x = false →
  Py.contains Extractor.RULE (newline :: x) = false.
Proof. intros. by apply (contains_rule_app []). Qed.

Lemma contains_rule_snoc (x : pystr) :
  Py.contains Extractor.RULE x = false →
  Py.contains Extractor.RULE (x ++ [newline]) = false.
Proof. intros. by apply contains_rule_app. Qed.

Lemma header_needs_rule (s : pystr) :
  Py.startswith Extractor.RULE s = false → match_here PAGE_HEADER s = None.
Proof.
  intros Hs. unfold PAGE_HEADER. cbn [match_here].
  unfold Extractor.RULE in Hs. by rewrite Hs.
Qed.

(** *** [finditer] *)

(** The search passes over the rest of a match. *)
Lemma finditer_skip (P : list item) (a s : pystr) (pos : nat) :
  finditer_from P (a ++ s) pos (length a)
  = finditer_from P s (pos + length a) 0.
Proof.
  revert pos. induction a as [|c a IH]; intros pos.
  - simpl. by rewrite Nat.add_0_r.
  - simpl. rewrite IH. f_equal. lia.
Qed.

(** The search passes over a text in which no match starts. *)
Lemma finditer_gap (P : list item) (a s : pystr) (pos : nat) :
  (∀ i, (i < length a)%nat → match_here P (drop i (a ++ s)) = None) →
  finditer_from P (a ++ s) pos 0 = finditer_from P s (pos + length a) 0.
Proof.
  revert pos. induction a as [|c a IH]; intros pos Hn.
  - simpl. by rewrite Nat.add_0_r.
  - pose proof (Hn 0%nat ltac:(simpl; lia)) as H0. cbn [drop app] in H0.
    cbn [app finditer_from]. rewrite H0.
    rewrite IH; [f_equal; simpl; lia|].
    intros i Hi. apply (Hn (S i)). simpl. lia.
Qed.

(** The search at a match. *)
Lemma finditer_hit (P : list item) (h rest : pystr) (gs : list pystr)
    (pos : nat) :
  h ≠ [] → match_here P (h ++ rest) = Some (gs, rest) →
  finditer_from P (h ++ rest) pos 0
  = mk_match pos (pos + length h) gs
    :: finditer_from P rest (pos + length h) 0.
Proof.
  intros Hh Hm. destruct h as [|c h]; [done|].
  cbn [app finditer_from]. cbn [app] in Hm. rewrite Hm.
  assert (length (c :: h ++ rest) - length rest = S (length h))%nat as ->.
  { simpl. rewrite length_app. lia. }
  f_equal. simpl. rewrite Nat.sub_0_r.
  rewrite finditer_skip. f_equal. lia.
Qed.

Lemma finditer_none (P : list item) (a : pystr) (pos : nat) :
  (∀ i, match_here P (drop i a) = None) → finditer_from P a pos 0 = [].
Proof.
  intros Hn. rewrite <- (app_nil_r a).
  rewrite finditer_gap.
  - simpl. specialize (Hn (length a)). rewrite drop_all in Hn. by rewrite Hn.
  - intros i _. by rewrite app_nil_r.
Qed.

(** *** The size line *)

Lemma solid_uint (d : Decimal.uint) :
  solid (list_ascii_of_string (NilEmpty.string_of_uint d)).
Proof. induction d; simpl; by constructor. Qed.

Lemma solid_str_of_Z (n : Z) : solid (str_of_Z n) ∧ str_of_Z n ≠ [].
Proof.
  unfold str_of_Z, str, NilZero.string_of_int.
  assert (∀ d, solid (list_ascii_of_string (NilZero.string_of_uint d))
               ∧ list_ascii_of_string (NilZero.string_of_uint d) ≠ []) as Hu.
  { intros d. split.
    - destruct d; try apply (solid_uint (_ _)). by repeat constructor.
    - by destruct d. }
  destruct (Z.to_int n) as [d|d]; destruct (Hu d) as [H1 H2].
  - done.
  - split; [by constructor|done].
Qed.

Lemma solid_group3 (l : pystr) :
  solid l → solid (Extractor.group3 l)
            ∧ (l ≠ [] → Extractor.group3 l ≠ []).
Proof.
  induction l as [l IH] using (induction_ltof1 _ length). unfold ltof in IH.
  intros Hl. destruct l as [|a [|b [|c [|d l]]]]; try done.
  change (Extractor.group3 (a :: b :: c :: d :: l))
    with (a :: b :: c :: ","%char :: Extractor.group3 (d :: l)).
  split; [|done].
  inversion Hl as [|? ? Ha Hl1]; subst.
  inversion Hl1 as [|? ? Hb Hl2]; subst.
  inversion Hl2 as [|? ? Hc Hl3]; subst.
  repeat (constructor; [done|]).
  apply (IH (d :: l)); [simpl; lia|done].
Qed.

Lemma solid_no_newline (s : pystr) : solid s → no_newline s.
Proof.
  intros Hs. eapply Forall_impl; [exact Hs|]. by intros c Hc ->.
Qed.

Lemma size_line (n : Z) :
  ∃ c sz, Extractor.format_commas n ++ str " bytes" = c :: sz
          ∧ Py.isspace c = false ∧ no_newline (c :: sz).
Proof.
  destruct (solid_str_of_Z n) as [Hs Hne].
  assert (solid (Extractor.format_commas n)
          ∧ Extractor.format_commas n ≠ []) as [Hf Hfn].
  { unfold Extractor.format_commas.
    destruct (solid_group3 (rev (str_of_Z n))) as [H1 H2].
    { by apply Forall_rev. }
    split; [by apply Forall_rev|].
    intros Hr. apply (f_equal (@rev ascii)) in Hr.
    rewrite rev_involutive in Hr. simpl in Hr. apply H2; [|done].
    intros Hr'. apply (f_equal (@rev ascii)) in Hr'.
    rewrite rev_involutive in Hr'. done. }
  destruct (Extractor.format_commas n) as [|c sz]; [done|].
  exists c, (sz ++ str " bytes"). split; [done|].
  inversion Hf as [|? ? Hc Hsz]; subst. split; [done|].
  constructor; [by intros ->|].
  apply no_newline_app; [by apply solid_no_newline|by repeat constructor].
Qed.

Lemma separator_eq (l u t h : pystr) :
  Extractor.separator l u t h
  = newline :: newline
    :: header l u t (Extractor.format_commas (Py.len h) ++ str " bytes")
    ++ [newline; newline].
Proof.
  unfold Extractor.separator, header. generalize Extractor.RULE. intros R.
  generalize (Extractor.format_commas (Py.len h)). intros f.
  repeat (rewrite <- app_assoc; simpl). reflexivity.
Qed.

(** *** Stripping *)

Lemma lstrip_blank_app (a x : pystr) :
  blank a → Py.lstrip (a ++ x) = Py.lstrip x.
Proof. induction 1 as [|c a Hc _ IH]; [done|]. simpl. by rewrite Hc. Qed.

Lemma lstrip_blank (a : pystr) : blank a → Py.lstrip a = [].
Proof.
  intros Ha. rewrite <- (app_nil_r a). by rewrite lstrip_blank_app.
Qed.

Lemma lstrip_app (x b : pystr) :
  Py.lstrip (x ++ b)
  = match Py.lstrip x with [] => Py.lstrip b | _ => Py.lstrip x ++ b end.
Proof.
  induction x as [|c x IH]; simpl; [by destruct (Py.lstrip b)|].
  by destruct (Py.isspace c).
Qed.

Lemma rstrip_app_blank (x b : pystr) :
  blank b → Py.rstrip (x ++ b) = Py.rstrip x.
Proof.
  intros Hb. unfold Py.rstrip. rewrite rev_app_distr.
  rewrite lstrip_blank_app; [done|]. by apply Forall_rev.
Qed.

Lemma strip_padded (a h b : pystr) :
  blank a → blank b → Py.strip (a ++ h ++ b) = Py.strip h.
Proof.
  intros Ha Hb. unfold Py.strip. rewrite lstrip_blank_app by done.
  rewrite lstrip_app. destruct (Py.lstrip h) as [|c x] eqn:Hl.
  - by rewrite lstrip_blank.
  - by rewrite rstrip_app_blank.
Qed.

(** *** The written file *)

Lemma blk_eq (p : page) :
  blk p = newline :: newline :: hdr p ++ newline :: newline :: html p.
Proof.
  unfold blk, Extractor.block, hdr. rewrite separator_eq.
  simpl. by rewrite <- app_assoc.
Qed.

Lemma length_blk (p : page) :
  length (blk p) = (2 + length (hdr p) + 2 + length (html p))%nat.
Proof. rewrite blk_eq. simpl. rewrite length_app. simpl. lia. Qed.

Lemma gap_no_match (a y : pystr) (i : nat) :
  Py.contains Extractor.RULE a = false → (i ≤ length a)%nat →
  match_here PAGE_HEADER (drop i (a ++ newline :: y)) = None.
Proof.
  intros Ha Hi. apply header_needs_rule.
  rewrite drop_app_le by done.
  destruct (Py.startswith Extractor.RULE (drop i a ++ newline :: y)) eqn:Hs;
    [|done].
  apply startswith_cut in Hs; [|apply rule_no_newline].
  by rewrite contains_false in Hs.
Qed.

Lemma hdr_nonempty (p : page) : hdr p ≠ [].
Proof. unfold hdr, header, Extractor.RULE. done. Qed.

Lemma finditer_file (pages : list page) (g : pystr) (pos : nat) :
  Py.contains Extractor.RULE g = false → Forall well_formed pages →
  laid_out (pos + length g)
           (finditer_from PAGE_HEADER (g ++ flat_map blk pages) pos 0) pages.
Proof.
  revert g pos. induction pages as [|p ps IH]; intros g pos Hg Hw.
  - simpl. rewrite finditer_none; [constructor|].
    intros i. rewrite app_nil_r. apply header_needs_rule.
    by apply contains_false.
  - inversion Hw as [|? ? (Hl & Hu & Ht & Hh) Hws]; subst.
    cbn [flat_map]. rewrite blk_eq.
    set (R := newline :: newline :: html p ++ flat_map blk ps).
    replace (g ++ (newline :: newline :: hdr p
                   ++ newline :: newline :: html p) ++ flat_map blk ps)
      with (((g ++ [newline]) ++ [newline]) ++ hdr p ++ R).
    2:{ subst R. repeat (rewrite <- app_assoc; simpl). reflexivity. }
    rewrite finditer_gap.
    2:{ intros i Hi. rewrite <- (app_assoc (g ++ [newline])). simpl.
        apply gap_no_match; [by apply contains_rule_snoc|].
        rewrite length_app in Hi. simpl in Hi. lia. }
    destruct (size_line (Py.len (html p))) as (c & sz & Hsz & Hc & Hn).
    destruct (header_match (label p) (url p) (timestamp p) c sz R
                Hl Hu Ht Hc Hn) as (g1 & g2 & g3 & Hm & G1 & G2 & G3).
    rewrite <- Hsz in Hm. fold (hdr p) in Hm.
    rewrite (finditer_hit _ _ _ _ _ (hdr_nonempty p) Hm).
    assert (length ((g ++ [newline]) ++ [newline]) = length g + 2)%nat as Hlen.
    { rewrite !length_app. simpl. lia. }
    rewrite Hlen. apply laid_cons; cbn [m_start m_end m_groups nth].
    + lia.
    + lia.
    + done.
    + done.
    + done.
    + subst R.
      change (newline :: newline :: html p ++ flat_map blk ps)
        with ((newline :: newline :: html p) ++ flat_map blk ps).
      specialize (IH (newline :: newline :: html p)
                     (pos + (length g + 2) + length (hdr p))%nat).
      rewrite length_blk.
      replace (pos + length g + (2 + length (hdr p) + 2 + length (html p)))%nat
        with (pos + (length g + 2) + length (hdr p)
              + length (newline :: newline :: html p))%nat
        by (simpl; lia).
      apply IH; [|done].
      by do 2 apply contains_rule_newline.
Qed.

Lemma slice_middle (a b c : pystr) :
  slice (length a) (length a + length b) (a ++ b ++ c) = b.
Proof.
  unfold slice. rewrite drop_app_length.
  replace (length a + length b - length a)%nat with (length b) by lia.
  by rewrite take_app_length.
Qed.

Lemma pages_of_laid_out (raw : pystr) (ps : list page) (ms : list rmatch)
    (front : pystr) :
  raw = front ++ flat_map blk ps → laid_out (length front) ms ps →
  pages_of raw ms = map recovered ps.
Proof.
  intros Hraw Hlo. remember (length front) as q eqn:Hq.
  revert front Hq Hraw.
  induction Hlo as [q|q m p ms ps Hs He G1 G2 G3 Hlo IH]; intros front Hq Hraw;
    [done|].
  cbn [pages_of map]. f_equal.
  - unfold recovered. rewrite G1, G2, G3. f_equal.
    cbn [flat_map] in Hraw. rewrite blk_eq in Hraw.
    set (pre := front ++ newline :: newline :: hdr p).
    assert (length pre = m_end m) as Hpre.
    { subst pre. rewrite length_app. cbn [length]. lia. }
    inversion Hlo as [q' Hq' Hms Hps|q' m' p' ms' ps' Hs' _ _ _ _ _ Hq' Hms Hps];
      subst ms ps.
    + (* the last page: up to the end of the file *)
      assert (raw = pre ++ [newline; newline] ++ html p) as Hr.
      { subst pre raw. cbn [flat_map]. rewrite app_nil_r.
        repeat (rewrite <- app_assoc; simpl). reflexivity. }
      assert (length raw = length pre + length ([newline; newline] ++ html p))%nat
        as Hl by (rewrite Hr, length_app; done).
      rewrite Hl, <- Hpre.
      rewrite Hr at 1.
      rewrite <- (app_nil_r ([newline; newline] ++ html p)) at 2.
      rewrite slice_middle.
      pose proof (strip_padded [newline; newline] (html p) []) as Hsp.
      rewrite app_nil_r in Hsp. apply Hsp; by repeat constructor.
    + (* a page before another: up to the next header *)
      assert (raw = pre ++ ([newline; newline] ++ html p ++ [newline; newline])
                    ++ hdr p' ++ newline :: newline :: html p'
                    ++ flat_map blk ps') as Hr.
      { subst pre raw. cbn [flat_map]. rewrite blk_eq.
        repeat (rewrite <- app_assoc; simpl). reflexivity. }
      assert (m_start m'
              = length pre
                + length ([newline; newline] ++ html p ++ [newline; newline]))%nat
        as ->.
      { rewrite Hs', length_blk, Hpre, He.
        rewrite !length_app. cbn [length]. lia. }
      rewrite <- Hpre. rewrite Hr at 1. rewrite slice_middle.
      by apply (strip_padded [newline; newline] (html p) [newline; newline]);
        repeat constructor.
  - apply (IH (front ++ blk p)).
    + rewrite length_app. lia.
    + rewrite Hraw. cbn [flat_map]. by rewrite <- app_assoc.
Qed.

Lemma write_pages_eq (pages : list page) (file : pystr) :
  fold_left write_page pages file = file ++ flat_map blk pages.
Proof.
  revert file. induction pages as [|p ps IH]; intros file; simpl.
  - by rewrite app_nil_r.
  - rewrite IH. unfold write_page. by rewrite <- app_assoc.
Qed.

(** C6.  Pages are appended with [save_html_to_single_file] to a file that
    holds no rule of 80 [=].  When the label, the URL and the time stamp of
    each page are single lines without white space at their ends and no
    content holds a rule of 80 [=], [split_pages] returns one entry per
    page, in order, with the written label, URL and time stamp and with the
    content stripped of the white space at its ends.  With no page written,
    and for any input without a header, [split_pages] returns the single
    entry "full_file" that holds the whole input. *)
Theorem split_pages_round_trip (file : pystr) (pages : list page) :
  Py.contains Extractor.RULE file = false →
  Forall well_formed pages →
  split_pages (fold_left write_page pages file)
  = match pages with
    | [] => [mk_page (str "full_file") [] [] file]
    | _ => map recovered pages
    end
  ∧ ∀ raw, finditer PAGE_HEADER raw = [] →
           split_pages raw = [mk_page (str "full_file") [] [] raw].
Proof.
  intros Hf Hw. split.
  - rewrite write_pages_eq. unfold split_pages, finditer.
    pose proof (finditer_file pages file 0 Hf Hw) as Hlo.
    rewrite Nat.add_0_l in Hlo.
    remember (finditer_from PAGE_HEADER (file ++ flat_map blk pages) 0 0)
      as ms eqn:Hms.
    remember (length file) as q0 eqn:Hq0.
    destruct Hlo as [q|q m p ms ps Hs He G1 G2 G3 Hlo].
    + cbn [flat_map]. by rewrite app_nil_r.
    + apply (pages_of_laid_out _ _ _ file); [done|].
      rewrite <- Hq0. by apply laid_cons.
  - intros raw Hr. unfold split_pages. by rewrite Hr.
Qed.

(** Two tidy pages written after the opening comment come back as they
    were. *)
Lemma split_pages_round_trip_witness :
  split_pages (fold_left write_page Examples.tidy Examples.started)
  = Examples.tidy.
Proof.
  assert (Py.contains Extractor.RULE Examples.started = false) as Hf
    by (vm_compute; reflexivity).
  assert (Forall well_formed Examples.tidy) as Hw.
  { repeat apply Forall_cons_2; [| |apply Forall_nil_2];
      (split; [|split; [|split]]);
      try (split; [unfold no_newline; refine (bool_decide_unpack _ _)|]);
      vm_compute; done. }
  destruct (split_pages_round_trip Examples.started Examples.tidy Hf Hw)
    as [Hs _].
  rewrite Hs. vm_compute. reflexivity.
Defined.

(** A content with a blank in front and a newline at its end comes back
    without them, and a content that quotes a header comes back as two
    entries. *)
Lemma padded_or_quoting_content_is_not_recovered :
  well_formed Examples.padded
  ∧ map html (split_pages (write_page Examples.started Examples.padded))
    = [str "<html></html>"]
  ∧ map html (split_pages (write_page Examples.started Examples.padded))
    ≠ [html Examples.padded]
  ∧ map label (split_pages (write_page Examples.started Examples.quoting))
    = [str "product_page"; str "inner"].
Proof.
  split.
  { (split; [|split; [|split]]);
      try (split; [unfold no_newline; refine (bool_decide_unpack _ _)|]);
      vm_compute; done. }
  assert (map html (split_pages (write_page Examples.started Examples.padded))
          = [str "<html></html>"]) as -> by (vm_compute; reflexivity).
  split; [done|]. split; [vm_compute; discriminate|].
  vm_compute. reflexivity.
Qed.

End LoaderFacts.

(** ** A run on a simulated site *)

Module SimFacts.
Import Sim.
Import SimSpec.

Lemma same_page_refl s : same_page s s.
Proof. done. Qed.

Lemma same_page_trans s1 s2 s3 :
  same_page s1 s2 → same_page s2 s3 → same_page s1 s3.
Proof. unfold same_page. intros (?&?&?&?) (?&?&?&?). repeat split; congruence. Qed.

Lemma bind_success {S A B} (m : M S A) (k : A → M S B) (s s' : S) (a : A) :
  m s = (Success a, s') → (m ≫= k) s = k a s'.
Proof. intros Hm. unfold mbind, M_bind, bind. by rewrite Hm. Qed.

Lemma randint_sim (a b : Z) (s : state) :
  randint a b s
  = (Success (a + Z.of_nat (draws s (drawn s)) `mod` (b - a + 1)),
     next_draw s).
Proof. reflexivity. Qed.

Lemma uniform_sim (a b : Q) (s : state) :
  uniform a b s
  = (Success (a + (b - a) * randoms s (drawn s))%Q, next_draw s).
Proof. reflexivity. Qed.

Lemma random_wait_sim (a b : Q) (s : state) :
  ∃ s', Actions.random_wait a b s = (Success tt, s') ∧ same_page s s'.
Proof. by eexists. Qed.

Lemma look_for_sim (target : option pystr) (stop : bool) (s : state) :
  ∃ r, Actions.look_for target stop s = (Success r, s)
       ∧ found_on (page s) target r.
Proof.
  unfold Actions.look_for. destruct target as [xpath|]; [|by exists None; split; [|left]].
  destruct (Py.truthy xpath && stop); [|by exists None; split; [|left]].
  unfold try_except_no_such_element, mbind, M_bind, bind, read.
  cbn [find_element env].
  destruct (lookup XPATH xpath (page s)) as [el|] eqn:Hl; cbn [outcome].
  - unfold Actions.is_element_in_viewport. cbn [script_in_viewport env outcome].
    destruct (_ && _); eexists; (split; [reflexivity|]).
    + right. exists xpath. by rewrite Hl.
    + by left.
  - exists None. split; [done|by left].
Qed.

Lemma scroll_loop_sim (target : option pystr) (stop : bool) (ticks : nat) :
  ∀ (pos : Z) (s : state),
    0 ≤ pos → 0 ≤ viewport s →
    p_height (page s) - viewport s - pos ≤ 220 * Z.of_nat ticks →
    ∃ r s', Actions.scroll_loop ticks target stop (viewport s) pos
              (p_height (page s)) s = (Success r, s')
            ∧ same_page s s' ∧ found_on (page s) target r.
Proof.
  induction ticks as [|k IH]; intros pos s Hpos Hv Hm.
  - exists None, s. cbn [Actions.scroll_loop].
    destruct (Z.ltb_spec pos (p_height (page s) - viewport s)); [lia|].
    split; [done|]. split; [done|by left].
  - cbn [Actions.scroll_loop].
    destruct (Z.ltb_spec pos (p_height (page s) - viewport s)) as [Hlt|Hge];
      [|exists None, s; split; [done|]; split; [done|by left]].
    rewrite (bind_success _ _ _ _ _ (randint_sim _ _ s)).
    set (amount := fst Settings.SCROLL_STEP + _).
    assert (300 ≤ amount ≤ 500) as Ha.
    { subst amount. cbn [fst snd Settings.SCROLL_STEP].
      pose proof (Z.mod_pos_bound (Z.of_nat (draws s (drawn s))) (500 - 300 + 1)).
      lia. }
    unfold mbind at 1, M_bind at 1, bind at 1, call at 1.
    cbn [script_scroll_to env outcome].
    set (s2 := set_scroll _ (next_draw s)).
    rewrite (bind_success _ _ _ _ _ (uniform_sim _ _ s2)).
    unfold mbind at 1, M_bind at 1, bind at 1, time_sleep at 1, modify at 1.
    set (s4 := sleep _ (next_draw s2)).
    assert (same_page s s4) as H4 by done.
    destruct (Z.eqb_spec (p_height (page s)) 0) as [H0|_]; [lia|].
    unfold mbind at 1, M_bind at 1, bind at 1, mret at 1, M_ret at 1, ret at 1.
    destruct (look_for_sim target stop s4) as (r & Hr & Hf).
    rewrite (bind_success _ _ _ _ _ Hr).
    destruct r as [el|].
    { exists (Some el), s4. split; [done|]. split; [done|].
      destruct H4 as [<- _]. done. }
    unfold mbind at 1, M_bind at 1, bind at 1, step at 1.
    cbn [random env].
    set (s5 := next_draw s4).
    assert (same_page s s5) as H5 by done.
    assert (∃ pos' s6,
              (if ThrottleManager.Qltb (randoms s4 (drawn s4)) 0.1
               then back ← randint 30 80;
                    call (script_scroll_to (Z.max 0 (pos + amount - back)));;
                    time_sleep 0.3;; mret (Z.max 0 (pos + amount - back))
               else mret (pos + amount)) s5 = (Success pos', s6)
              ∧ same_page s s6 ∧ pos + 220 ≤ pos')
      as (pos' & s6 & H6 & Hs6 & Hp').
    { destruct (ThrottleManager.Qltb _ _).
      - rewrite (bind_success _ _ _ _ _ (randint_sim _ _ s5)).
        set (back := 30 + _).
        assert (30 ≤ back ≤ 80) as Hb.
        { subst back.
          pose proof (Z.mod_pos_bound (Z.of_nat (draws s5 (drawn s5)))
                        (80 - 30 + 1)). lia. }
        eexists _, _. split; [reflexivity|]. split; [done|]. lia.
      - exists (pos + amount), s5. split; [done|]. split; [done|]. lia. }
    rewrite (bind_success _ _ _ _ _ H6).
    unfold mbind at 1, M_bind at 1, bind at 1, read at 1.
    cbn [script_scroll_height env outcome].
    destruct Hs6 as (Hpg & Hsv & Hvp & Hst).
    destruct (IH pos' s6) as (r & s7 & Hl & Hs7 & Hf7); [lia|lia| |].
    { rewrite Hpg, Hvp. lia. }
    rewrite Hpg, Hvp in Hl. rewrite Hpg. rewrite Hl.
    exists r, s7. split; [done|]. split.
    + eapply same_page_trans; [|done]. done.
    + by rewrite <- Hpg.
Qed.

Lemma human_scroll_sim (ticks : nat) (target : option pystr) (stop : bool)
    (s : state) :
  0 ≤ viewport s → p_height (page s) ≤ 220 * Z.of_nat ticks →
  ∃ r s', Actions.human_scroll ticks target stop s = (Success r, s')
          ∧ same_page s s' ∧ found_on (page s) target r.
Proof.
  intros Hv Hh. unfold Actions.human_scroll, mbind, M_bind, bind, read.
  cbn [script_scroll_height script_inner_height env outcome].
  apply scroll_loop_sim; lia.
Qed.

(** *** Selectors *)

Lemma lookup_next_xpath (p : spage) :
  lookup XPATH Settings.NEXT_PAGE_XPATH p = p_next p.
Proof. by vm_compute. Qed.

Lemma lookup_see_more_xpath (p : spage) :
  lookup XPATH Settings.SEE_MORE_REVIEWS_XPATH p = p_see_all p.
Proof. by vm_compute. Qed.

Lemma lookup_see_more_css (p : spage) :
  lookup CSS_SELECTOR Settings.SEE_MORE_REVIEWS_CSS p = p_see_all p.
Proof. by vm_compute. Qed.

Lemma lookup_fallbacks (p : spage) :
  Forall (λ ks, lookup (fst ks) (snd ks) p = p_next p)
         Settings.NEXT_PAGE_FALLBACKS.
Proof. unfold Settings.NEXT_PAGE_FALLBACKS. repeat constructor. Qed.

Lemma find_next_page_button_none (l : list (By * pystr)) (s : state) :
  Forall (λ ks, lookup (fst ks) (snd ks) (page s) = p_next (page s)) l →
  p_next (page s) = None →
  Worker.find_next_page_button l s = Ok None.
Proof.
  intros Hl Hn. induction Hl as [|[kind sel] l Hk _ IH]; [done|].
  cbn [Worker.find_next_page_button find_element env].
  cbn [fst snd] in Hk. by rewrite Hk, Hn.
Qed.

Lemma find_next_page_button_shown (s : state) (n : element) :
  p_next (page s) = Some n → el_shown n = true →
  Worker.find_next_page_button Settings.NEXT_PAGE_FALLBACKS s = Ok (Some n).
Proof.
  intros Hn Hs. unfold Settings.NEXT_PAGE_FALLBACKS.
  cbn [Worker.find_next_page_button find_element env].
  pose proof (lookup_fallbacks (page s)) as Hl.
  apply Forall_cons_1 in Hl as [Hk _]. cbn [fst snd] in Hk.
  rewrite Hk, Hn. cbn [is_displayed env]. by rewrite Hs.
Qed.

Lemma click_next_page_sim (n : element) (s : state) :
  ∃ s', Worker.click_next_page n s = (Success (Some (p_url (page s))), s')
        ∧ page s' = match el_target n with
                    | Some u => serve s u
                    | None => page s
                    end
        ∧ serve s' = serve s ∧ viewport s' = viewport s
        ∧ stamp s' = stamp s.
Proof.
  eexists. split; [reflexivity|]. cbn [follow].
  unfold follow. by destruct (el_target n).
Qed.

(** *** Rounds of the pagination loop *)

Lemma saved_labels_app tr1 tr2 :
  saved_labels (tr1 ++ tr2) = saved_labels tr1 ++ saved_labels tr2.
Proof. apply flat_map_app. Qed.

Lemma save_page_sim (l : pystr) (st : wstate) :
  ∃ st', Worker.save_page l st = (Success tt, st')
         ∧ advanced l (page (Worker.world st)) st st'.
Proof.
  eexists. split; [reflexivity|].
  unfold advanced. cbn [Worker.world Worker.output_file Worker.total_pages
                        Worker.trace].
  repeat split. rewrite saved_labels_app. done.
Qed.

Lemma next_button_sim (ticks : nat) (st : wstate) (n : element) :
  0 ≤ viewport (Worker.world st) →
  p_height (page (Worker.world st)) ≤ 220 * Z.of_nat ticks →
  p_next (page (Worker.world st)) = Some n → el_shown n = true →
  ∃ s1,
    same_page (Worker.world st) s1
    ∧ ∀ B (K : option element → M wstate B),
        (next_el ← Worker.on_world
                     (Actions.human_scroll ticks
                        (Some Settings.NEXT_PAGE_XPATH) true);
         next_el ← match next_el with
                   | Some el => mret (Some el)
                   | None => Worker.on_world
                               (read (Worker.find_next_page_button
                                        Settings.NEXT_PAGE_FALLBACKS))
                   end;
         K next_el) st
        = K (Some n)
            (Worker.mk s1 (Worker.output_file st) (Worker.total_pages st)
                       (Worker.total_bytes st) (Worker.trace st)).
Proof.
  intros Hv Hh Hn Hs.
  destruct (human_scroll_sim ticks (Some Settings.NEXT_PAGE_XPATH) true
              (Worker.world st) Hv Hh) as (r & s1 & Hr & Hsp & Hf).
  exists s1. split; [done|]. intros B K.
  unfold mbind, M_bind, bind, Worker.on_world at 1. rewrite Hr.
  destruct Hf as [->|(xp & [= <-] & ->)].
  - unfold Worker.on_world, read. cbn [Worker.world].
    rewrite (find_next_page_button_shown s1 n); [done| |done].
    destruct Hsp as [-> _]. done.
  - by rewrite lookup_next_xpath, Hn.
Qed.

Lemma round_advance (ticks : nat) (p : Z) (st : wstate) (n : element)
    (u : pystr) :
  0 ≤ viewport (Worker.world st) →
  p_height (page (Worker.world st)) ≤ 220 * Z.of_nat ticks →
  p_next (page (Worker.world st)) = Some n → el_shown n = true →
  el_target n = Some u →
  p_url (serve (Worker.world st) u) ≠ p_url (page (Worker.world st)) →
  Worker.is_blocked_or_redirected (Sim.still (page (Worker.world st)))
  = Ok false →
  Worker.looks_like_last_page (Sim.still (serve (Worker.world st) u))
  = Ok false →
  ∃ st', Worker.pagination_round ticks p st = (Success (Some (p + 1)), st')
         ∧ advanced (str "reviews_page_" ++ str_of_Z (p + 1))
                    (serve (Worker.world st) u) st st'.
Proof.
  intros Hv Hh Hn Hs Ht Hu Hb Hl.
  unfold Worker.pagination_round.
  unfold mbind at 1, M_bind at 1, bind at 1, Worker.log at 1, modify at 1.
  set (st0 := Worker.mk _ _ _ _ _).
  destruct (next_button_sim ticks st0 n Hv Hh Hn Hs) as (s1 & Hsp & H1).
  destruct Hsp as (Hpg & Hsv & Hvp & Hst). cbn [Worker.world st0] in *.
  rewrite H1. clear H1.
  set (st1 := Worker.mk s1 _ _ _ _).
  unfold mbind at 1, M_bind at 1, bind at 1, Worker.on_world at 1, read at 1.
  cbn [Worker.world st1].
  change (Worker.is_blocked_or_redirected s1)
    with (Worker.is_blocked_or_redirected (Sim.still (page s1))).
  rewrite Hpg, Hb. cbn [outcome].
  destruct (click_next_page_sim n s1) as (s2 & H2 & Hp2 & Hs2 & Hv2 & Ht2).
  unfold mbind at 1, M_bind at 1, bind at 1, Worker.on_world at 1.
  cbn [Worker.world]. rewrite H2.
  destruct (random_wait_sim (fst Settings.AFTER_CLICK_WAIT)
              (snd Settings.AFTER_CLICK_WAIT) s2)
    as (s3 & H3 & Hp3 & Hs3 & Hv3 & Ht3).
  unfold mbind at 1, M_bind at 1, bind at 1, Worker.on_world at 1.
  cbn [Worker.world]. rewrite H3.
  unfold mbind at 1, M_bind at 1, bind at 1, Worker.on_world at 1, read at 1.
  cbn [Worker.world current_url env outcome].
  rewrite Ht, Hsv in Hp2. rewrite Hp3, Hp2, Hpg.
  rewrite bool_decide_eq_false_2 by done.
  unfold mbind at 1, M_bind at 1, bind at 1, mret at 1, M_ret at 1, ret at 1.
  unfold mbind at 1, M_bind at 1, bind at 1, Worker.on_world at 1, read at 1.
  cbn [Worker.world current_url env outcome].
  unfold mbind at 1, M_bind at 1, bind at 1, Worker.on_world at 1, read at 1.
  cbn [Worker.world].
  change (Worker.looks_like_last_page s3)
    with (Worker.looks_like_last_page (Sim.still (page s3))).
  rewrite Hp3, Hp2, Hl. cbn [outcome].
  subst st1. cbn [Worker.world Worker.output_file Worker.total_pages
                  Worker.total_bytes Worker.trace].
  match goal with
  | |- context [(Worker.save_page ?l ≫= ?k) ?s] =>
    destruct (save_page_sim l s) as (st' & H4 & Ha)
  end.
  unfold mbind at 1, M_bind at 1, bind at 1. rewrite H4.
  exists st'. split; [done|].
  unfold advanced in *. subst st0. cbn [Worker.world Worker.output_file
    Worker.total_pages Worker.trace] in *.
  destruct Ha as (A1 & A2 & A3 & A4 & A5 & A6 & A7).
  rewrite A1, A2, A3, A4, A5, A6, A7, Hp3, Hp2, Hs3, Hs2, Hv3, Hv2, Ht3, Ht2.
  rewrite Hsv, Hvp, Hst.
  repeat split. rewrite saved_labels_app. cbn. by rewrite app_nil_r.
Qed.

Lemma round_end (ticks : nat) (p : Z) (st : wstate) :
  0 ≤ viewport (Worker.world st) →
  p_height (page (Worker.world st)) ≤ 220 * Z.of_nat ticks →
  p_next (page (Worker.world st)) = None →
  ∃ st', Worker.pagination_round ticks p st = (Success None, st')
         ∧ Worker.output_file st' = Worker.output_file st
         ∧ Worker.total_pages st' = Worker.total_pages st
         ∧ saved_labels (Worker.trace st') = saved_labels (Worker.trace st).
Proof.
  intros Hv Hh Hn. unfold Worker.pagination_round.
  unfold mbind at 1, M_bind at 1, bind at 1, Worker.log at 1, modify at 1.
  set (st0 := Worker.mk _ _ _ _ _).
  destruct (human_scroll_sim ticks (Some Settings.NEXT_PAGE_XPATH) true
              (Worker.world st0) Hv Hh) as (r & s1 & Hr & Hsp & Hf).
  unfold mbind at 1, M_bind at 1, bind at 1, Worker.on_world at 1.
  rewrite Hr.
  assert (r = None) as ->.
  { destruct Hf as [->|(xp & [= <-] & ->)]; [done|].
    rewrite lookup_next_xpath. exact Hn. }
  unfold mbind at 1, M_bind at 1, bind at 1, Worker.on_world at 1, read at 1.
  cbn [Worker.world].
  rewrite (find_next_page_button_none _ s1).
  - cbn [outcome]. eexists. split; [reflexivity|].
    subst st0. cbn [Worker.output_file Worker.total_pages Worker.trace].
    repeat split. rewrite saved_labels_app. cbn. by rewrite app_nil_r.
  - apply lookup_fallbacks.
  - destruct Hsp as [-> _]. exact Hn.
Qed.

Lemma next_of_serve (s s' : state) (R R' : spage) :
  serve s' = serve s → next_of s R R' → next_of s' R R'.
Proof.
  intros Hs (n & u & H). exists n, u. by rewrite Hs.
Qed.

Lemma pagination_advance (ticks rounds : nat) (p : Z) (st : wstate)
    (R' : spage) :
  0 ≤ viewport (Worker.world st) →
  p_height (page (Worker.world st)) ≤ 220 * Z.of_nat ticks →
  next_of (Worker.world st) (page (Worker.world st)) R' →
  ∃ st', Worker.pagination ticks (S rounds) p st
         = Worker.pagination ticks rounds (p + 1) st'
         ∧ advanced (str "reviews_page_" ++ str_of_Z (p + 1)) R' st st'.
Proof.
  intros Hv Hh (n & u & Hn & Hs & Ht & Hsv & Hu & Hb & Hl). subst R'.
  destruct (round_advance ticks p st n u Hv Hh Hn Hs Ht Hu Hb Hl)
    as (st' & Hr & Ha).
  exists st'. split; [|done].
  cbn [Worker.pagination]. unfold mbind, M_bind, bind. by rewrite Hr.
Qed.

Lemma pagination_end (ticks rounds : nat) (p : Z) (st : wstate) :
  0 ≤ viewport (Worker.world st) →
  p_height (page (Worker.world st)) ≤ 220 * Z.of_nat ticks →
  p_next (page (Worker.world st)) = None →
  ∃ st', Worker.pagination ticks (S rounds) p st = (Success tt, st')
         ∧ Worker.output_file st' = Worker.output_file st
         ∧ Worker.total_pages st' = Worker.total_pages st
         ∧ saved_labels (Worker.trace st') = saved_labels (Worker.trace st).
Proof.
  intros Hv Hh Hn.
  destruct (round_end ticks p st Hv Hh Hn) as (st' & Hr & Ha).
  exists st'. split; [|done].
  cbn [Worker.pagination]. unfold mbind, M_bind, bind. by rewrite Hr.
Qed.

(** *** The whole run *)

Lemma see_more_sim (ticks : nat) (st : wstate) (see : element) :
  0 ≤ viewport (Worker.world st) →
  p_height (page (Worker.world st)) ≤ 220 * Z.of_nat ticks →
  p_see_all (page (Worker.world st)) = Some see →
  ∃ s1,
    same_page (Worker.world st) s1
    ∧ ∀ B (K : option element → M wstate B),
        (see_more ← Worker.on_world
                      (Actions.human_scroll ticks
                         (Some Settings.SEE_MORE_REVIEWS_XPATH) true);
         see_more ←
           match see_more with
           | Some el => mret (Some el)
           | None =>
             try_except_no_such_element
               (el ← Worker.on_world
                       (read (find_element CSS_SELECTOR
                                Settings.SEE_MORE_REVIEWS_CSS));
                mret (Some el))
               (mret None)
           end;
         K see_more) st
        = K (Some see)
            (Worker.mk s1 (Worker.output_file st) (Worker.total_pages st)
                       (Worker.total_bytes st) (Worker.trace st)).
Proof.
  intros Hv Hh Hn.
  destruct (human_scroll_sim ticks (Some Settings.SEE_MORE_REVIEWS_XPATH) true
              (Worker.world st) Hv Hh) as (r & s1 & Hr & Hsp & Hf).
  exists s1. split; [done|]. intros B K.
  unfold mbind, M_bind, bind, Worker.on_world at 1. rewrite Hr.
  destruct Hf as [->|(xp & [= <-] & ->)].
  - unfold try_except_no_such_element, Worker.on_world, read.
    cbn [Worker.world find_element env].
    destruct Hsp as [Hpg _]. rewrite lookup_see_more_css, Hpg, Hn. done.
  - by rewrite lookup_see_more_xpath, Hn.
Qed.

(** C7.  On a simulated site that serves a product page linking to a first
    page of reviews, where "next" leads from reviews page 1 to 2, 2 to 3
    and 3 to 4 and is absent on page 4, and where no block, captcha or
    last-page check fires, [scrape_product_to_reviews] returns [True] and
    appends exactly the five blocks product_page, reviews_page_1, ...,
    reviews_page_4 to the output file. *)
Theorem five_pages_are_saved (ticks : nat) (product_url : pystr)
    (s : state) (P R1 R2 R3 R4 : spage) (file : pystr) (pages bytes : Z) :
  0 ≤ viewport s →
  serve s product_url = P → quiet P → reviews_of s P R1 → quiet R1 →
  next_of s R1 R2 → next_of s R2 R3 → next_of s R3 R4 →
  p_next R4 = None →
  Forall (fits ticks) [P; R1; R2; R3; R4] →
  ∃ st',
    Worker.scrape_product_to_reviews ticks product_url
      (Worker.mk s file pages bytes []) = (Success true, st')
    ∧ Worker.output_file st'
      = file
        ++ Extractor.block (str "product_page") (p_url P) (stamp s)
                           (p_source P)
        ++ Extractor.block (str "reviews_page_1") (p_url R1) (stamp s)
                           (p_source R1)
        ++ Extractor.block (str "reviews_page_2") (p_url R2) (stamp s)
                           (p_source R2)
        ++ Extractor.block (str "reviews_page_3") (p_url R3) (stamp s)
                           (p_source R3)
        ++ Extractor.block (str "reviews_page_4") (p_url R4) (stamp s)
                           (p_source R4)
    ∧ saved_labels (Worker.trace st')
      = [str "product_page"; str "reviews_page_1"; str "reviews_page_2";
         str "reviews_page_3"; str "reviews_page_4"]
    ∧ Worker.total_pages st' = pages + 5.
Proof.
  intros Hv HP HqP (see & href & Hsee & Hhref & HR1) HqR1 H12 H23 H34 Hend Hfit.
  apply Forall_cons_1 in Hfit as [FP Hfit].
  apply Forall_cons_1 in Hfit as [F1 Hfit].
  apply Forall_cons_1 in Hfit as [F2 Hfit].
  apply Forall_cons_1 in Hfit as [F3 Hfit].
  apply Forall_cons_1 in Hfit as [F4 _].
  unfold fits in *.
  unfold Worker.scrape_product_to_reviews.
  (* step 1: the product page *)
  bind_step. unfold try_except at 1. bind_step.
  unfold Worker.on_world at 1, call at 1. proj.
  cbn [get env outcome]. rewrite HP.
  unfold mret at 1, M_ret at 1, ret at 1. cbn [negb].
  destruct (random_wait_sim (fst Settings.PAGE_LOAD_WAIT)
              (snd Settings.PAGE_LOAD_WAIT) (goto P s))
    as (s1 & E1 & Hp1 & Hs1 & Hv1 & Ht1).
  cbn [page serve viewport stamp goto] in Hp1, Hs1, Hv1, Ht1.
  world_step E1.
  bind_step. unfold Worker.on_world at 1, read at 1. proj.
  change (Detection.check_for_blocks s1)
    with (Detection.check_for_blocks (Sim.still (page s1))).
  rewrite Hp1, HqP. cbn [outcome fst].
  match goal with
  | |- context [(Worker.save_page ?l ≫= ?k) ?st] =>
    destruct (save_page_sim l st) as (st2 & E2 & A2)
  end.
  bind_step. rewrite E2.
  destruct A2 as (Ap & As & Av & At & Af & An & Al).
  cbn [Worker.world Worker.output_file Worker.total_pages Worker.trace] in *.
  rewrite Hp1, Ht1 in Af. rewrite Hp1 in Ap.
  rewrite Hs1 in As. rewrite Hv1 in Av. rewrite Ht1 in At.
  (* step 2: the link to the reviews *)
  destruct (see_more_sim ticks st2 see) as (s3 & Hsp3 & E3).
  { lia. } { rewrite Ap. lia. } { by rewrite Ap. }
  rewrite E3. clear E3.
  destruct Hsp3 as (Hp3 & Hs3 & Hv3 & Ht3).
  bind_step. unfold Worker.on_world at 1, read at 1. proj.
  cbn [get_attribute_href env outcome]. rewrite Hhref.
  destruct (random_wait_sim (fst Settings.ACTION_WAIT)
              (snd Settings.ACTION_WAIT) s3)
    as (s4 & E4 & Hp4 & Hs4 & Hv4 & Ht4).
  world_step E4.
  (* step 3: the first page of reviews *)
  fold (absolute href).
  bind_step. unfold Worker.on_world at 1, call at 1. proj.
  cbn [get env outcome].
  assert (serve s4 (absolute href) = R1) as ->
    by (rewrite Hs4, Hs3, As; exact HR1).
  destruct (random_wait_sim (fst Settings.AFTER_CLICK_WAIT)
              (snd Settings.AFTER_CLICK_WAIT) (goto R1 s4))
    as (s5 & E5 & Hp5 & Hs5 & Hv5 & Ht5).
  cbn [page serve viewport stamp goto] in Hp5, Hs5, Hv5, Ht5.
  world_step E5.
  bind_step. unfold Worker.on_world at 1, read at 1. proj.
  change (Detection.check_for_blocks s5)
    with (Detection.check_for_blocks (Sim.still (page s5))).
  rewrite Hp5, HqR1. cbn [outcome fst].
  bind_step. unfold Worker.on_world at 1, read at 1. proj.
  cbn [current_url env outcome].
  (* step 4: scroll and save *)
  destruct (human_scroll_sim ticks None false s5)
    as (r6 & s6 & E6 & (Hp6 & Hs6 & Hv6 & Ht6) & _).
  { rewrite Hv5, Hv4, Hv3, Av. lia. } { rewrite Hp5. lia. }
  world_step E6.
  bind_step. unfold Worker.on_world at 1, call at 1. proj.
  cbn [script_scroll_to env outcome].
  bind_step. unfold Worker.on_world at 1, time_sleep at 1, modify at 1. proj.
  match goal with
  | |- context [(Worker.save_page ?l ≫= ?k) ?st] =>
    destruct (save_page_sim l st) as (st7 & E7 & A7)
  end.
  bind_step. rewrite E7.
  destruct A7 as (Bp & Bs & Bv & Bt & Bf & Bn & Bl).
  cbn [Worker.world Worker.output_file Worker.total_pages Worker.trace
       page serve viewport stamp set_scroll sleep env advance] in *.
  assert (serve s6 = serve s) as Ss
    by (rewrite Hs6, Hs5, Hs4, Hs3, As; done).
  assert (viewport s6 = viewport s) as Sv
    by (rewrite Hv6, Hv5, Hv4, Hv3, Av; done).
  assert (stamp s6 = stamp s) as St
    by (rewrite Ht6, Ht5, Ht4, Ht3, At; done).
  rewrite Hp6, Hp5 in Bp, Bf. rewrite Ss in Bs. rewrite Sv in Bv.
  rewrite St in Bt, Bf.
  (* the pagination loop *)
  change (Z.to_nat (Settings.MAX_REVIEW_PAGES - 1)) with (S (S (S (S 495)))).
  destruct (pagination_advance ticks (S (S (S 495))) 1 st7 R2)
    as (st8 & E8 & C8).
  { lia. } { rewrite Bp. lia. } { rewrite Bp. by apply (next_of_serve s). }
  destruct C8 as (Cp & Cs & Cv & Ct & Cf & Cn & Cl).
  rewrite Bs in Cs. rewrite Bv in Cv. rewrite Bt in Ct, Cf.
  destruct (pagination_advance ticks (S (S 495)) 2 st8 R3)
    as (st9 & E9 & C9).
  { lia. } { rewrite Cp. lia. } { rewrite Cp. by apply (next_of_serve s). }
  destruct C9 as (Dp & Ds & Dv & Dt & Df & Dn & Dl).
  rewrite Cs in Ds. rewrite Cv in Dv. rewrite Ct in Dt, Df.
  destruct (pagination_advance ticks (S 495) 3 st9 R4)
    as (st10 & E10 & C10).
  { lia. } { rewrite Dp. lia. } { rewrite Dp. by apply (next_of_serve s). }
  destruct C10 as (Fp & Fs & Fv & Ft & Ff & Fn & Fl).
  rewrite Dv in Fv. rewrite Dt in Ff.
  destruct (pagination_end ticks 495 4 st10) as (st11 & E11 & Gf & Gn & Gl).
  { lia. } { rewrite Fp. lia. } { by rewrite Fp. }
  bind_step. rewrite E8. change (1 + 1) with 2. rewrite E9.
  change (2 + 1) with 3. rewrite E10. change (3 + 1) with 4. rewrite E11.
  exists st11. split; [done|].
  rewrite Gf, Gn, Gl, Ff, Fn, Fl, Df, Dn, Dl, Cf, Cn, Cl, Bf, Bn, Bl, Af, An, Al.
  split; [by rewrite <- !app_assoc|]. split; [done|]. lia.
Qed.

(** The run on the shop of the examples. *)
Lemma five_pages_are_saved_witness :
  ∃ st',
    Worker.scrape_product_to_reviews 20 Examples.PRODUCT_URL
      (Worker.mk Examples.shop Examples.started 0 0 []) = (Success true, st')
    ∧ saved_labels (Worker.trace st')
      = [str "product_page"; str "reviews_page_1"; str "reviews_page_2";
         str "reviews_page_3"; str "reviews_page_4"]
    ∧ Worker.total_pages st' = 5.
Proof.
  assert (∀ R R' : spage,
            (∃ n u, p_next R = Some n ∧ el_shown n = true
                    ∧ el_target n = Some u ∧ Examples.site u = R'
                    ∧ bool_decide (p_url R' = p_url R) = false
                    ∧ Worker.is_blocked_or_redirected (still R) = Ok false
                    ∧ Worker.looks_like_last_page (still R') = Ok false) →
            next_of Examples.shop R R') as Hnext.
  { intros R R' (n & u & ? & ? & ? & ? & Hne & ? & ?).
    exists n, u. repeat split; try done.
    by apply bool_decide_eq_false in Hne. }
  destruct (five_pages_are_saved 20 Examples.PRODUCT_URL Examples.shop
              Examples.product Examples.reviews1 Examples.reviews2
              Examples.reviews3 Examples.reviews4 Examples.started 0 0)
    as (st' & Hrun & _ & Hlabels & Hpages).
  - vm_compute. discriminate.
  - vm_compute. reflexivity.
  - vm_compute. reflexivity.
  - eexists _, _. repeat split; vm_compute; reflexivity.
  - vm_compute. reflexivity.
  - apply Hnext. eexists _, _. repeat split; vm_compute; reflexivity.
  - apply Hnext. eexists _, _. repeat split; vm_compute; reflexivity.
  - apply Hnext. eexists _, _. repeat split; vm_compute; reflexivity.
  - reflexivity.
  - repeat apply Forall_cons_2; try apply Forall_nil_2;
      vm_compute; discriminate.
  - exists st'. repeat split; done.
Defined.

End SimFacts.

(** ** Clicks that lead nowhere *)

Module StallFacts.
Import Worker.

Section Facts.
Context {W E : Type} `{Env W E}.

Abbreviation state := (t (W:=W)).
Abbreviation stalled := (WorkerSpec.stalled (W:=W)).

Lemma total_bind {S A B} (m : M S A) (k : A → M S B) :
  total m → (∀ a, total (k a)) → total (m ≫= k).
Proof.
  intros Hm Hk s. unfold mbind, M_bind, bind. specialize (Hm s).
  destruct (m s) as [[a|e|] s1]; simpl in *; [apply Hk|done..].
Qed.

Lemma total_ret {S A} (a : A) : total (mret a : M S A).
Proof. by intros s. Qed.

Lemma total_call {S A} (op : S → result A * S) : total (call op).
Proof. intros s. unfold call. by destruct (op s) as [[|] ?]. Qed.

Lemma total_read {S A} (f : S → result A) : total (read f).
Proof. intros s. unfold read. by destruct (f s). Qed.

Lemma total_modify {S} (f : S → S) : total (modify f).
Proof. by intros s. Qed.

Lemma total_step {S A} (f : S → A * S) : total (step f).
Proof. intros s. unfold step. by destruct (f s). Qed.

Lemma total_try_except {S A} (m : M S A) (h : exn → M S A) :
  total m → (∀ e, total (h e)) → total (try_except m h).
Proof.
  intros Hm Hh s. unfold try_except. specialize (Hm s).
  destruct (m s) as [[a|e|] s1]; simpl in *; [done|apply Hh|done].
Qed.

Lemma total_random_wait (a b : Q) : total (Actions.random_wait a b).
Proof.
  unfold Actions.random_wait, uniform, time_sleep.
  apply total_bind; [apply total_step|intros; apply total_modify].
Qed.

Lemma total_click_next_page (el : E) : total (click_next_page el).
Proof.
  unfold click_next_page.
  apply total_bind.
  { apply total_try_except; [|intros; apply total_ret].
    apply total_bind; [apply total_call|intros; apply total_modify]. }
  intros _. apply total_bind; [apply total_random_wait|intros _].
  apply total_bind; [apply total_read|intros u].
  apply total_bind; [apply total_read|intros href].
  apply total_try_except.
  { apply total_bind; [apply total_call|intros; apply total_ret]. }
  intros _. apply total_try_except.
  { apply total_bind; [apply total_call|intros; apply total_ret]. }
  intros _. destruct href as [href|]; [|apply total_ret].
  destruct (Py.truthy href); [|apply total_ret].
  apply total_bind; [apply total_call|intros; apply total_ret].
Qed.

Variable ticks : nat.

Hypothesis scroll_ends :
  ∀ w, fst (Actions.human_scroll ticks (Some Settings.NEXT_PAGE_XPATH)
                                 true w) ≠ Diverge.

Hypothesis click_is_noop :
  ∀ el w u w1,
    click_next_page el w = (Success (Some u), w1) →
    current_url
      (snd (Actions.random_wait (fst Settings.AFTER_CLICK_WAIT)
              (snd Settings.AFTER_CLICK_WAIT) w1)) = Ok u
    ∧ current_url
        (sleep 3
           (snd (Actions.random_wait (fst Settings.AFTER_CLICK_WAIT)
                   (snd Settings.AFTER_CLICK_WAIT) w1))) = Ok u.

Lemma round_stalls (p : Z) (s : state) :
  stalled p s (pagination_round ticks p s).
Proof.
  unfold pagination_round, mbind, M_bind, bind, log, modify.
  unfold on_world at 1. cbn [world].
  assert (Hs := scroll_ends (world s)).
  destruct (Actions.human_scroll _ _ _ _) as [[found|e|] w1];
    [|early|done].
  clear Hs.
  match goal with
  | |- context [match found with Some el => mret (Some el) | None => ?m end ?s0] =>
    assert (∃ r, (match found with Some el => mret (Some el) | None => m end) s0
                 = (r, s0) ∧ r ≠ Diverge) as (r & -> & Hr)
  end.
  { destruct found; [by eexists|]. unfold on_world, read. cbn [world].
    destruct (find_next_page_button _ _); by eexists. }
  destruct r as [[next_el|]|e|]; [|early..|done].
  unfold on_world at 1, read at 1. cbn [world].
  destruct (is_blocked_or_redirected w1) as [[|]|e]; cbn [outcome];
    [early| |early].
  unfold on_world at 1. cbn [world].
  assert (Ht := total_click_next_page next_el w1).
  assert (Hc := click_is_noop next_el w1).
  destruct (click_next_page next_el w1) as [[[u|]|e|] w2];
    [|early..|done].
  destruct (Hc u w2 eq_refl) as [Hu1 Hu2]. clear Hc Ht.
  unfold on_world at 1. cbn [world].
  assert (Hw := total_random_wait (fst Settings.AFTER_CLICK_WAIT)
                  (snd Settings.AFTER_CLICK_WAIT) w2).
  destruct (Actions.random_wait _ _ w2) as [[[]|e|] w3];
    [|early|done].
  cbn [snd] in Hu1, Hu2.
  unfold on_world at 1, read at 1. cbn [world]. rewrite Hu1. cbn [outcome].
  rewrite bool_decide_eq_true_2 by done.
  unfold on_world at 1, time_sleep, modify. cbn [world].
  unfold on_world at 1, read at 1. cbn [world]. rewrite Hu2. cbn [outcome].
  rewrite bool_decide_eq_true_2 by done.
  unfold WorkerSpec.stalled, mret, M_ret, ret. cbn [fst snd].
  split; [done|]. split; [done|]. split; [right|done].
  cbn [trace]. by rewrite <- app_assoc.
Qed.

(** C8.  When a click on "next" never changes the current URL, the
    pagination loop ends in its first round whatever the number of rounds
    left: it never runs out of rounds, it logs at most one iteration with
    at most one confirmation wait, and it saves nothing. *)
Theorem pagination_stops_on_noop_click (rounds : nat) (p : Z) (s : state) :
  fst (pagination ticks rounds p s) ≠ Diverge
  ∧ (trace (snd (pagination ticks rounds p s)) = trace s
     ∨ trace (snd (pagination ticks rounds p s)) = trace s ++ [Iteration p]
     ∨ trace (snd (pagination ticks rounds p s))
       = trace s ++ [Iteration p; ConfirmWait])
  ∧ output_file (snd (pagination ticks rounds p s)) = output_file s.
Proof.
  destruct rounds as [|k]; [split; [done|]; split; [by left|done]|].
  cbn [pagination]. unfold mbind, M_bind, bind.
  destruct (round_stalls p s) as (Hd & Hn & Ht & Hf).
  destruct (pagination_round ticks p s) as [[[n|]|e|] s1]; cbn [fst snd] in *.
  - by destruct (Hn n).
  - split; [done|]. split; [by right|done].
  - split; [done|]. split; [by right|done].
  - done.
Qed.

End Facts.

(** The loop on a frozen page, with five rounds left. *)
Lemma pagination_stops_on_noop_click_witness :
  fst (pagination 5 499 1 (mk tt [] 2 0 [])) ≠ Diverge
  ∧ (trace (snd (pagination 5 499 1 (mk tt [] 2 0 []))) = []
     ∨ trace (snd (pagination 5 499 1 (mk tt [] 2 0 []))) = [Iteration 1]
     ∨ trace (snd (pagination 5 499 1 (mk tt [] 2 0 [])))
       = [Iteration 1; ConfirmWait])
  ∧ output_file (snd (pagination 5 499 1 (mk tt [] 2 0 []))) = [].
Proof.
  apply (pagination_stops_on_noop_click (H:=Frozen.env) 5).
  - intros []. vm_compute. discriminate.
  - intros [] [] u [] Hc. vm_compute in Hc.
    injection Hc as <-. split; vm_compute; reflexivity.
Defined.

End StallFacts.

(** ** Rounds of the pagination loop *)

Module RoundFacts.
Import Worker RoundSpec.

Section Facts.
Context {W E : Type} `{Env W E}.

Abbreviation state := (t (W:=W)).
Abbreviation unsaved := (RoundSpec.unsaved (W:=W)).
Abbreviation saves_nothing := (RoundSpec.saves_nothing (W:=W)).
Abbreviation round_outcome := (RoundSpec.round_outcome (W:=W)).

Lemma unsaved_refl (s : state) : unsaved s s.
Proof.
  split; [done|]. split; [done|]. split; [done|].
  exists []. by rewrite app_nil_r.
Qed.

Lemma unsaved_trans (s1 s2 s3 : state) :
  unsaved s1 s2 → unsaved s2 s3 → unsaved s1 s3.
Proof.
  intros (F1 & P1 & B1 & e1 & T1 & N1) (F2 & P2 & B2 & e2 & T2 & N2).
  split; [congruence|]. split; [congruence|]. split; [congruence|].
  exists (e1 ++ e2). rewrite T2, T1, app_assoc. split; [done|].
  by apply Forall_app.
Qed.

Lemma saves_nothing_ret {A} (a : A) : saves_nothing (mret a).
Proof. intros s. apply unsaved_refl. Qed.

Lemma saves_nothing_bind {A B} (m : M state A) (k : A → M state B) :
  saves_nothing m → (∀ a, saves_nothing (k a)) → saves_nothing (m ≫= k).
Proof.
  intros Hm Hk s. unfold mbind, M_bind, bind.
  specialize (Hm s). destruct (m s) as [[a|e|] s1]; simpl in *; [|done..].
  eapply unsaved_trans; [done|apply Hk].
Qed.

Lemma saves_nothing_on_world {A} (m : M W A) : saves_nothing (on_world m).
Proof.
  intros s. unfold on_world. destruct (m (world s)). simpl.
  split; [done|]. split; [done|]. split; [done|].
  exists []. by rewrite app_nil_r.
Qed.

Lemma saves_nothing_log (e : event (W:=W)) :
  (∀ l w, e ≠ Saved l w) → saves_nothing (log e).
Proof.
  intros He s. simpl. split; [done|]. split; [done|]. split; [done|].
  exists [e]. split; [done|]. by constructor.
Qed.

(** A computation that saves nothing, before the rest of a round. *)
Lemma round_outcome_bind {A} (p : Z) (m : M state A)
    (k : A → M state (option Z)) :
  saves_nothing m → (∀ a s, round_outcome p s (k a s)) →
  ∀ s, round_outcome p s ((m ≫= k) s).
Proof.
  intros Hm Hk s. unfold mbind, M_bind, bind.
  specialize (Hm s). destruct (m s) as [[a|e|] s1]; simpl in *; [|done..].
  specialize (Hk a s1). unfold RoundSpec.round_outcome in *.
  destruct (k a s1) as [[[n|]|e|] s2]; simpl in *;
    try (by eapply unsaved_trans).
  destruct Hk as (-> & s0 & H0 & Hl & Hs). split; [done|].
  exists s0. split; [by eapply unsaved_trans|done].
Qed.

Lemma round_outcome_none (p : Z) (s : state) :
  round_outcome p s ((mret None : M state (option Z)) s).
Proof. apply unsaved_refl. Qed.

(** The end of a round: the last-page check and the save. *)
Lemma round_tail_outcome (p : Z) (s : state) :
  round_outcome p s
    ((last ← on_world (read looks_like_last_page);
      if last : bool then mret None
      else save_page (str "reviews_page_" ++ str_of_Z (p + 1));;
           mret (Some (p + 1))) s).
Proof.
  unfold mbind, M_bind, bind, on_world, read.
  destruct (looks_like_last_page (world s)) as [[|]|e] eqn:Hl; simpl.
  - by destruct s; apply unsaved_refl.
  - unfold save_page, Extractor.save_html_to_single_file.
    destruct s as [w f tp tb tr]. cbn [world output_file total_pages
                                        total_bytes trace] in *.
    destruct (page_source w) as [html|e] eqn:Hsrc; simpl;
      [|apply unsaved_refl].
    destruct (current_url w) as [url|e] eqn:Hurl; simpl;
      [|apply unsaved_refl].
    split; [done|]. exists (mk w f tp tb tr).
    split; [apply unsaved_refl|]. split; [done|].
    exists html, url. done.
  - by destruct s; apply unsaved_refl.
Qed.

Lemma pagination_round_outcome (ticks : nat) (p : Z) (s : state) :
  round_outcome p s (pagination_round ticks p s).
Proof.
  revert s. unfold pagination_round.
  apply round_outcome_bind; [by apply saves_nothing_log|intros _].
  apply round_outcome_bind; [apply saves_nothing_on_world|intros el].
  apply round_outcome_bind.
  { destruct el; [apply saves_nothing_ret|apply saves_nothing_on_world]. }
  intros [next_el|]; [|apply round_outcome_none].
  apply round_outcome_bind; [apply saves_nothing_on_world|intros stop].
  destruct stop; [apply round_outcome_none|].
  apply round_outcome_bind; [apply saves_nothing_on_world|intros href].
  destruct href as [href|]; [|apply round_outcome_none].
  apply round_outcome_bind; [apply saves_nothing_on_world|intros _].
  apply round_outcome_bind; [apply saves_nothing_on_world|intros url].
  apply round_outcome_bind.
  { case_bool_decide; [|apply saves_nothing_ret].
    apply saves_nothing_bind; [by apply saves_nothing_log|intros _].
    apply saves_nothing_bind; [apply saves_nothing_on_world|intros _].
    apply saves_nothing_bind; [apply saves_nothing_on_world|intros ?].
    apply saves_nothing_ret. }
  intros unchanged. destruct unchanged; [apply round_outcome_none|].
  apply round_outcome_bind; [apply saves_nothing_on_world|intros _].
  apply round_tail_outcome.
Qed.

End Facts.
End RoundFacts.

(** ** The last page *)

Module WorkerFacts.
Import Worker.

Section Facts.
Context {W E : Type} `{Env W E}.

Abbreviation state := (t (W:=W)).
Abbreviation ev := (event (W:=W)).
Abbreviation saved_block := (WorkerSpec.saved_block (W:=W)).
Abbreviation grows := (WorkerSpec.grows (W:=W)).
Abbreviation growing := (WorkerSpec.growing (W:=W)).
Abbreviation yields := (WorkerSpec.yields (W:=W)).
Abbreviation loop_event := (WorkerSpec.loop_event (W:=W)).
Abbreviation run_event := (WorkerSpec.run_event (W:=W)).

Lemma grows_refl P (s : state) : grows P s s.
Proof. exists []. by rewrite !app_nil_r. Qed.

Lemma grows_same P (s s' : state) :
  trace s' = trace s → output_file s' = output_file s → grows P s s'.
Proof. intros Ht Hf. exists []. by rewrite !app_nil_r. Qed.

Lemma grows_trans P (s1 s2 s3 : state) : grows P s1 s2 → grows P s2 s3 → grows P s1 s3.
Proof.
  intros (e1 & T1 & F1 & P1) (e2 & T2 & F2 & P2). exists (e1 ++ e2).
  rewrite T2, T1, F2, F1, flat_map_app, !app_assoc.
  split; [done|]. split; [done|]. by apply Forall_app.
Qed.

Lemma grows_weaken (P Q : ev → Prop) (s s' : state) :
  (∀ e, P e → Q e) → grows P s s' → grows Q s s'.
Proof.
  intros HPQ (evs & ? & ? & HP). exists evs. split; [done|]. split; [done|].
  eapply Forall_impl; eauto.
Qed.

Lemma growing_bind {A B} P (m : M state A) (k : A → M state B) :
  growing P m → (∀ a, growing P (k a)) → growing P (m ≫= k).
Proof.
  intros Hm Hk s. unfold mbind, M_bind, bind.
  specialize (Hm s). destruct (m s) as [[a|e|] s1]; simpl in *; [|done..].
  eapply grows_trans; [done|apply Hk].
Qed.

Lemma growing_ret {A} P (a : A) : growing P (mret a).
Proof. intros s. apply grows_refl. Qed.

Lemma growing_throw {A} P e : growing P (throw e : M state A).
Proof. intros s. apply grows_refl. Qed.

Lemma growing_on_world {A} P (m : M W A) : growing P (on_world m).
Proof.
  intros s. unfold on_world. destruct (m (world s)). by apply grows_same.
Qed.

Lemma growing_log P (e : ev) :
  P e → saved_block e = [] → growing P (log e).
Proof.
  intros HP Hb s. exists [e]. simpl. rewrite Hb.
  split; [done|]. split; [by rewrite !app_nil_r|]. by constructor.
Qed.

Lemma growing_try_except {A} P (m : M state A) (h : exn → M state A) :
  growing P m → (∀ e, growing P (h e)) → growing P (try_except m h).
Proof.
  intros Hm Hh s. unfold try_except.
  specialize (Hm s). destruct (m s) as [[a|e|] s1]; simpl in *; [done| |done].
  eapply grows_trans; [done|apply Hh].
Qed.

Lemma growing_try_no_such {A} P (m h : M state A) :
  growing P m → growing P h → growing P (try_except_no_such_element m h).
Proof.
  intros Hm Hh s. unfold try_except_no_such_element.
  specialize (Hm s). destruct (m s) as [[a|e|] s1]; simpl in *; [done| |done].
  destruct e; try done. eapply grows_trans; [done|apply Hh].
Qed.

(** A save grows the state by its own event, when the event is allowed
    in the state it is made in. *)
Lemma save_page_grows P (l : pystr) (s : state) :
  P (Saved l (world s)) → grows P s (snd (save_page l s)).
Proof.
  intros HP. unfold save_page, Extractor.save_html_to_single_file.
  destruct (page_source (world s)) as [html|e] eqn:Hsrc; simpl;
    [|apply grows_refl].
  destruct (current_url (world s)) as [url|e] eqn:Hurl; simpl;
    [|apply grows_refl].
  exists [Saved l (world s)]. simpl. rewrite Hsrc, Hurl, app_nil_r.
  split; [done|]. split; [done|]. by constructor.
Qed.

Lemma yields_bind {A B} P (Qa : A → Prop) (Qb : B → Prop)
    (m : M state A) (k : A → M state B) :
  yields P Qa m → (∀ a, Qa a → yields P Qb (k a)) → yields P Qb (m ≫= k).
Proof.
  intros Hm Hk s. unfold mbind, M_bind, bind.
  destruct (Hm s) as [Hg Hq]. destruct (m s) as [[a|e|] s1]; simpl in *;
    [|done..].
  destruct (Hk a (Hq a eq_refl) s1) as [Hg' Hq'].
  split; [by eapply grows_trans|done].
Qed.

Lemma yields_growing {A} P (m : M state A) :
  growing P m → yields P (λ _, True) m.
Proof. intros Hm s. split; [apply Hm|done]. Qed.

Lemma yields_ret {A} P (Q : A → Prop) (a : A) : Q a → yields P Q (mret a).
Proof. intros HQ s. split; [apply grows_refl|]. by intros ? [= <-]. Qed.

(** The end of a round: the last-page check and the save. *)
Lemma round_tail_yields (p p' : Z) :
  p < p' →
  yields (loop_event p) (λ r, ∀ n, r = Some n → n = p')
    (last ← on_world (read looks_like_last_page);
     if last : bool then mret None
     else save_page (str "reviews_page_" ++ str_of_Z p');;
          mret (Some p')).
Proof.
  intros Hp s. unfold mbind, M_bind, bind, on_world, read.
  destruct (looks_like_last_page (world s)) as [[|]|e] eqn:Hl; simpl;
    [split; [by apply grows_same|by intros ? [= <-]]| |by split; [apply grows_same|]].
  match goal with
  | |- context [save_page ?l ?s0] =>
    assert (Hs := save_page_grows (loop_event p) l s0);
      destruct (save_page l s0) as [[[]|e|] s1]
  end; simpl in *.
  - split.
    + eapply grows_trans; [by apply grows_same|].
      apply Hs. exists p'. done.
    + by intros ? [= <-] ? [= <-].
  - split; [|done].
    eapply grows_trans; [by apply grows_same|]. apply Hs. by exists p'.
  - split; [|done].
    eapply grows_trans; [by apply grows_same|]. apply Hs. by exists p'.
Qed.

Lemma pagination_round_yields (ticks : nat) (p : Z) :
  yields (loop_event p) (λ r, ∀ n, r = Some n → n = p + 1)
         (pagination_round ticks p).
Proof.
  unfold pagination_round.
  eapply yields_bind;
    [apply yields_growing, growing_log; done|intros _ _].
  eapply yields_bind; [apply yields_growing, growing_on_world|intros el _].
  eapply yields_bind.
  { apply yields_growing. destruct el; [apply growing_ret|apply growing_on_world]. }
  intros [next_el|] _; [|by apply yields_ret].
  eapply yields_bind; [apply yields_growing, growing_on_world|intros stop _].
  destruct stop; [by apply yields_ret|].
  eapply yields_bind; [apply yields_growing, growing_on_world|intros href _].
  destruct href as [href|]; [|by apply yields_ret].
  eapply yields_bind; [apply yields_growing, growing_on_world|intros _ _].
  eapply yields_bind; [apply yields_growing, growing_on_world|intros url _].
  eapply yields_bind.
  { apply yields_growing. case_bool_decide; [|apply growing_ret].
    apply growing_bind; [by apply growing_log|intros _].
    apply growing_bind; [apply growing_on_world|intros _].
    apply growing_bind; [apply growing_on_world|intros ?].
    apply growing_ret. }
  intros unchanged _. destruct unchanged; [by apply yields_ret|].
  eapply yields_bind; [apply yields_growing, growing_on_world|intros _ _].
  apply round_tail_yields. lia.
Qed.

Lemma pagination_grows (ticks rounds : nat) (p : Z) :
  growing (loop_event p) (pagination ticks rounds p).
Proof.
  revert p. induction rounds as [|k IH]; intros p s; [apply grows_refl|].
  simpl. unfold mbind, M_bind, bind.
  destruct (pagination_round_yields ticks p s) as [Hg Hq].
  destruct (pagination_round ticks p s) as [[[p'|]|e|] s1]; simpl in *;
    try done.
  eapply grows_trans; [done|].
  rewrite (Hq _ eq_refl p' eq_refl).
  eapply grows_weaken; [|apply IH].
  intros [l w| |]; simpl; [|done..].
  intros (n & ? & ?). exists n. split; [lia|done].
Qed.

Lemma growing_save_page P (l : pystr) :
  (∀ w, P (Saved l w)) → growing P (save_page l).
Proof. intros HP s. apply save_page_grows, HP. Qed.

Lemma scrape_grows (ticks : nat) (product_url : pystr) :
  growing run_event (scrape_product_to_reviews ticks product_url).
Proof.
  unfold scrape_product_to_reviews.
  apply growing_bind.
  { apply growing_try_except.
    - apply growing_bind; [apply growing_on_world|intros; apply growing_ret].
    - intros []; first [apply growing_ret|apply growing_throw]. }
  intros [|]; [|apply growing_ret]. cbn [negb].
  apply growing_bind; [apply growing_on_world|intros _].
  apply growing_bind; [apply growing_on_world|intros b].
  destruct (fst b); [apply growing_ret|].
  apply growing_bind; [apply growing_save_page; intros w; by left|intros _].
  apply growing_bind; [apply growing_on_world|intros see_more].
  apply growing_bind.
  { destruct see_more; [apply growing_ret|].
    apply growing_try_no_such; [|apply growing_ret].
    apply growing_bind; [apply growing_on_world|intros; apply growing_ret]. }
  intros [see_more'|]; [|apply growing_ret].
  apply growing_bind; [apply growing_on_world|intros href].
  apply growing_bind; [apply growing_on_world|intros _].
  destruct href as [href|]; [|apply growing_throw].
  apply growing_bind; [apply growing_on_world|intros _].
  apply growing_bind; [apply growing_on_world|intros _].
  apply growing_bind; [apply growing_on_world|intros b'].
  destruct (fst b'); [apply growing_ret|].
  apply growing_bind; [apply growing_on_world|intros _].
  apply growing_bind; [apply growing_on_world|intros _].
  apply growing_bind; [apply growing_on_world|intros _].
  apply growing_bind; [apply growing_on_world|intros _].
  apply growing_bind;
    [apply growing_save_page; intros w; right; by left|intros _].
  apply growing_bind; [|intros; apply growing_ret].
  intros s. eapply grows_weaken; [|apply pagination_grows].
  intros [l w| |]; simpl; [|done..].
  intros (n & ? & ? & ?). right. right. exists n. split; [lia|done].
Qed.

(** C10.  Every block that [scrape_product_to_reviews] appends to the
    output file is the product page, the first page of reviews, or a page
    reviews_page_n with n >= 2 saved in a browser state where the last-page
    check answered no: a page on which the check fires is never saved.
    A round of the pagination loop goes on to the next round only with the
    page number p + 1, after the save of that page on a page where the
    check answers no; a round that does not go on has saved nothing; so a
    round that ends on a page where the check fires does not go on and
    leaves the file and the page counter as they were.  The loop ends with
    the first round that does not go on. *)
Theorem last_page_is_not_saved (ticks : nat) (product_url : pystr)
    (s : state) :
  (∃ evs,
     trace (snd (scrape_product_to_reviews ticks product_url s))
     = trace s ++ evs
     ∧ output_file (snd (scrape_product_to_reviews ticks product_url s))
       = output_file s ++ flat_map saved_block evs
     ∧ Forall run_event evs)
  ∧ (∀ (p : Z) (s0 : state),
       let x := pagination_round ticks p s0 in
       (∀ n, fst x = Success (Some n) →
             n = p + 1
             ∧ looks_like_last_page (world (snd x)) = Ok false
             ∧ output_file (snd x)
               = output_file s0
                 ++ saved_block (Saved (str "reviews_page_" ++ str_of_Z n)
                                       (world (snd x)))
             ∧ total_pages (snd x) = total_pages s0 + 1)
       ∧ ((∀ n, fst x ≠ Success (Some n)) →
          output_file (snd x) = output_file s0
          ∧ total_pages (snd x) = total_pages s0)
       ∧ (looks_like_last_page (world (snd x)) = Ok true →
          (∀ n, fst x ≠ Success (Some n))
          ∧ output_file (snd x) = output_file s0
          ∧ total_pages (snd x) = total_pages s0))
  ∧ (∀ (rounds : nat) (p : Z) (s0 : state),
       (∀ n, fst (pagination_round ticks p s0) ≠ Success (Some n)) →
       pagination ticks (S rounds) p s0
       = (match fst (pagination_round ticks p s0) with
          | Success _ => Success tt
          | Raise e => Raise e
          | Diverge => Diverge
          end, snd (pagination_round ticks p s0))).
Proof.
  split; [apply scrape_grows|]. split.
  - intros p s0 x.
    pose proof (RoundFacts.pagination_round_outcome ticks p s0) as Hx.
    fold x in Hx. unfold RoundSpec.round_outcome in Hx.
    assert (∀ n, fst x = Success (Some n) →
                 n = p + 1
                 ∧ looks_like_last_page (world (snd x)) = Ok false
                 ∧ output_file (snd x)
                   = output_file s0
                     ++ saved_block (Saved (str "reviews_page_" ++ str_of_Z n)
                                           (world (snd x)))
                 ∧ total_pages (snd x) = total_pages s0 + 1) as Hgo.
    { intros n Hn. rewrite Hn in Hx.
      destruct Hx as (-> & s1 & (Hf & Hp & _) & Hl & html & url & Hs & Hu & ->).
      cbn [world output_file total_pages WorkerSpec.saved_block].
      rewrite Hs, Hu, Hf, Hp. done. }
    assert ((∀ n, fst x ≠ Success (Some n)) →
            output_file (snd x) = output_file s0
            ∧ total_pages (snd x) = total_pages s0) as Hstop.
    { intros Hn. destruct (fst x) as [[n|]|e|];
        [by destruct (Hn n)|by destruct Hx as (? & ? & _)..]. }
    split; [done|]. split; [done|].
    intros Hlast.
    assert (∀ n, fst x ≠ Success (Some n)) as Hn.
    { intros n Hn. destruct (Hgo n Hn) as (_ & Hl & _). congruence. }
    split; [done|]. by apply Hstop.
  - intros rounds p s0 Hn. cbn [pagination]. unfold mbind, M_bind, bind.
    destruct (pagination_round ticks p s0) as [[[n|]|e|] s1]; cbn [fst snd] in *;
      [by destruct (Hn n)|done..].
Qed.

End Facts.
End WorkerFacts.

(** ** Proxy formats *)

Module ProxyFormatFacts.
Import ProtectedScraper ProxyFormats.

(** [split(":")] gives one part more than there are colons. *)
Lemma length_split_colon (s cur : pystr) :
  length (split_colon s cur) = S (colons s).
Proof.
  revert cur. induction s as [|c s IH]; intros cur; [done|].
  unfold colons in *. cbn [split_colon filter list_filter].
  unfold Py.eqc. destruct (Ascii.eqb_spec c ":"%char) as [->|Hc].
  - rewrite decide_True by done. cbn [length]. by rewrite IH.
  - rewrite decide_False by done. apply IH.
Qed.

(** The first part of a text that goes on after a colon. *)
Lemma split_colon_part (x rest cur : pystr) :
  colon_free x →
  split_colon (x ++ ":"%char :: rest) cur
  = (rev cur ++ x) :: split_colon rest [].
Proof.
  intros Hx. revert cur. induction Hx as [|c x Hc Hx IH]; intros cur.
  - cbn. by rewrite app_nil_r.
  - cbn [app split_colon]. unfold Py.eqc.
    destruct (Ascii.eqb_spec c ":"%char) as [->|_]; [done|].
    rewrite IH. cbn [rev]. by rewrite <- app_assoc.
Qed.

(** The last part. *)
Lemma split_colon_last (x cur : pystr) :
  colon_free x → split_colon x cur = [rev cur ++ x].
Proof.
  intros Hx. revert cur. induction Hx as [|c x Hc Hx IH]; intros cur.
  - cbn. by rewrite app_nil_r.
  - cbn [split_colon]. unfold Py.eqc.
    destruct (Ascii.eqb_spec c ":"%char) as [->|_]; [done|].
    rewrite IH. cbn [rev]. by rewrite <- app_assoc.
Qed.

Lemma colons_nil_free (s : pystr) : colons s = O → colon_free s.
Proof.
  unfold colons, colon_free. induction s as [|c s IH]; [constructor|].
  cbn [filter list_filter]. destruct (decide (c = ":"%char)) as [->|Hc].
  - done.
  - intros Hs. constructor; [done|by apply IH].
Qed.

Lemma chrome_proxy_arg_is_Some (proxy : pystr) :
  is_Some (get_chrome_proxy_arg proxy) ↔ (1 ≤ colons proxy)%nat.
Proof.
  unfold get_chrome_proxy_arg.
  pose proof (length_split_colon proxy []) as Hl.
  destruct proxy as [|c s]; [cbn; split; [by intros [? ?]|lia]|].
  cbn [Py.truthy].
  destruct (split_colon (c :: s) []) as [|a [|b l]]; cbn [length] in Hl.
  - lia.
  - split; [by intros [? ?]|lia].
  - split; [lia|by eexists].
Qed.

(** X1.  [get_chrome_proxy_arg] gives an argument exactly for the proxy
    strings with at least one colon, and the argument is made of the first
    two colon-separated parts only: a user name and a password after them
    never reach the Chrome command line. *)
Theorem chrome_proxy_arg_uses_two_parts (proxy : pystr) :
  (is_Some (get_chrome_proxy_arg proxy) ↔ (1 ≤ colons proxy)%nat)
  ∧ (∀ ip port tail,
       colon_free ip → colon_free port →
       proxy = ip ++ ":"%char :: port ++ tail →
       tail = [] ∨ (∃ t, tail = ":"%char :: t) →
       get_chrome_proxy_arg proxy
       = Some (str "--proxy-server=" ++ ip ++ str ":" ++ port)).
Proof.
  split; [apply chrome_proxy_arg_is_Some|].
  intros ip port tail Hip Hport -> Htail. unfold get_chrome_proxy_arg.
  assert (Py.truthy (ip ++ ":"%char :: port ++ tail) = true) as ->
    by by destruct ip.
  rewrite split_colon_part by done. cbn [rev app].
  destruct Htail as [->|[t ->]].
  - rewrite app_nil_r, split_colon_last by done. done.
  - rewrite split_colon_part by done. done.
Qed.

(** X2.  [get_proxy_dict] gives a dictionary exactly for the proxy strings
    with one or with three colons (two or four parts); its two entries are
    equal, with the credentials before the host in the four-part form; and
    whatever it accepts [get_chrome_proxy_arg] accepts too. *)
Theorem proxy_dict_needs_two_or_four_parts (proxy : pystr) :
  (is_Some (get_proxy_dict proxy) ↔ colons proxy = 1%nat ∨ colons proxy = 3%nat)
  ∧ (is_Some (get_proxy_dict proxy) → is_Some (get_chrome_proxy_arg proxy))
  ∧ (∀ d, get_proxy_dict proxy = Some d → https d = http d)
  ∧ (∀ ip port user password,
       colon_free ip → colon_free port → colon_free user →
       colon_free password →
       proxy = ip ++ ":"%char :: port ++ ":"%char :: user
               ++ ":"%char :: password →
       get_proxy_dict proxy
       = Some (mk_dict (str "http://" ++ user ++ str ":" ++ password
                        ++ str "@" ++ ip ++ str ":" ++ port)
                       (str "http://" ++ user ++ str ":" ++ password
                        ++ str "@" ++ ip ++ str ":" ++ port))).
Proof.
  assert (is_Some (get_proxy_dict proxy)
          ↔ colons proxy = 1%nat ∨ colons proxy = 3%nat) as Hiff.
  { unfold get_proxy_dict.
    pose proof (length_split_colon proxy []) as Hl.
    destruct proxy as [|c s]; [cbn; split; [by intros [? ?]|lia]|].
    cbn [Py.truthy].
    destruct (split_colon (c :: s) []) as [|p1 [|p2 [|p3 [|p4 [|p5 l]]]]];
      cbn [length] in Hl;
      (split; [intros [? Hd]; try discriminate Hd; lia
              |intros; try lia; by eexists]). }
  split; [done|]. split; [|split].
  - intros Hd. apply Hiff in Hd.
    apply chrome_proxy_arg_is_Some. lia.
  - unfold get_proxy_dict. intros d.
    destruct (Py.truthy proxy); [|done].
    destruct (split_colon proxy []) as [|p1 [|p2 [|p3 [|p4 [|p5 l]]]]];
      try done; by intros [= <-].
  - intros ip port user password Hip Hport Huser Hpw ->.
    unfold get_proxy_dict.
    assert (Py.truthy (ip ++ ":"%char :: port ++ ":"%char :: user
                       ++ ":"%char :: password) = true) as ->
      by by destruct ip.
    rewrite !split_colon_part, split_colon_last by done. done.
Qed.

End ProxyFormatFacts.

(** ** Runs of the throttle *)

Module ThrottleRunFacts.
Import ThrottleManager ThrottleSpec ThrottleRuns.

Lemma cap_of_bounds (c : call) : (3 <= cap_of c)%Q ∧ (cap_of c <= 10)%Q.
Proof.
  destruct c as [b n n'| |k]; simpl; try lra.
  repeat case_bool_decide; lra.
Qed.

Lemma cap_bounds (calls : list call) : (3 <= cap calls)%Q ∧ (cap calls <= 10)%Q.
Proof.
  induction calls as [|c calls [IH1 IH2]]; simpl; [lra|].
  destruct (cap_of_bounds c). split.
  - eapply Qle_trans; [exact IH1|apply Q.le_max_r].
  - by apply Q.max_lub.
Qed.

(** One call moves the multiplier at most to the cap of the call, and
    never below 1. *)
Lemma run_call_cap (tm : t) (c : call) (q : Q) :
  (1 <= backoff_multiplier tm)%Q → (backoff_multiplier tm <= q)%Q →
  (backoff_multiplier (run_call tm c) <= Qmax q (cap_of c))%Q.
Proof.
  intros Hlo Hq. destruct c as [b n n'| |k]; cbn [run_call cap_of].
  - rewrite ThrottleFacts.wait_multiplier. destruct (_ && _).
    + eapply Qle_trans; [apply Q.le_min_r|apply Q.le_max_r].
    + eapply Qle_trans; [exact Hq|apply Q.le_max_l].
  - unfold report_success.
    destruct (Qltb 1 (backoff_multiplier tm)) eqn:Hlt; simpl.
    + apply ThrottleFacts.Qltb_true in Hlt.
      eapply Qle_trans; [|apply Q.le_max_l].
      apply Q.max_lub; lra.
    + eapply Qle_trans; [exact Hq|apply Q.le_max_l].
  - rewrite ThrottleFacts.report_error_cases.
    destruct (bool_decide (k = str "rate_limit"));
      [|destruct (bool_decide (k = str "block"))].
    + eapply Qle_trans; [apply Q.le_min_r|apply Q.le_max_r].
    + eapply Qle_trans; [apply Q.le_min_r|apply Q.le_max_r].
    + eapply Qle_trans; [exact Hq|apply Q.le_max_l].
Qed.

Lemma run_cap (calls : list call) (tm : t) (q : Q) :
  bounded tm → (backoff_multiplier tm <= q)%Q →
  (backoff_multiplier (run calls tm) <= Qmax q (cap calls))%Q.
Proof.
  revert tm q. induction calls as [|c calls IH]; intros tm q Hb Hq.
  - simpl. eapply Qle_trans; [exact Hq|apply Q.le_max_l].
  - cbn [run fold_left]. fold (run calls (run_call tm c)).
    eapply Qle_trans.
    + apply (IH _ (Qmax q (cap_of c))).
      * by apply ThrottleFacts.run_call_bounded.
      * apply run_call_cap; [apply Hb|done].
    + cbn [cap fold_right]. fold (cap calls).
      apply Q.max_lub; [apply Q.max_lub|].
      * apply Q.le_max_l.
      * eapply Qle_trans; [apply Q.le_max_l|apply Q.le_max_r].
      * eapply Qle_trans; [apply Q.le_max_r|apply Q.le_max_r].
Qed.

(** X3.  After any sequence of calls on a fresh [ThrottleManager] the
    multiplier is at most the cap of the worst call so far: 3.0 as long as
    no rate limit and no block was reported, 5.0 with rate limits, 10.0
    with blocks. *)
Theorem backoff_stays_under_worst_cap (min_delay max_delay : Q)
    (burst_threshold : Z) (calls : list call) :
  let tm := run calls (init min_delay max_delay burst_threshold) in
  (1 <= backoff_multiplier tm)%Q
  ∧ (backoff_multiplier tm <= cap calls)%Q
  ∧ (3 <= cap calls)%Q ∧ (cap calls <= 10)%Q
  ∧ (Forall (λ c, ∀ k, c = ReportError k →
                       k ≠ str "rate_limit" ∧ k ≠ str "block") calls →
     (backoff_multiplier tm <= 3)%Q).
Proof.
  intros tm.
  assert (bounded (init min_delay max_delay burst_threshold)) as Hb
    by (split; simpl; lra).
  destruct (cap_bounds calls) as [Hc3 Hc10].
  assert (backoff_multiplier tm <= cap calls)%Q as Hcap.
  { eapply Qle_trans; [apply (run_cap calls _ 3 Hb); simpl; lra|].
    by apply Q.max_lub; [|apply Qle_refl]. }
  split; [apply (ThrottleFacts.run_bounded calls _ Hb)|].
  split; [done|]. split; [done|]. split; [done|].
  intros Hquiet. eapply Qle_trans; [exact Hcap|].
  clear -Hquiet. induction Hquiet as [|c calls Hc _ IH]; simpl; [lra|].
  apply Q.max_lub; [|done].
  destruct c as [b n n'| |k]; simpl; try lra.
  destruct (Hc k eq_refl) as [H1 H2].
  rewrite !bool_decide_eq_false_2 by done. lra.
Qed.

End ThrottleRunFacts.
